(** * Blackmagic RAW frame extractor: a shallow embedding

    The repository holds three near-duplicate front ends over the vendor
    codec SDK:
    - [Extract]   : src/server/braw-extract.cpp   (command-line tool)
    - [Extractor] : src/server/braw-extractor.cpp (command-line tool that
                    follows the vendor sample)
    - [Addon]     : src/server/native/braw_addon.cpp (Node.js addon)

    The vendor SDK is an external collaborator.  It is embedded as a
    record of canned answers ([Vendor]); every call the code makes on it
    is logged in a trace, so that statements such as "the read job is
    released exactly once" or "no job is submitted" are statements about
    that trace. *)

From Stdlib Require Import ZArith List String Ascii Bool Lia.
From Stdlib Require Import Floats.SpecFloat DecimalString.
Import ListNotations.

Local Open Scope Z_scope.

(** ** Machine integers *)

(** [unsigned int] arithmetic wraps modulo 2^32, [uint64_t] modulo 2^64. *)
Definition wrap32 (z : Z) : Z := z mod 2 ^ 32.
Definition wrap64 (z : Z) : Z := z mod 2 ^ 64.

(** Conversion of an unsigned value to a signed type of [w] bits
    (two's complement): the casts [(int)frame_count] and
    [(long)frame_count]. *)
Definition to_signed (w : Z) (z : Z) : Z :=
  let m := z mod 2 ^ w in
  if m <? 2 ^ (w - 1) then m else m - 2 ^ w.

Definition to_int (z : Z) : Z := to_signed 32 z.
Definition to_long (z : Z) : Z := to_signed 64 z.

(** ** HRESULT *)

Definition HRESULT := Z.
Definition S_OK : HRESULT := 0.
(* LinuxCOM.h of the SDK; the code only ever compares against S_OK. *)
Definition E_FAIL : HRESULT := -2147483640.

Definition succeeded (hr : HRESULT) : bool := hr =? S_OK.

(** ** Floating point: [float] is binary32, JavaScript numbers are binary64 *)

Definition float := spec_float.

Definition float_of_uint64 (n : Z) : float := binary_normalize 24 128 n 0 false.
Definition float_div (x y : float) : float := SFdiv 24 128 x y.

Definition double_of_Z (n : Z) : spec_float := binary_normalize 53 1024 n 0 false.
Definition double_of_float (x : float) : spec_float :=
  match x with
  | S754_finite s m e => binary_normalize 53 1024 (cond_Zopp s (Zpos m)) e s
  | _ => x
  end.

Definition is_finite (x : spec_float) : bool :=
  match x with
  | S754_zero _ | S754_finite _ _ _ => true
  | S754_infinity _ | S754_nan => false
  end.

Definition is_zero (x : spec_float) : bool :=
  match x with
  | S754_zero _ => true
  | _ => false
  end.

(** ** The vendor objects *)

(** COM objects the code holds a reference to.  There is one factory, one
    codec, one clip, one read job and one decode-and-process job per run;
    processed images carry an identity. *)
Inductive Resource :=
| Factory
| Codec
| Clip
| ReadJob
| DecodeJob
| ProcessedImage (id : nat).

Definition Resource_eq_dec (a b : Resource) : {a = b} + {a <> b}.
Proof. decide equality. apply Nat.eq_dec. Defined.

(** Calls made on the SDK, in the order they are made. *)
Inductive Event :=
| CreateBlackmagicRawFactoryInstanceFromPath
| CreateCodec
| OpenClip (path : string)
| GetFrameCount
| GetWidth
| GetHeight
| GetFrameRate
| SetCallback
| CreateJobReadFrame (frameIndex : Z)
| Submit (job : Resource)
| FlushJobs
| SetResourceFormat
| CreateJobDecodeAndProcessFrame
| ImageGetWidth (id : nat)
| ImageGetHeight (id : nat)
| ImageGetResourceType (id : nat)
| ImageGetResource (id : nat)
| AddRef (r : Resource)
| Release (r : Resource).

Definition Event_eq_dec (a b : Event) : {a = b} + {a <> b}.
Proof.
  decide equality;
    solve [ apply string_dec | apply Z.eq_dec | apply Nat.eq_dec
          | apply Resource_eq_dec ].
Defined.

Definition count (e : Event) (t : list Event) : nat := count_occ Event_eq_dec t e.

Definition is_job_event (e : Event) : bool :=
  match e with
  | CreateJobReadFrame _ | Submit _ | CreateJobDecodeAndProcessFrame => true
  | _ => false
  end.

(** An out-parameter call answers with a status and either writes a
    value or leaves the caller's variable untouched. *)
Definition Answer (A : Type) : Type := (HRESULT * option A)%type.

(** A call that hands out an object: status, and whether the pointer
    written is non-null. *)
Definition Handle : Type := (HRESULT * bool)%type.

Inductive BlackmagicRawResourceType :=
| blackmagicRawResourceTypeBufferCPU
| blackmagicRawResourceTypeBufferMetal
| blackmagicRawResourceTypeBufferCUDA
| blackmagicRawResourceTypeBufferOpenCL.

Definition is_BufferCPU (t : BlackmagicRawResourceType) : bool :=
  match t with
  | blackmagicRawResourceTypeBufferCPU => true
  | _ => false
  end.

(** Memory behind a [const unsigned char*]: a byte at every offset. *)
Definition Memory := Z -> Byte.byte.

(** IBlackmagicRawFrame as seen from ReadComplete. *)
Record Frame := {
  set_resource_format : HRESULT;
  create_job_decode_and_process_frame : Handle;
  decode_submit : HRESULT
}.

(** IBlackmagicRawProcessedImage as seen from the code. *)
Record Image := {
  image_id : nat;
  image_width : Answer Z;
  image_height : Answer Z;
  image_resource_type : Answer BlackmagicRawResourceType;
  image_resource : Answer (option Memory)
}.

(** The SDK as one run of the code sees it.  [read_complete] and
    [process_complete] are what the pipeline hands to the callbacks:
    [read_complete = None] is a read job that is dropped without a
    callback, and [process_complete] lists the invocations of
    ProcessComplete made for an accepted decode job (one in a well-behaved
    pipeline). *)
Record Vendor := {
  factory : bool;
  create_codec : Handle;
  open_clip : Handle;
  get_frame_count : Answer Z;
  get_width : Answer Z;
  get_height : Answer Z;
  get_frame_rate : Answer float;
  set_callback : HRESULT;
  create_job_read_frame : Handle;
  read_submit : HRESULT;
  flush_jobs : HRESULT;
  read_complete : option (HRESULT * Frame);
  process_complete : list (HRESULT * Image);
  output_file_opens : bool
}.

(** ** The world and the monad of calls *)

Record World := {
  trace : list Event;
  pending : list Resource
}.

Definition start : World := {| trace := []; pending := [] |}.

(** A run either returns, or hits undefined behaviour (a null pointer
    dereferenced, an uninitialised variable read). *)
Inductive Run (A : Type) : Type :=
| Returns (a : A) (w : World)
| Undefined.
Arguments Returns {A} a w.
Arguments Undefined {A}.

Definition M (A : Type) : Type := World -> Run A.

Definition ret {A} (a : A) : M A := fun w => Returns a w.

Definition bind {A B} (c : M A) (k : A -> M B) : M B :=
  fun w =>
    match c w with
    | Returns a w' => k a w'
    | Undefined => Undefined
    end.

Definition undefined {A} : M A := fun _ => Undefined.

Declare Scope call_scope.
Delimit Scope call_scope with call.
Notation "x <- c ;; k" := (bind c (fun x => k))
  (at level 61, c at next level, right associativity) : call_scope.
Notation "c ;; k" := (bind c (fun _ => k))
  (at level 61, right associativity) : call_scope.
Local Open Scope call_scope.

Definition call (e : Event) : M unit :=
  fun w => Returns tt {| trace := trace w ++ [e]; pending := pending w |}.

Definition enqueue (j : Resource) : M unit :=
  fun w => Returns tt {| trace := trace w; pending := pending w ++ [j] |}.

Definition take_pending (j : Resource) : M bool :=
  fun w =>
    if in_dec Resource_eq_dec j (pending w)
    then Returns true {| trace := trace w;
                         pending := remove Resource_eq_dec j (pending w) |}
    else Returns false w.

(** [p->method()] on a pointer that may be null. *)
Definition deref (p : bool) : M unit := if p then ret tt else undefined.

(** [p->Release()] *)
Definition release (r : Resource) : M unit := call (Release r).

(** [if (p != nullptr) p->Release()] *)
Definition release_if (p : bool) (r : Resource) : M unit :=
  if p then release r else ret tt.

(** [job->Submit()]: an accepted job is queued in the pipeline. *)
Definition submit (j : Resource) (status : HRESULT) : M HRESULT :=
  call (Submit j) ;;
  (if succeeded status then enqueue j else ret tt) ;;
  ret status.

(** A getter [obj->GetX(&x)] over a zero-initialised [x]. *)
Definition getter {A} (e : Event) (a : Answer A) (x : A) : M A :=
  call e ;;
  ret (match snd a with Some v => v | None => x end).

Definition when (b : bool) (c : M unit) : M unit := if b then c else ret tt.

Fixpoint foldM {A B} (f : A -> B -> M A) (l : list B) (a : A) : M A :=
  match l with
  | [] => ret a
  | b :: l' => a' <- f a b ;; foldM f l' a'
  end.

(** The trace of a run that returned. *)
Definition trace_of {A} (r : Run A) : list Event :=
  match r with
  | Returns _ w => trace w
  | Undefined => []
  end.

Definition value_of {A} (r : Run A) : option A :=
  match r with
  | Returns a _ => Some a
  | Undefined => None
  end.

(** ** write_ppm (braw-extract.cpp and braw-extractor.cpp) *)

Definition newline : string := String "010"%char EmptyString.

Definition print_unsigned (n : Z) : string :=
  NilEmpty.string_of_uint (N.to_uint (Z.to_N n)).

(** [file << "P6\n" << width << " " << height << "\n255\n"], and
    [fprintf(file, "P6\n%u %u\n255\n", width, height)]. *)
Definition ppm_header (width height : Z) : list Byte.byte :=
  list_byte_of_string
    ("P6" ++ newline ++ print_unsigned width ++ " " ++ print_unsigned height
          ++ newline ++ "255" ++ newline)%string.

(** [for (unsigned int i = 0; i < width * height; i++)] with the three
    [put]s of the body; [i], [width * height] and [i * 4 + k] are
    [unsigned int]. *)
Fixpoint put_pixels (fuel : nat) (i bound : Z) (rgba : Memory)
    (file : list Byte.byte) : list Byte.byte :=
  match fuel with
  | O => file
  | S fuel' =>
      if i <? bound then
        put_pixels fuel' (wrap32 (i + 1)) bound rgba
          (file ++ [rgba (wrap32 (i * 4 + 0));
                    rgba (wrap32 (i * 4 + 1));
                    rgba (wrap32 (i * 4 + 2))])
      else file
  end.

(** The file written, or [None] when it cannot be opened (the function
    then returns false). *)
Definition write_ppm (opens : bool) (width height : Z) (data : Memory)
    : option (list Byte.byte) :=
  if opens then
    let bound := wrap32 (width * height) in
    Some (put_pixels (Z.to_nat bound) 0 bound data (ppm_header width height))
  else None.

(** ** What the front ends report *)

(** The error texts of the three files, one constructor per text.  The
    command-line tools print them on stderr inside a JSON object with the
    single key "error"; the addon stores them under the key "error". *)
Inductive ErrorMessage :=
| Failed_to_create_factory
| Failed_to_create_codec
| Failed_to_open_clip
| Failed_to_open_clip_at (input_path : string)
| Frame_out_of_range (frame_index last : Z)
| Frame_index_out_of_range
| Failed_to_set_callback
| Failed_to_set_callback_hex (result : HRESULT)
| Failed_to_create_read_job
| Failed_to_submit_job
| FlushJobs_failed
| Processing_error_occurred
| No_processed_image_received
| Unexpected_resource_type
| Failed_to_get_image_data
| Failed_to_write_output_file.

(** What a command-line tool leaves behind: the JSON object printed, the
    exit status, and the image file written (if any).  Diagnostics
    printed outside a JSON object are not modelled. *)
Inductive Json :=
| JsonError (error : ErrorMessage)
| JsonMetadata (frame_count width height : Z) (frame_rate duration : float)
| JsonFrame (path : string) (width height : Z).

Record Exit := {
  status : Z;
  json : Json;
  file : option (list Byte.byte)
}.

Definition exit_error (m : ErrorMessage) : Exit :=
  {| status := 1; json := JsonError m; file := None |}.

(** A Napi::Object: the keys set so far, latest first. *)
Inductive Value :=
| VBool (b : bool)
| VError (m : ErrorMessage)
| VNumber (d : spec_float)
| VBuffer (bytes : list Byte.byte).

Definition Object := list (string * Value).

Definition obj_set (k : string) (x : Value) (o : Object) : Object :=
  (k, x) :: filter (fun kv => negb (String.eqb k (fst kv))) o.

Fixpoint obj_get (k : string) (o : Object) : option Value :=
  match o with
  | [] => None
  | (k', x) :: o' => if String.eqb k k' then Some x else obj_get k o'
  end.

(** [Napi::Buffer<uint8_t>::Copy(env, data, size)] *)
Definition buffer_copy (data : Memory) (size : Z) : list Byte.byte :=
  map (fun k => data (Z.of_nat k)) (seq 0 (Z.to_nat size)).

(** ** The callback interface and the pipeline *)

(** IBlackmagicRawCallback, restricted to the two notifications that have
    a body; the others are empty in all three files. *)
Class IBlackmagicRawCallback (Sink : Type) := {
  onReadComplete : Sink -> Resource -> HRESULT -> Frame -> M Sink;
  onProcessComplete : Sink -> Resource -> HRESULT -> Image -> M Sink
}.

(** The SDK's side of [codec->FlushJobs()]: every accepted job has its
    callback run before the call returns.  An accepted read job gets
    ReadComplete with the answer of [read_complete]; a decode job accepted
    from inside ReadComplete gets ProcessComplete once per entry of
    [process_complete]. *)
Definition run_pipeline {Sink} `{IBlackmagicRawCallback Sink} (v : Vendor)
    (cb : Sink) : M Sink :=
  r <- take_pending ReadJob ;;
  cb <- (if r then
           match read_complete v with
           | Some (result, frame) => onReadComplete cb ReadJob result frame
           | None => ret cb
           end
         else ret cb) ;;
  d <- take_pending DecodeJob ;;
  if d then
    foldM (fun cb ri => onProcessComplete cb DecodeJob (fst ri) (snd ri))
          (process_complete v) cb
  else ret cb.

Definition flush {Sink} `{IBlackmagicRawCallback Sink} (v : Vendor) (cb : Sink)
    : M (HRESULT * Sink) :=
  call FlushJobs ;;
  cb <- run_pipeline v cb ;;
  ret (flush_jobs v, cb).

(** * braw-extract.cpp *)

Module Extract.

Record BRAWCallback := {
  processed_image : option Image;
  error_occurred : bool
}.

(** [BRAWCallback() : processed_image(nullptr), error_occurred(false)] *)
Definition new_BRAWCallback : BRAWCallback :=
  {| processed_image := None; error_occurred := false |}.

(** [~BRAWCallback()] *)
Definition delete_BRAWCallback (self : BRAWCallback) : M unit :=
  match processed_image self with
  | Some im => release (ProcessedImage (image_id im))
  | None => ret tt
  end.

Definition set_error (self : BRAWCallback) : BRAWCallback :=
  {| processed_image := processed_image self; error_occurred := true |}.

Definition ReadComplete (self : BRAWCallback) (readJob : Resource)
    (result : HRESULT) (frame : Frame) : M BRAWCallback :=
  if negb (succeeded result) then
    release readJob ;; ret (set_error self)
  else
    call SetResourceFormat ;;
    let result := set_resource_format frame in
    if negb (succeeded result) then
      release readJob ;; ret (set_error self)
    else
      call CreateJobDecodeAndProcessFrame ;;
      let '(result, decodeJob) := create_job_decode_and_process_frame frame in
      if negb (succeeded result) then
        release readJob ;; ret (set_error self)
      else
        deref decodeJob ;;
        result <- submit DecodeJob (decode_submit frame) ;;
        let self := if negb (succeeded result) then set_error self else self in
        release DecodeJob ;;
        release readJob ;;
        ret self.

Definition ProcessComplete (self : BRAWCallback) (job : Resource)
    (result : HRESULT) (processedImage : Image) : M BRAWCallback :=
  if negb (succeeded result) then
    release job ;; ret (set_error self)
  else
    match processed_image self with
    | Some old => release (ProcessedImage (image_id old))
    | None => ret tt
    end ;;
    call (AddRef (ProcessedImage (image_id processedImage))) ;;
    release job ;;
    ret {| processed_image := Some processedImage;
           error_occurred := error_occurred self |}.

#[export] Instance BRAWCallback_callback : IBlackmagicRawCallback BRAWCallback :=
  {| onReadComplete := ReadComplete; onProcessComplete := ProcessComplete |}.

Definition extract_metadata (v : Vendor) (input_path : string) : M Exit :=
  call CreateBlackmagicRawFactoryInstanceFromPath ;;
  if negb (factory v) then ret (exit_error Failed_to_create_factory)
  else
    call CreateCodec ;;
    let '(result, codec) := create_codec v in
    if negb (succeeded result) || negb codec then
      release Factory ;;
      ret (exit_error Failed_to_create_codec)
    else
      call (OpenClip input_path) ;;
      let '(result, clip) := open_clip v in
      if negb (succeeded result) || negb clip then
        release Codec ;;
        release Factory ;;
        ret (exit_error (Failed_to_open_clip_at input_path))
      else
        frame_count <- getter GetFrameCount (get_frame_count v) 0 ;;
        width <- getter GetWidth (get_width v) 0 ;;
        height <- getter GetHeight (get_height v) 0 ;;
        frame_rate <- getter GetFrameRate (get_frame_rate v) (S754_zero false) ;;
        let frame_count := wrap64 frame_count in
        let width := wrap32 width in
        let height := wrap32 height in
        let out := JsonMetadata frame_count width height frame_rate
                     (float_div (float_of_uint64 frame_count) frame_rate) in
        release Clip ;;
        release Codec ;;
        release Factory ;;
        ret {| status := 0; json := out; file := None |}.

(** The three releases that end every exit of extract_frame once the clip
    is open. *)
Definition cleanup : M unit :=
  release Clip ;; release Codec ;; release Factory.

(** extract_frame from the return of FlushJobs on: [result] is the status
    that FlushJobs returned, [callback] the sink as the pipeline left it. *)
Definition extract_frame_resolve (v : Vendor) (result : HRESULT)
    (callback : BRAWCallback) (output_path : string) : M Exit :=
  if negb (succeeded result) then
    cleanup ;; ret (exit_error FlushJobs_failed)
  else if error_occurred callback then
    cleanup ;; ret (exit_error Processing_error_occurred)
  else
    match processed_image callback with
    | None => cleanup ;; ret (exit_error No_processed_image_received)
    | Some im =>
        width <- getter (ImageGetWidth (image_id im)) (image_width im) 0 ;;
        height <- getter (ImageGetHeight (image_id im)) (image_height im) 0 ;;
        let width := wrap32 width in
        let height := wrap32 height in
        call (ImageGetResourceType (image_id im)) ;;
        match snd (image_resource_type im) with
        | None => undefined
        | Some resourceType =>
            if negb (is_BufferCPU resourceType) then
              cleanup ;; ret (exit_error Unexpected_resource_type)
            else
              imageData <- getter (ImageGetResource (image_id im))
                             (image_resource im) None ;;
              let result := fst (image_resource im) in
              match imageData with
              | Some data =>
                  if negb (succeeded result) then
                    cleanup ;; ret (exit_error Failed_to_get_image_data)
                  else
                    match write_ppm (output_file_opens v) width height data with
                    | None =>
                        cleanup ;; ret (exit_error Failed_to_write_output_file)
                    | Some written =>
                        cleanup ;;
                        ret {| status := 0;
                               json := JsonFrame output_path width height;
                               file := Some written |}
                    end
              | None => cleanup ;; ret (exit_error Failed_to_get_image_data)
              end
        end
    end.

(** [g_callback] is a global: extract_frame deletes the sink of the
    previous call, if there is one, and leaves its own sink behind. *)
Definition extract_frame (v : Vendor) (g_callback : option BRAWCallback)
    (input_path : string) (frame_index : Z) (output_path : string)
    : M (Exit * BRAWCallback) :=
  match g_callback with
  | Some old => delete_BRAWCallback old
  | None => ret tt
  end ;;
  let callback := new_BRAWCallback in
  call CreateBlackmagicRawFactoryInstanceFromPath ;;
  if negb (factory v) then ret (exit_error Failed_to_create_factory, callback)
  else
    call CreateCodec ;;
    let '(result, codec) := create_codec v in
    if negb (succeeded result) || negb codec then
      release Factory ;;
      ret (exit_error Failed_to_create_codec, callback)
    else
      call (OpenClip input_path) ;;
      let '(result, clip) := open_clip v in
      if negb (succeeded result) || negb clip then
        release Codec ;;
        release Factory ;;
        ret (exit_error Failed_to_open_clip, callback)
      else
        frame_count <- getter GetFrameCount (get_frame_count v) 0 ;;
        let frame_count := wrap64 frame_count in
        if (frame_index <? 0) || (frame_index >=? to_int frame_count) then
          cleanup ;;
          ret (exit_error (Frame_out_of_range frame_index (wrap64 (frame_count - 1))),
               callback)
        else
          call SetCallback ;;
          let result := set_callback v in
          if negb (succeeded result) then
            cleanup ;;
            ret (exit_error (Failed_to_set_callback_hex result), callback)
          else
            call (CreateJobReadFrame frame_index) ;;
            let '(result, readJob) := create_job_read_frame v in
            if negb (succeeded result) || negb readJob then
              cleanup ;;
              ret (exit_error Failed_to_create_read_job, callback)
            else
              result <- submit ReadJob (read_submit v) ;;
              if negb (succeeded result) then
                release ReadJob ;;
                cleanup ;;
                ret (exit_error Failed_to_submit_job, callback)
              else
                release ReadJob ;;
                rc <- flush v callback ;;
                let '(result, callback) := rc in
                e <- extract_frame_resolve v result callback output_path ;;
                ret (e, callback).

(** [main]: [argv] is the command line, [argc] its length; [atoi] is the
    C library's conversion of the index argument.  The usage texts go to
    stderr outside any JSON object.  The result is the exit status and
    what the operation that ran, if one did, left behind. *)
Definition main (v : Vendor) (atoi : string -> Z) (argv : list string)
    : M (Z * option Exit) :=
  let argc := Z.of_nat (List.length argv) in
  if argc <? 3 then ret (1, None)
  else
    let command := nth 1 argv EmptyString in
    if String.eqb command "metadata" then
      if negb (argc =? 3) then ret (1, None)
      else
        e <- extract_metadata v (nth 2 argv EmptyString) ;;
        ret (status e, Some e)
    else if String.eqb command "extract" then
      if negb (argc =? 5) then ret (1, None)
      else
        let frame_index := atoi (nth 3 argv EmptyString) in
        ec <- extract_frame v None (nth 2 argv EmptyString) frame_index
                (nth 4 argv EmptyString) ;;
        ret (status (fst ec), Some (fst ec))
    else ret (1, None).

End Extract.

(** * braw-extractor.cpp *)

Module Extractor.

(** The file-scope variables [g_output_path], [g_output_width],
    [g_output_height], [g_output_success], and the file behind
    [g_output_path]. *)
Record Statics := {
  g_output_path : string;
  g_output_width : Z;
  g_output_height : Z;
  g_output_success : bool;
  output_file : option (list Byte.byte)
}.

(** [write_ppm] on a pointer that may be null: the pointer is only
    dereferenced inside the loop. *)
Definition write_ppm_at (opens : bool) (width height : Z)
    (data : option Memory) : M (option (list Byte.byte)) :=
  match data with
  | Some m => ret (write_ppm opens width height m)
  | None =>
      if negb opens then ret None
      else if wrap32 (width * height) =? 0
           then ret (Some (ppm_header width height))
           else undefined
  end.

Definition ReadComplete (g : Statics) (readJob : Resource)
    (result : HRESULT) (frame : Frame) : M Statics :=
  let decodeAndProcessJob := false in
  result <- (if succeeded result
             then call SetResourceFormat ;; ret (set_resource_format frame)
             else ret result) ;;
  rj <- (if succeeded result
         then call CreateJobDecodeAndProcessFrame ;;
              ret (create_job_decode_and_process_frame frame)
         else ret (result, decodeAndProcessJob)) ;;
  let '(result, decodeAndProcessJob) := rj in
  result <- (if succeeded result
             then deref decodeAndProcessJob ;;
                  submit DecodeJob (decode_submit frame)
             else ret result) ;;
  when (negb (succeeded result)) (release_if decodeAndProcessJob DecodeJob) ;;
  release readJob ;;
  ret g.

Definition ProcessComplete (opens : bool) (g : Statics) (job : Resource)
    (result : HRESULT) (processedImage : Image) : M Statics :=
  let id := image_id processedImage in
  rw <- (if succeeded result
         then w <- getter (ImageGetWidth id) (image_width processedImage) 0 ;;
              ret (fst (image_width processedImage), w)
         else ret (result, 0)) ;;
  let '(result, width) := rw in
  rh <- (if succeeded result
         then h <- getter (ImageGetHeight id) (image_height processedImage) 0 ;;
              ret (fst (image_height processedImage), h)
         else ret (result, 0)) ;;
  let '(result, height) := rh in
  rd <- (if succeeded result
         then d <- getter (ImageGetResource id) (image_resource processedImage) None ;;
              ret (fst (image_resource processedImage), d)
         else ret (result, None)) ;;
  let '(result, imageData) := rd in
  let width := wrap32 width in
  let height := wrap32 height in
  g <- (if succeeded result
        then written <- write_ppm_at opens width height imageData ;;
             ret {| g_output_path := g_output_path g;
                    g_output_width := width;
                    g_output_height := height;
                    g_output_success :=
                      match written with Some _ => true | None => false end;
                    output_file :=
                      match written with Some _ => written | None => output_file g end |}
        else ret g) ;;
  release job ;;
  ret g.

#[export] Instance CameraCodecCallback (opens : bool) : IBlackmagicRawCallback Statics :=
  {| onReadComplete := ReadComplete; onProcessComplete := ProcessComplete opens |}.

(** The local variables that the code after [do { ... } while(0)] reads. *)
Record Locals := {
  result : HRESULT;
  factory_ptr : bool;
  codec_ptr : bool;
  clip_ptr : bool
}.

(** [if (clip != nullptr) clip->Release(); ...] *)
Definition release_all (l : Locals) : M unit :=
  release_if (clip_ptr l) Clip ;;
  release_if (codec_ptr l) Codec ;;
  release_if (factory_ptr l) Factory.

Definition exit_status (l : Locals) : Z := if succeeded (result l) then 0 else 1.

Definition extract_metadata_body (v : Vendor) (input_path : string)
    : M (Locals * Json) :=
  call CreateBlackmagicRawFactoryInstanceFromPath ;;
  if negb (factory v) then
    ret ({| result := S_OK; factory_ptr := false; codec_ptr := false;
            clip_ptr := false |}, JsonError Failed_to_create_factory)
  else
    call CreateCodec ;;
    let '(result, codec) := create_codec v in
    if negb (succeeded result) then
      ret ({| result := result; factory_ptr := true; codec_ptr := codec;
              clip_ptr := false |}, JsonError Failed_to_create_codec)
    else
      deref codec ;;
      call (OpenClip input_path) ;;
      let '(result, clip) := open_clip v in
      if negb (succeeded result) then
        ret ({| result := result; factory_ptr := true; codec_ptr := codec;
                clip_ptr := clip |}, JsonError Failed_to_open_clip)
      else
        deref clip ;;
        frame_count <- getter GetFrameCount (get_frame_count v) 0 ;;
        width <- getter GetWidth (get_width v) 0 ;;
        height <- getter GetHeight (get_height v) 0 ;;
        frame_rate <- getter GetFrameRate (get_frame_rate v) (S754_zero false) ;;
        let frame_count := wrap64 frame_count in
        let width := wrap32 width in
        let height := wrap32 height in
        ret ({| result := result; factory_ptr := true; codec_ptr := codec;
                clip_ptr := clip |},
             JsonMetadata frame_count width height frame_rate
               (float_div (float_of_uint64 frame_count) frame_rate)).

Definition extract_metadata (v : Vendor) (input_path : string) : M Exit :=
  lj <- extract_metadata_body v input_path ;;
  let '(l, out) := lj in
  release_all l ;;
  ret {| status := exit_status l; json := out; file := None |}.

Definition extract_frame_body (v : Vendor) (g : Statics) (input_path : string)
    (frame_index : Z) (output_path : string) : M (Locals * Json * Statics) :=
  call CreateBlackmagicRawFactoryInstanceFromPath ;;
  if negb (factory v) then
    ret ({| result := S_OK; factory_ptr := false; codec_ptr := false;
            clip_ptr := false |}, JsonError Failed_to_create_factory, g)
  else
    call CreateCodec ;;
    let '(result, codec) := create_codec v in
    if negb (succeeded result) then
      ret ({| result := result; factory_ptr := true; codec_ptr := codec;
              clip_ptr := false |}, JsonError Failed_to_create_codec, g)
    else
      deref codec ;;
      call (OpenClip input_path) ;;
      let '(result, clip) := open_clip v in
      if negb (succeeded result) then
        ret ({| result := result; factory_ptr := true; codec_ptr := codec;
                clip_ptr := clip |}, JsonError Failed_to_open_clip, g)
      else
        deref clip ;;
        let here r := {| result := r; factory_ptr := true; codec_ptr := codec;
                         clip_ptr := clip |} in
        frame_count <- getter GetFrameCount (get_frame_count v) 0 ;;
        let frame_count := wrap64 frame_count in
        if (frame_index <? 0) || (frame_index >=? to_long frame_count) then
          ret (here E_FAIL,
               JsonError (Frame_out_of_range frame_index (wrap64 (frame_count - 1))),
               g)
        else
          call SetCallback ;;
          let result := set_callback v in
          if negb (succeeded result) then
            ret (here result, JsonError Failed_to_set_callback, g)
          else
            call (CreateJobReadFrame frame_index) ;;
            let '(result, readJob) := create_job_read_frame v in
            if negb (succeeded result) then
              ret (here result, JsonError Failed_to_create_read_job, g)
            else
              deref readJob ;;
              result <- submit ReadJob (read_submit v) ;;
              if negb (succeeded result) then
                release ReadJob ;;
                ret (here result, JsonError Failed_to_submit_job, g)
              else
                rg <- flush (H := CameraCodecCallback (output_file_opens v)) v g ;;
                let g := snd rg in
                if g_output_success g then
                  ret (here result,
                       JsonFrame output_path (g_output_width g) (g_output_height g),
                       g)
                else
                  ret (here E_FAIL, JsonError Failed_to_write_output_file, g).

(** [g] holds the file-scope variables as the previous call left them. *)
Definition extract_frame (v : Vendor) (g : Statics) (input_path : string)
    (frame_index : Z) (output_path : string) : M (Exit * Statics) :=
  let g := {| g_output_path := output_path;
              g_output_width := g_output_width g;
              g_output_height := g_output_height g;
              g_output_success := false;
              output_file := None |} in
  ljg <- extract_frame_body v g input_path frame_index output_path ;;
  let '(l, out, g) := ljg in
  release_all l ;;
  ret ({| status := exit_status l; json := out; file := output_file g |}, g).

(** [main]: as in braw-extract.cpp, with [atol] for the index; the
    file-scope variables are in their initial state. *)
Definition main (v : Vendor) (atol : string -> Z) (argv : list string)
    : M (Z * option Exit) :=
  let argc := Z.of_nat (List.length argv) in
  if argc <? 3 then ret (1, None)
  else
    let command := nth 1 argv EmptyString in
    if String.eqb command "metadata" then
      if negb (argc =? 3) then ret (1, None)
      else
        e <- extract_metadata v (nth 2 argv EmptyString) ;;
        ret (status e, Some e)
    else if String.eqb command "extract" then
      if negb (argc =? 5) then ret (1, None)
      else
        let frame_index := atol (nth 3 argv EmptyString) in
        let statics := {| g_output_path := EmptyString;
                          g_output_width := 0;
                          g_output_height := 0;
                          g_output_success := false;
                          output_file := None |} in
        ec <- extract_frame v statics (nth 2 argv EmptyString) frame_index
                (nth 4 argv EmptyString) ;;
        ret (status (fst ec), Some (fst ec))
    else ret (1, None).

End Extractor.

(** * native/braw_addon.cpp *)

Module Addon.

Record BRAWCallback := {
  processed_image : option Image;
  error_occurred : bool
}.

Definition new_BRAWCallback : BRAWCallback :=
  {| processed_image := None; error_occurred := false |}.

(** [~BRAWCallback()] *)
Definition delete_BRAWCallback (self : BRAWCallback) : M unit :=
  match processed_image self with
  | Some im => release (ProcessedImage (image_id im))
  | None => ret tt
  end.

Definition set_error (self : BRAWCallback) : BRAWCallback :=
  {| processed_image := processed_image self; error_occurred := true |}.

Definition ReadComplete (self : BRAWCallback) (readJob : Resource)
    (result : HRESULT) (frame : Frame) : M BRAWCallback :=
  let decodeAndProcessJob := false in
  result <- (if succeeded result
             then call SetResourceFormat ;; ret (set_resource_format frame)
             else ret result) ;;
  rj <- (if succeeded result
         then call CreateJobDecodeAndProcessFrame ;;
              ret (create_job_decode_and_process_frame frame)
         else ret (result, decodeAndProcessJob)) ;;
  let '(result, decodeAndProcessJob) := rj in
  result <- (if succeeded result
             then deref decodeAndProcessJob ;;
                  submit DecodeJob (decode_submit frame)
             else ret result) ;;
  self <- (if negb (succeeded result)
           then release_if decodeAndProcessJob DecodeJob ;; ret (set_error self)
           else ret self) ;;
  release readJob ;;
  ret self.

Definition ProcessComplete (self : BRAWCallback) (job : Resource)
    (result : HRESULT) (processedImage : Image) : M BRAWCallback :=
  if negb (succeeded result) then
    release job ;; ret (set_error self)
  else
    match processed_image self with
    | Some old => release (ProcessedImage (image_id old))
    | None => ret tt
    end ;;
    call (AddRef (ProcessedImage (image_id processedImage))) ;;
    release job ;;
    ret {| processed_image := Some processedImage;
           error_occurred := error_occurred self |}.

#[export] Instance BRAWCallback_callback : IBlackmagicRawCallback BRAWCallback :=
  {| onReadComplete := ReadComplete; onProcessComplete := ProcessComplete |}.

Record Locals := {
  result : HRESULT;
  factory_ptr : bool;
  codec_ptr : bool;
  clip_ptr : bool
}.

Definition release_all (l : Locals) : M unit :=
  release_if (clip_ptr l) Clip ;;
  release_if (codec_ptr l) Codec ;;
  release_if (factory_ptr l) Factory.

(** [o.Set("success", false); o.Set("error", m)] *)
Definition set_failure (m : ErrorMessage) (o : Object) : Object :=
  obj_set "error" (VError m) (obj_set "success" (VBool false) o).

Definition ExtractMetadata_body (v : Vendor) (filePath : string)
    : M (Locals * Object) :=
  let metadata : Object := [] in
  call CreateBlackmagicRawFactoryInstanceFromPath ;;
  if negb (factory v) then
    ret ({| result := S_OK; factory_ptr := false; codec_ptr := false;
            clip_ptr := false |}, set_failure Failed_to_create_factory metadata)
  else
    call CreateCodec ;;
    let '(result, codec) := create_codec v in
    if negb (succeeded result) then
      ret ({| result := result; factory_ptr := true; codec_ptr := codec;
              clip_ptr := false |}, set_failure Failed_to_create_codec metadata)
    else
      deref codec ;;
      call (OpenClip filePath) ;;
      let '(result, clip) := open_clip v in
      if negb (succeeded result) then
        ret ({| result := result; factory_ptr := true; codec_ptr := codec;
                clip_ptr := clip |}, set_failure Failed_to_open_clip metadata)
      else
        deref clip ;;
        frame_count <- getter GetFrameCount (get_frame_count v) 0 ;;
        width <- getter GetWidth (get_width v) 0 ;;
        height <- getter GetHeight (get_height v) 0 ;;
        frame_rate <- getter GetFrameRate (get_frame_rate v) (S754_zero false) ;;
        let frame_count := wrap64 frame_count in
        let width := wrap32 width in
        let height := wrap32 height in
        let metadata := obj_set "success" (VBool true) metadata in
        let metadata := obj_set "frame_count" (VNumber (double_of_Z frame_count)) metadata in
        let metadata := obj_set "width" (VNumber (double_of_Z width)) metadata in
        let metadata := obj_set "height" (VNumber (double_of_Z height)) metadata in
        let metadata := obj_set "frame_rate" (VNumber (double_of_float frame_rate)) metadata in
        let metadata :=
          obj_set "duration"
            (VNumber (double_of_float
                        (float_div (float_of_uint64 frame_count) frame_rate)))
            metadata in
        ret ({| result := result; factory_ptr := true; codec_ptr := codec;
                clip_ptr := clip |}, metadata).

(** The arguments are taken as already checked to be a string (and, for
    ExtractFrame, a number converted with Int64Value). *)
Definition ExtractMetadata (v : Vendor) (filePath : string) : M Object :=
  lo <- ExtractMetadata_body v filePath ;;
  let '(l, metadata) := lo in
  release_all l ;;
  ret metadata.

(** ExtractFrame from "Check for errors" on: what is done with the sink
    once FlushJobs has returned. *)
Definition ExtractFrame_resolve (here : HRESULT -> Locals)
    (callback : BRAWCallback) (resultObj : Object) : M (Locals * Object) :=
  if error_occurred callback then
    ret (here E_FAIL, set_failure Processing_error_occurred resultObj)
  else
    match processed_image callback with
    | None => ret (here E_FAIL, set_failure No_processed_image_received resultObj)
    | Some im =>
        width <- getter (ImageGetWidth (image_id im)) (image_width im) 0 ;;
        height <- getter (ImageGetHeight (image_id im)) (image_height im) 0 ;;
        let width := wrap32 width in
        let height := wrap32 height in
        call (ImageGetResourceType (image_id im)) ;;
        match snd (image_resource_type im) with
        | None => undefined
        | Some resourceType =>
            if negb (is_BufferCPU resourceType) then
              ret (here E_FAIL, set_failure Unexpected_resource_type resultObj)
            else
              imageData <- getter (ImageGetResource (image_id im))
                             (image_resource im) None ;;
              let result := fst (image_resource im) in
              match imageData with
              | Some data =>
                  if negb (succeeded result) then
                    ret (here result, set_failure Failed_to_get_image_data resultObj)
                  else
                    let bufferSize := wrap32 (wrap32 (width * height) * 4) in
                    let buffer := buffer_copy data bufferSize in
                    let resultObj := obj_set "success" (VBool true) resultObj in
                    let resultObj := obj_set "width" (VNumber (double_of_Z width)) resultObj in
                    let resultObj := obj_set "height" (VNumber (double_of_Z height)) resultObj in
                    let resultObj := obj_set "buffer" (VBuffer buffer) resultObj in
                    ret (here result, resultObj)
              | None =>
                  ret (here result, set_failure Failed_to_get_image_data resultObj)
              end
        end
    end.

Definition ExtractFrame_body (v : Vendor) (callback : BRAWCallback)
    (filePath : string) (frameIndex : Z) : M (Locals * Object * BRAWCallback) :=
  let resultObj : Object := [] in
  call CreateBlackmagicRawFactoryInstanceFromPath ;;
  if negb (factory v) then
    ret ({| result := S_OK; factory_ptr := false; codec_ptr := false;
            clip_ptr := false |},
         set_failure Failed_to_create_factory resultObj, callback)
  else
    call CreateCodec ;;
    let '(result, codec) := create_codec v in
    if negb (succeeded result) then
      ret ({| result := result; factory_ptr := true; codec_ptr := codec;
              clip_ptr := false |},
           set_failure Failed_to_create_codec resultObj, callback)
    else
      deref codec ;;
      call (OpenClip filePath) ;;
      let '(result, clip) := open_clip v in
      if negb (succeeded result) then
        ret ({| result := result; factory_ptr := true; codec_ptr := codec;
                clip_ptr := clip |},
             set_failure Failed_to_open_clip resultObj, callback)
      else
        deref clip ;;
        let here r := {| result := r; factory_ptr := true; codec_ptr := codec;
                         clip_ptr := clip |} in
        frame_count <- getter GetFrameCount (get_frame_count v) 0 ;;
        let frame_count := wrap64 frame_count in
        if (frameIndex <? 0) || (frameIndex >=? to_long frame_count) then
          ret (here E_FAIL, set_failure Frame_index_out_of_range resultObj, callback)
        else
          call SetCallback ;;
          let result := set_callback v in
          if negb (succeeded result) then
            ret (here result, set_failure Failed_to_set_callback resultObj, callback)
          else
            call (CreateJobReadFrame frameIndex) ;;
            let '(result, readJob) := create_job_read_frame v in
            if negb (succeeded result) then
              ret (here result, set_failure Failed_to_create_read_job resultObj,
                   callback)
            else
              deref readJob ;;
              result <- submit ReadJob (read_submit v) ;;
              if negb (succeeded result) then
                release ReadJob ;;
                ret (here result, set_failure Failed_to_submit_job resultObj,
                     callback)
              else
                rc <- flush v callback ;;
                let callback := snd rc in
                lo <- ExtractFrame_resolve here callback resultObj ;;
                ret (lo, callback).

(** [BRAWCallback callback;] is a local: it is constructed on entry and
    destroyed when the function returns. *)
Definition ExtractFrame (v : Vendor) (filePath : string) (frameIndex : Z)
    : M Object :=
  let callback := new_BRAWCallback in
  loc <- ExtractFrame_body v callback filePath frameIndex ;;
  let '(l, resultObj, callback) := loc in
  release_all l ;;
  delete_BRAWCallback callback ;;
  ret resultObj.

(** The arguments of a call from JavaScript.  A number carries the value
    that [Int64Value()] gives for it. *)
Inductive JsValue :=
| JsString (s : string)
| JsNumber (int64 : Z)
| JsOther.

(** The exported functions, with their argument checks: the object
    returned, and the TypeError thrown (if one is). *)
Definition ExtractMetadata_info (v : Vendor) (info : list JsValue)
    : M (Object * option string) :=
  match nth_error info 0 with
  | Some (JsString filePath) =>
      metadata <- ExtractMetadata v filePath ;;
      ret (metadata, None)
  | _ => ret ([], Some "String expected for file path"%string)
  end.

Definition ExtractFrame_info (v : Vendor) (info : list JsValue)
    : M (Object * option string) :=
  match nth_error info 0, nth_error info 1 with
  | Some (JsString filePath), Some (JsNumber frameIndex) =>
      resultObj <- ExtractFrame v filePath frameIndex ;;
      ret (resultObj, None)
  | _, _ =>
      ret ([], Some "Expected (string filePath, number frameIndex)"%string)
  end.

End Addon.

(** * The specification's vocabulary *)

(** ** Failure stages and outcomes (data model of the design document) *)

Inductive Stage :=
| FactoryUnavailable
| CodecCreateFailed
| ClipOpenFailed
| FrameIndexOutOfRange
| ReadFailed
| FormatConfigFailed
| DecodeSubmitFailed
| ProcessFailed
| UnsupportedResourceLocation
| ResourceUnavailable.

Inductive DecodeOutcome :=
| Decoded (width height : Z) (pixels : Memory)
| Failed (stage : Stage).

(** The stage that each error text of the code stands for.  A read job
    that cannot be created or submitted is the design's "submission
    failure"; the texts about SetCallback, FlushJobs and the output file
    have no stage in the taxonomy. *)
Definition stage_of (m : ErrorMessage) : option Stage :=
  match m with
  | Failed_to_create_factory => Some FactoryUnavailable
  | Failed_to_create_codec => Some CodecCreateFailed
  | Failed_to_open_clip | Failed_to_open_clip_at _ => Some ClipOpenFailed
  | Frame_out_of_range _ _ | Frame_index_out_of_range => Some FrameIndexOutOfRange
  | Failed_to_create_read_job | Failed_to_submit_job => Some ReadFailed
  | Processing_error_occurred => Some ProcessFailed
  | No_processed_image_received => Some ResourceUnavailable
  | Unexpected_resource_type => Some UnsupportedResourceLocation
  | Failed_to_get_image_data => Some ResourceUnavailable
  | Failed_to_set_callback | Failed_to_set_callback_hex _
  | FlushJobs_failed | Failed_to_write_output_file => None
  end.

Definition error_of_json (j : Json) : option ErrorMessage :=
  match j with
  | JsonError m => Some m
  | _ => None
  end.

Definition error_of_object (o : Object) : option ErrorMessage :=
  match obj_get "success" o, obj_get "error" o with
  | Some (VBool false), Some (VError m) => Some m
  | _, _ => None
  end.

Definition stage_of_json (j : Json) : option Stage :=
  match error_of_json j with
  | Some m => stage_of m
  | None => None
  end.

Definition stage_of_object (o : Object) : option Stage :=
  match error_of_object o with
  | Some m => stage_of m
  | None => None
  end.

(** ** Reading a stub *)

Definition written {A} (a : Answer A) (default : A) : A :=
  match snd a with
  | Some x => x
  | None => default
  end.

(** The clip is open: the factory exists, CreateCodec and OpenClip
    report S_OK and hand out an object. *)
Definition opens (v : Vendor) : bool :=
  factory v
  && succeeded (fst (create_codec v)) && snd (create_codec v)
  && succeeded (fst (open_clip v)) && snd (open_clip v).

(** The values of the locals [frame_count] and [frame_rate] after the
    getters have run. *)
Definition frameCount (v : Vendor) : Z := wrap64 (written (get_frame_count v) 0).
Definition frameRate (v : Vendor) : float := written (get_frame_rate v) (S754_zero false).
Definition clipWidth (v : Vendor) : Z := wrap32 (written (get_width v) 0).
Definition clipHeight (v : Vendor) : Z := wrap32 (written (get_height v) 0).

(** The same SDK with other statuses returned by the four getters of the
    clip. *)
Definition with_getter_statuses (v : Vendor) (s1 s2 s3 s4 : HRESULT) : Vendor :=
  {| factory := factory v;
     create_codec := create_codec v;
     open_clip := open_clip v;
     get_frame_count := (s1, snd (get_frame_count v));
     get_width := (s2, snd (get_width v));
     get_height := (s3, snd (get_height v));
     get_frame_rate := (s4, snd (get_frame_rate v));
     set_callback := set_callback v;
     create_job_read_frame := create_job_read_frame v;
     read_submit := read_submit v;
     flush_jobs := flush_jobs v;
     read_complete := read_complete v;
     process_complete := process_complete v;
     output_file_opens := output_file_opens v |}.

(** The duration that a metadata query has to report. *)
Definition duration (v : Vendor) : float :=
  float_div (float_of_uint64 (frameCount v)) (frameRate v).

(** What a run shows to its caller and to the SDK: the stage of the
    failure reported (if it reports one), and the calls made. *)
Record Observed := {
  failure : option Stage;
  sdk_calls : list Event
}.

Definition observe_exit (r : Run Exit) : option Observed :=
  match r with
  | Returns e w => Some {| failure := stage_of_json (json e); sdk_calls := trace w |}
  | Undefined => None
  end.

Definition observe_object (r : Run Object) : option Observed :=
  match r with
  | Returns o w => Some {| failure := stage_of_object o; sdk_calls := trace w |}
  | Undefined => None
  end.

(** The metadata operation of the three files on the same SDK. *)
Definition metadata_runs (v : Vendor) (path : string) : list (option Observed) :=
  [ observe_exit (Extract.extract_metadata v path start);
    observe_exit (Extractor.extract_metadata v path start);
    observe_object (Addon.ExtractMetadata v path start) ].

(** The read job is created and accepted: the run gets as far as
    FlushJobs. *)
Definition read_job_accepted (v : Vendor) : bool :=
  succeeded (set_callback v)
  && succeeded (fst (create_job_read_frame v)) && snd (create_job_read_frame v)
  && succeeded (read_submit v).

(** The index passes the range check of braw-extract.cpp, and of the
    other two files. *)
Definition passes_int_check (v : Vendor) (i : Z) : bool :=
  negb ((i <? 0) || (i >=? to_int (frameCount v))).
Definition passes_long_check (v : Vendor) (i : Z) : bool :=
  negb ((i <? 0) || (i >=? to_long (frameCount v))).

(** The state of a sink. *)
Definition Extract_sink (errorFlag : bool) (image : option Image)
    : Extract.BRAWCallback :=
  {| Extract.processed_image := image; Extract.error_occurred := errorFlag |}.
Definition Addon_sink (errorFlag : bool) (image : option Image)
    : Addon.BRAWCallback :=
  {| Addon.processed_image := image; Addon.error_occurred := errorFlag |}.

Definition is_int (z : Z) : Prop := - 2 ^ 31 <= z < 2 ^ 31.
Definition is_long (z : Z) : Prop := - 2 ^ 63 <= z < 2 ^ 63.

Definition no_job_event (t : list Event) : bool :=
  forallb (fun e => negb (is_job_event e)) t.

(** ** ReadComplete *)

(** One of the steps before the decode job is submitted fails. *)
Definition step_fails (result : HRESULT) (frame : Frame) : bool :=
  negb (succeeded result)
  || negb (succeeded (set_resource_format frame))
  || negb (succeeded (fst (create_job_decode_and_process_frame frame))).

(** CreateJobDecodeAndProcessFrame hands out a job whenever it reports
    S_OK. *)
Definition hands_out (h : Handle) : bool := implb (succeeded (fst h)) (snd h).

(** ** The life of a sink: constructed, ProcessComplete invoked any number
    of times, destroyed *)

(** The images of the successful invocations, in order. *)
Definition stored (calls : list (HRESULT * Image)) : list nat :=
  map (fun ri => image_id (snd ri)) (filter (fun ri => succeeded (fst ri)) calls).

Definition last_stored (calls : list (HRESULT * Image)) : option nat :=
  last (map Some (stored calls)) None.

Definition Extract_invocations (calls : list (HRESULT * Image))
    : M Extract.BRAWCallback :=
  foldM (fun s ri => Extract.ProcessComplete s DecodeJob (fst ri) (snd ri))
        calls Extract.new_BRAWCallback.

Definition Addon_invocations (calls : list (HRESULT * Image))
    : M Addon.BRAWCallback :=
  foldM (fun s ri => Addon.ProcessComplete s DecodeJob (fst ri) (snd ri))
        calls Addon.new_BRAWCallback.

Definition held_id (image : option Image) : option nat := option_map image_id image.

(** 1 when the sink holds the image [id], 0 otherwise. *)
Definition holds (image : option Image) (id : nat) : nat :=
  match image with
  | Some im => if Nat.eq_dec (image_id im) id then 1%nat else 0%nat
  | None => 0%nat
  end.

(** What one successful ProcessComplete does to the SDK: the image held
    so far is released, then the new one is retained, then the job is
    released. *)
Definition replace_events (held : option Image) (new : Image) : list Event :=
  match held with
  | Some old => [Release (ProcessedImage (image_id old))]
  | None => []
  end ++ [AddRef (ProcessedImage (image_id new)); Release DecodeJob].

(** Every reference the sink took on a processed image has been given
    back, except the one on the image it still holds. *)
Definition balanced (held : option Image) (t : list Event) : Prop :=
  forall id,
    (count (Release (ProcessedImage id)) t + holds held id
     = count (AddRef (ProcessedImage id)) t)%nat.

Definition is_image_event (e : Event) : bool :=
  match e with
  | AddRef (ProcessedImage _) | Release (ProcessedImage _) => true
  | _ => false
  end.

(** Partial correctness of a run: from a world that satisfies [P], the
    run, if it is defined, returns a value and a world that satisfy [Q]. *)
Definition hoare {A} (P : World -> Prop) (c : M A) (Q : A -> World -> Prop) : Prop :=
  forall w, P w ->
    match c w with
    | Returns a w' => Q a w'
    | Undefined => True
    end.

(** The invariant of a session whose sink holds [held]. *)
Definition holding (held : option Image) (w : World) : Prop :=
  balanced held (trace w).

(** ** Resolving after the drain (section 4.2, step 4) *)

(** The image's declared dimensions. *)
Definition declared_width (im : Image) : Z := wrap32 (written (image_width im) 0).
Definition declared_height (im : Image) : Z := wrap32 (written (image_height im) 0).


(** The raw pixel pointer as the code has it: only a GetResource that
    reports S_OK yields one. *)
Definition raw_pointer (im : Image) : option Memory :=
  if succeeded (fst (image_resource im)) then written (image_resource im) None
  else None.

(** The five-way resolution in the words of the design document, over
    the way the pointer is obtained.  [None] stands for an image whose
    storage location cannot be read. *)
Definition resolve_with (pointer : Image -> option Memory)
    (errorFlag : bool) (image : option Image) : option DecodeOutcome :=
  if errorFlag then Some (Failed ProcessFailed)
  else
    match image with
    | None => Some (Failed ResourceUnavailable)
    | Some im =>
        match snd (image_resource_type im) with
        | None => None
        | Some location =>
            if negb (is_BufferCPU location)
            then Some (Failed UnsupportedResourceLocation)
            else
              match pointer im with
              | None => Some (Failed ResourceUnavailable)
              | Some data =>
                  Some (Decoded (declared_width im) (declared_height im) data)
              end
        end
    end.

Definition resolve_spec := resolve_with raw_pointer.



(** ** The encoder adapter *)

(** The red, green and blue bytes of [n] pixels of a row-major RGBA
    buffer starting at pixel [first], the alpha bytes left out. *)
Definition rgb_bytes (data : Memory) (first : Z) (n : nat) : list Byte.byte :=
  flat_map (fun k => let i := first + Z.of_nat k in
                     [data (4 * i); data (4 * i + 1); data (4 * i + 2)])
           (seq 0 n).


(** ** Stubs used as test vectors *)

(** A buffer whose byte at offset [k] is [k] (below 256). *)
Definition ramp : Memory :=
  fun k => match Byte.of_N (Z.to_N k) with Some b => b | None => Byte.x00 end.

(** A buffer of 0xFF bytes. *)
Definition white : Memory := fun _ => Byte.xff.

(** 24.0 as a binary32 value. *)
Definition float_24 : float := S754_finite false 12582912 (-19).

Definition good_frame : Frame :=
  {| set_resource_format := S_OK;
     create_job_decode_and_process_frame := (S_OK, true);
     decode_submit := S_OK |}.

Definition image_of (id : nat) (width height : Z) (data : Memory) : Image :=
  {| image_id := id;
     image_width := (S_OK, Some width);
     image_height := (S_OK, Some height);
     image_resource_type := (S_OK, Some blackmagicRawResourceTypeBufferCPU);
     image_resource := (S_OK, Some (Some data)) |}.

(** The clip of the design document's scenarios: 10 frames of 1920x1080
    at 24 frames per second, decoding to a white image. *)
Definition clip_stub : Vendor :=
  {| factory := true;
     create_codec := (S_OK, true);
     open_clip := (S_OK, true);
     get_frame_count := (S_OK, Some 10);
     get_width := (S_OK, Some 1920);
     get_height := (S_OK, Some 1080);
     get_frame_rate := (S_OK, Some float_24);
     set_callback := S_OK;
     create_job_read_frame := (S_OK, true);
     read_submit := S_OK;
     flush_jobs := S_OK;
     read_complete := Some (S_OK, good_frame);
     process_complete := [(S_OK, image_of 1 1920 1080 white)];
     output_file_opens := true |}.

(** The same clip with the answers of the pipeline replaced. *)
Definition with_pipeline (v : Vendor) (r : option (HRESULT * Frame))
    (p : list (HRESULT * Image)) : Vendor :=
  {| factory := factory v;
     create_codec := create_codec v;
     open_clip := open_clip v;
     get_frame_count := get_frame_count v;
     get_width := get_width v;
     get_height := get_height v;
     get_frame_rate := get_frame_rate v;
     set_callback := set_callback v;
     create_job_read_frame := create_job_read_frame v;
     read_submit := read_submit v;
     flush_jobs := flush_jobs v;
     read_complete := r;
     process_complete := p;
     output_file_opens := output_file_opens v |}.

(** The same clip with the answers of the three opening steps replaced. *)
Definition with_open (v : Vendor) (f : bool) (c o : Handle) : Vendor :=
  {| factory := f;
     create_codec := c;
     open_clip := o;
     get_frame_count := get_frame_count v;
     get_width := get_width v;
     get_height := get_height v;
     get_frame_rate := get_frame_rate v;
     set_callback := set_callback v;
     create_job_read_frame := create_job_read_frame v;
     read_submit := read_submit v;
     flush_jobs := flush_jobs v;
     read_complete := read_complete v;
     process_complete := process_complete v;
     output_file_opens := output_file_opens v |}.

Definition no_factory_stub : Vendor := with_open clip_stub false (S_OK, true) (S_OK, true).
Definition no_codec_stub : Vendor := with_open clip_stub true (E_FAIL, false) (S_OK, true).
Definition no_clip_stub : Vendor := with_open clip_stub true (S_OK, true) (E_FAIL, false).

(** A clip whose frame rate getter fails and writes nothing. *)
Definition no_rate_stub : Vendor :=
  {| factory := true;
     create_codec := (S_OK, true);
     open_clip := (S_OK, true);
     get_frame_count := (S_OK, Some 10);
     get_width := (S_OK, Some 1920);
     get_height := (S_OK, Some 1080);
     get_frame_rate := (E_FAIL, None);
     set_callback := S_OK;
     create_job_read_frame := (S_OK, true);
     read_submit := S_OK;
     flush_jobs := S_OK;
     read_complete := None;
     process_complete := [];
     output_file_opens := true |}.

(** A small clip: 2x1 pixels. *)
Definition tiny_stub : Vendor :=
  with_pipeline clip_stub (Some (S_OK, good_frame)) [(S_OK, image_of 1 2 1 ramp)].

(** The read of the frame fails. *)
Definition read_fails_stub : Vendor :=
  with_pipeline clip_stub (Some (E_FAIL, good_frame)) [(S_OK, image_of 1 2 1 ramp)].

(** The read succeeds, the decode-and-process job reports a failure. *)
Definition process_fails_stub : Vendor :=
  with_pipeline clip_stub (Some (S_OK, good_frame)) [(E_FAIL, image_of 1 2 1 ramp)].



(** The locals of ExtractFrame once the clip is open. *)
Definition Addon_here (r : HRESULT) : Addon.Locals :=
  {| Addon.result := r; Addon.factory_ptr := true; Addon.codec_ptr := true;
     Addon.clip_ptr := true |}.


Definition no_statics : Extractor.Statics :=
  {| Extractor.g_output_path := "";
     Extractor.g_output_width := 0;
     Extractor.g_output_height := 0;
     Extractor.g_output_success := false;
     Extractor.output_file := None |}.

Arguments succeeded : simpl never.
Arguments wrap32 : simpl never.
Arguments wrap64 : simpl never.
Arguments to_int : simpl never.
Arguments to_long : simpl never.
Arguments float_div : simpl never.
Arguments float_of_uint64 : simpl never.
Arguments double_of_float : simpl never.
Arguments double_of_Z : simpl never.
Arguments write_ppm : simpl never.
Arguments buffer_copy : simpl never.
Arguments ppm_header : simpl never.

(** * Further vocabulary: runs as a whole *)

(** The weakest precondition of a run from a given world: the run, if it
    is defined, returns a value and a world that satisfy [Q]. *)
Definition wp {A} (c : M A) (w : World) (Q : A -> World -> Prop) : Prop :=
  match c w with
  | Returns a w' => Q a w'
  | Undefined => True
  end.

(** The events that a ProcessComplete of braw-extract.cpp and of the addon
    can make: taking and giving back references on images, and releasing
    its job. *)
Definition is_sink_event (e : Event) : bool :=
  match e with
  | AddRef (ProcessedImage _) | Release (ProcessedImage _) | Release DecodeJob => true
  | _ => false
  end.

(** The events that a ProcessComplete of braw-extractor.cpp can make. *)
Definition is_writer_event (e : Event) : bool :=
  match e with
  | ImageGetWidth _ | ImageGetHeight _ | ImageGetResource _ | Release DecodeJob => true
  | _ => false
  end.

Definition only (allowed : Event -> bool) (t : list Event) : Prop :=
  forallb allowed t = true.

(** Some invocation of ProcessComplete reports a failure. *)
Definition some_failed (calls : list (HRESULT * Image)) : bool :=
  existsb (fun ri => negb (succeeded (fst ri))) calls.

(** The command lines that [main] acts on. *)
Definition well_formed_command (argv : list string) : bool :=
  ((List.length argv =? 3)%nat && String.eqb (nth 1 argv EmptyString) "metadata")
  || ((List.length argv =? 5)%nat && String.eqb (nth 1 argv EmptyString) "extract").

(** The argument lists that the exported functions accept. *)
Definition metadata_arguments (info : list Addon.JsValue) : bool :=
  match nth_error info 0 with
  | Some (Addon.JsString _) => true
  | _ => false
  end.

Definition frame_arguments (info : list Addon.JsValue) : bool :=
  match nth_error info 0, nth_error info 1 with
  | Some (Addon.JsString _), Some (Addon.JsNumber _) => true
  | _, _ => false
  end.

Definition b2n (b : bool) : nat := if b then 1%nat else 0%nat.

(** The shape of the objects that the addon returns: [success] is always
    there; a failure carries an error text and none of the payload keys; a
    decoded frame carries its dimensions and a buffer and nothing else,
    metadata carries its five numbers and nothing else. *)
Definition is_number (x : option Value) : bool :=
  match x with Some (VNumber _) => true | _ => false end.

Definition is_absent (x : option Value) : bool :=
  match x with None => true | _ => false end.

Definition failure_shape (o : Object) : bool :=
  match obj_get "error" o with Some (VError _) => true | _ => false end
  && is_absent (obj_get "buffer" o)
  && is_absent (obj_get "width" o)
  && is_absent (obj_get "height" o)
  && is_absent (obj_get "frame_count" o)
  && is_absent (obj_get "frame_rate" o)
  && is_absent (obj_get "duration" o).

Definition frame_shape (o : Object) : bool :=
  match obj_get "success" o with
  | Some (VBool true) =>
      is_absent (obj_get "error" o)
      && is_number (obj_get "width" o)
      && is_number (obj_get "height" o)
      && match obj_get "buffer" o with Some (VBuffer _) => true | _ => false end
      && is_absent (obj_get "frame_count" o)
      && is_absent (obj_get "frame_rate" o)
      && is_absent (obj_get "duration" o)
  | Some (VBool false) => failure_shape o
  | _ => false
  end.

Definition metadata_shape (o : Object) : bool :=
  match obj_get "success" o with
  | Some (VBool true) =>
      is_absent (obj_get "error" o)
      && is_number (obj_get "frame_count" o)
      && is_number (obj_get "width" o)
      && is_number (obj_get "height" o)
      && is_number (obj_get "frame_rate" o)
      && is_number (obj_get "duration" o)
      && is_absent (obj_get "buffer" o)
  | Some (VBool false) => failure_shape o
  | _ => false
  end.

(** The JSON object printed on stdout is one of the two success objects. *)
Definition json_success (j : Json) : bool :=
  match j with
  | JsonError _ => false
  | _ => true
  end.

(** The same SDK with another status returned by FlushJobs. *)
Definition with_flush_status (v : Vendor) (s : HRESULT) : Vendor :=
  {| factory := factory v;
     create_codec := create_codec v;
     open_clip := open_clip v;
     get_frame_count := get_frame_count v;
     get_width := get_width v;
     get_height := get_height v;
     get_frame_rate := get_frame_rate v;
     set_callback := set_callback v;
     create_job_read_frame := create_job_read_frame v;
     read_submit := read_submit v;
     flush_jobs := s;
     read_complete := read_complete v;
     process_complete := process_complete v;
     output_file_opens := output_file_opens v |}.

(** The decode job exists and is submitted; the decode job exists and is
    not accepted. *)
Definition decode_job_created (result : HRESULT) (frame : Frame) : bool :=
  succeeded result
  && succeeded (set_resource_format frame)
  && succeeded (fst (create_job_decode_and_process_frame frame)).

Definition decode_job_refused (result : HRESULT) (frame : Frame) : bool :=
  decode_job_created result frame && negb (succeeded (decode_submit frame)).

(** ProcessComplete of braw-extractor.cpp gets as far as write_ppm. *)
Definition image_readable (result : HRESULT) (im : Image) : bool :=
  succeeded result
  && succeeded (fst (image_width im))
  && succeeded (fst (image_height im))
  && succeeded (fst (image_resource im)).

(** A call that hands out an object exactly when it reports S_OK. *)
Definition hands_out_exactly (h : Handle) : bool :=
  Bool.eqb (succeeded (fst h)) (snd h).

(** A frame whose decode job is refused by Submit. *)
Definition refusing_frame : Frame :=
  {| set_resource_format := S_OK;
     create_job_decode_and_process_frame := (S_OK, true);
     decode_submit := E_FAIL |}.

(** An image whose GetHeight fails. *)
Definition unreadable_image : Image :=
  {| image_id := 3;
     image_width := (S_OK, Some 2);
     image_height := (E_FAIL, None);
     image_resource_type := (S_OK, Some blackmagicRawResourceTypeBufferCPU);
     image_resource := (S_OK, Some (Some ramp)) |}.

(** The pipeline answers the read job with a call of ReadComplete. *)
Definition delivered (v : Vendor) : bool :=
  match read_complete v with
  | Some _ => true
  | None => false
  end.

(** The file-scope variables of braw-extractor.cpp agree with the file:
    when [g_output_success] is set, the file is the PPM of an image with
    the recorded width and height. *)
Definition file_matches (g : Extractor.Statics) : Prop :=
  Extractor.g_output_success g = true ->
  exists data,
    Extractor.output_file g
    = write_ppm true (Extractor.g_output_width g) (Extractor.g_output_height g) data.

(** The file-scope variables as a successful earlier call leaves them. *)
Definition stale_statics : Extractor.Statics :=
  {| Extractor.g_output_path := "old.ppm";
     Extractor.g_output_width := 7;
     Extractor.g_output_height := 7;
     Extractor.g_output_success := true;
     Extractor.output_file := Some [] |}.

(** A call reports S_OK and hands out a null pointer. *)
Definition null_with_S_OK (h : Handle) : bool :=
  succeeded (fst h) && negb (snd h).

(** The SDK answers CreateCodec or OpenClip with S_OK and a null pointer,
    at a point that the metadata query reaches. *)
Definition hands_out_null (v : Vendor) : bool :=
  factory v
  && (null_with_S_OK (create_codec v)
      || (succeeded (fst (create_codec v)) && null_with_S_OK (open_clip v))).

(** CreateCodec reports S_OK and leaves the codec pointer null. *)
Definition null_codec_stub : Vendor := with_open clip_stub true (S_OK, false) (S_OK, true).

(** * Proofs *)

(** ** The encoder adapter: write_ppm *)

Lemma wrap32_small z : 0 <= z < 2 ^ 32 -> wrap32 z = z.
Proof. intros H. unfold wrap32. apply Z.mod_small. exact H. Qed.

Lemma rgb_bytes_step data first n :
  rgb_bytes data first (S n) =
  [data (4 * first); data (4 * first + 1); data (4 * first + 2)]
    ++ rgb_bytes data (first + 1) n.
Proof.
  unfold rgb_bytes. cbn [seq flat_map].
  rewrite Z.add_0_r. f_equal.
  rewrite <- seq_shift, flat_map_concat_map, map_map, <- flat_map_concat_map.
  apply flat_map_ext. intros k.
  replace (first + Z.of_nat (S k)) with (first + 1 + Z.of_nat k) by lia.
  reflexivity.
Qed.

Lemma put_pixels_rgb data bound : forall fuel i file,
  0 <= i -> i + Z.of_nat fuel = bound -> bound <= 2 ^ 30 ->
  put_pixels fuel i bound data file = file ++ rgb_bytes data i fuel.
Proof.
  induction fuel as [|fuel IH]; intros i file Hi Hb Hbound.
  - cbn. now rewrite app_nil_r.
  - cbn [put_pixels].
    destruct (Z.ltb_spec i bound) as [_|Hge]; [|lia].
    assert (2 ^ 30 < 2 ^ 32) by (vm_compute; reflexivity).
    rewrite !wrap32_small by lia.
    rewrite IH by lia.
    rewrite rgb_bytes_step, <- app_assoc.
    replace (i * 4 + 0) with (4 * i) by lia.
    replace (i * 4 + 1) with (4 * i + 1) by lia.
    replace (i * 4 + 2) with (4 * i + 2) by lia.
    reflexivity.
Qed.

(** Within 2^30 pixels nothing wraps: write_ppm writes the header and
    then the three colour bytes of every pixel, in order, and no alpha
    byte. *)
Lemma write_ppm_drops_alpha width height data :
  0 <= width -> 0 <= height -> width * height <= 2 ^ 30 ->
  write_ppm true width height data =
  Some (ppm_header width height
          ++ rgb_bytes data 0 (Z.to_nat (width * height))).
Proof.
  intros Hw Hh Hb. unfold write_ppm.
  assert (2 ^ 30 < 2 ^ 32) by (vm_compute; reflexivity).
  rewrite wrap32_small by nia.
  f_equal. apply put_pixels_rgb; nia.
Qed.

Example write_ppm_two_pixels :
  write_ppm true 2 1 ramp =
  Some (ppm_header 2 1
          ++ [Byte.x00; Byte.x01; Byte.x02; Byte.x04; Byte.x05; Byte.x06]).
Proof. reflexivity. Qed.

Example ppm_header_1920_1080 :
  ppm_header 1920 1080 =
  list_byte_of_string ("P6" ++ newline ++ "1920 1080" ++ newline ++ "255" ++ newline).
Proof. reflexivity. Qed.

Lemma rgb_bytes_length data first n : List.length (rgb_bytes data first n) = (3 * n)%nat.
Proof.
  revert first. induction n as [|n IH]; intros first.
  - reflexivity.
  - rewrite rgb_bytes_step. cbn [List.length app]. rewrite IH. lia.
Qed.

(** C9.  write_ppm computes the number of pixels as [width * height] in
    [unsigned int].  For a 65536 x 65536 image the product is 2^32, which
    wraps to 0: the loop body never runs, and the file holds the header
    and not one of the 3 * 2^32 colour bytes that the adapter has to
    write after it. *)
Theorem C9_write_ppm_wraps (data : Memory) :
  wrap32 (65536 * 65536) = 0
  /\ exists file,
       write_ppm true 65536 65536 data = Some file
       /\ file = ppm_header 65536 65536
       /\ Z.of_nat (List.length file) = 19
       /\ Z.of_nat (List.length file) <> 19 + 3 * (65536 * 65536).
Proof.
  split; [reflexivity|].
  exists (ppm_header 65536 65536).
  split; [reflexivity|]. split; [reflexivity|].
  split; [reflexivity|].
  change (Z.of_nat (List.length (ppm_header 65536 65536))) with 19. lia.
Qed.

(** ** ReadComplete *)

Ltac unfold_calls :=
  unfold submit, getter, when, release_if, release, deref, call, enqueue,
    undefined, ret, bind in *.

(** Rewrites with the statuses already decided. *)
Ltac known_status :=
  repeat match goal with
         | H : succeeded ?x = _ |- context [succeeded ?x] => rewrite H; cbn
         end.

(** Runs the code symbolically, splitting on each status and pointer it
    tests. *)
Ltac run :=
  repeat (progress (unfold_calls; cbn in *; known_status); try discriminate);
  repeat (match goal with
          | |- context [succeeded ?x] => destruct (succeeded x) eqn:?
          | |- context [if ?b then _ else _] => is_var b; destruct b
          | |- context [if negb ?b then _ else _] => is_var b; destruct b
          end;
          cbn in *; try discriminate;
          repeat (progress (unfold_calls; cbn in *; known_status); try discriminate)).

Ltac finish := repeat eexists; reflexivity.

(** C3.  When the read reports a failure, or SetResourceFormat or
    CreateJobDecodeAndProcessFrame fails, ReadComplete returns without a
    call of Submit on a decode job, and no job is left queued in the
    pipeline; this holds in each of the three files. *)
Theorem C3_failed_step_submits_nothing (result : HRESULT) (frame : Frame) :
  step_fails result frame = true ->
  (forall self, exists self' w,
     Extract.ReadComplete self ReadJob result frame start = Returns self' w
     /\ count (Submit DecodeJob) (trace w) = 0%nat /\ pending w = [])
  /\ (forall g, exists g' w,
     Extractor.ReadComplete g ReadJob result frame start = Returns g' w
     /\ count (Submit DecodeJob) (trace w) = 0%nat /\ pending w = [])
  /\ (forall self, exists self' w,
     Addon.ReadComplete self ReadJob result frame start = Returns self' w
     /\ count (Submit DecodeJob) (trace w) = 0%nat /\ pending w = []).
Proof.
  destruct frame as [fmt [created job] sub]. unfold step_fails. cbn.
  intros H.
  repeat split; intros s;
    unfold Extract.ReadComplete, Extractor.ReadComplete, Addon.ReadComplete;
    run; finish.
Qed.

Lemma C3_failed_step_submits_nothing_witness :
  step_fails E_FAIL good_frame = true
  /\ exists self' w,
       Extract.ReadComplete Extract.new_BRAWCallback ReadJob E_FAIL good_frame start
       = Returns self' w
       /\ count (Submit DecodeJob) (trace w) = 0%nat /\ pending w = [].
Proof.
  split; [reflexivity|].
  apply (C3_failed_step_submits_nothing E_FAIL good_frame); reflexivity.
Defined.

(** C5.  ReadComplete releases the read job exactly once on each of its
    paths: a failed read, a failed SetResourceFormat, a failed
    CreateJobDecodeAndProcessFrame, a failed Submit of the decode job, and
    success; this holds in each of the three files.  (A
    CreateJobDecodeAndProcessFrame that reports S_OK hands out a job.) *)
Theorem C5_read_job_released_once (result : HRESULT) (frame : Frame) :
  hands_out (create_job_decode_and_process_frame frame) = true ->
  (forall self, exists self' w,
     Extract.ReadComplete self ReadJob result frame start = Returns self' w
     /\ count (Release ReadJob) (trace w) = 1%nat)
  /\ (forall g, exists g' w,
     Extractor.ReadComplete g ReadJob result frame start = Returns g' w
     /\ count (Release ReadJob) (trace w) = 1%nat)
  /\ (forall self, exists self' w,
     Addon.ReadComplete self ReadJob result frame start = Returns self' w
     /\ count (Release ReadJob) (trace w) = 1%nat).
Proof.
  destruct frame as [fmt [created job] sub]. unfold hands_out. cbn.
  intros H.
  repeat split; intros s;
    unfold Extract.ReadComplete, Extractor.ReadComplete, Addon.ReadComplete;
    run; finish.
Qed.

Lemma C5_read_job_released_once_witness :
  hands_out (create_job_decode_and_process_frame good_frame) = true
  /\ exists self' w,
       Addon.ReadComplete Addon.new_BRAWCallback ReadJob S_OK good_frame start
       = Returns self' w
       /\ count (Release ReadJob) (trace w) = 1%nat.
Proof.
  split; [reflexivity|].
  apply (C5_read_job_released_once S_OK good_frame); reflexivity.
Defined.

(** ** ProcessComplete and the life of a sink *)

Lemma count_app e t1 t2 : count e (t1 ++ t2) = (count e t1 + count e t2)%nat.
Proof. apply count_occ_app. Qed.

Lemma count_one_same e : count e [e] = 1%nat.
Proof. unfold count. cbn. destruct (Event_eq_dec e e); congruence. Qed.

Lemma count_one_other e e' : e' <> e -> count e [e'] = 0%nat.
Proof. intros H. unfold count. cbn. destruct (Event_eq_dec e' e); congruence. Qed.

Lemma count_release_image id id' :
  count (Release (ProcessedImage id)) [Release (ProcessedImage id')] =
  if Nat.eq_dec id' id then 1%nat else 0%nat.
Proof.
  destruct (Nat.eq_dec id' id) as [->|N].
  - apply count_one_same.
  - apply count_one_other. congruence.
Qed.

Lemma count_addref_image id id' :
  count (AddRef (ProcessedImage id)) [AddRef (ProcessedImage id')] =
  if Nat.eq_dec id' id then 1%nat else 0%nat.
Proof.
  destruct (Nat.eq_dec id' id) as [->|N].
  - apply count_one_same.
  - apply count_one_other. congruence.
Qed.

Lemma last_stored_cons d (x : nat) l :
  last (Some x :: map Some l) d = last (map Some l) (Some x).
Proof.
  revert x d. induction l as [|y l IH]; intros x d; [reflexivity|].
  change (last (Some y :: map Some l) d = last (Some y :: map Some l) (Some x)).
  now rewrite !IH.
Qed.

(** The bookkeeping that both sinks keep up across invocations: every
    image retained so far is either released or still held. *)
Section Bookkeeping.

Context {Sink : Type}.
Variable image_of_sink : Sink -> option Image.
Variable process : Sink -> Resource -> HRESULT -> Image -> M Sink.

Hypothesis process_failed : forall self result im w,
  succeeded result = false ->
  exists self', process self DecodeJob result im w
                = Returns self' {| trace := trace w ++ [Release DecodeJob];
                                   pending := pending w |}
                /\ image_of_sink self' = image_of_sink self.

Hypothesis process_stored : forall self result im w,
  succeeded result = true ->
  exists self', process self DecodeJob result im w
                = Returns self' {| trace := trace w ++ replace_events (image_of_sink self) im;
                                   pending := pending w |}
                /\ image_of_sink self' = Some im.

Lemma invocations_balance : forall calls self w,
  exists self' w',
    foldM (fun s ri => process s DecodeJob (fst ri) (snd ri)) calls self w
    = Returns self' w'
    /\ held_id (image_of_sink self')
       = last (map Some (stored calls)) (held_id (image_of_sink self))
    /\ forall id,
         count (AddRef (ProcessedImage id)) (trace w')
         = (count (AddRef (ProcessedImage id)) (trace w)
            + count_occ Nat.eq_dec (stored calls) id)%nat
         /\ (count (Release (ProcessedImage id)) (trace w')
             + holds (image_of_sink self') id
             = count (Release (ProcessedImage id)) (trace w)
               + holds (image_of_sink self) id
               + count_occ Nat.eq_dec (stored calls) id)%nat.
Proof.
  induction calls as [|[result im] calls IH]; intros self w.
  - exists self, w. repeat split; cbn; lia.
  - cbn [foldM fst snd]. unfold bind at 1.
    destruct (succeeded result) eqn:E.
    + destruct (process_stored self result im w E) as (s1 & -> & Hs1).
      destruct (IH s1 {| trace := trace w ++ replace_events (image_of_sink self) im;
                         pending := pending w |})
        as (s2 & w2 & -> & Hlast & Hcount).
      exists s2, w2. split; [reflexivity|]. split.
      * unfold stored. cbn [filter fst snd]. rewrite E. cbn [map snd].
        rewrite last_stored_cons, Hlast, Hs1. reflexivity.
      * intros id. destruct (Hcount id) as [Ha Hr].
        cbn [trace] in Ha, Hr. rewrite Hs1 in Hr.
        unfold stored. cbn [filter fst snd]. rewrite E. cbn [map snd count_occ].
        unfold stored in Ha, Hr.
        unfold replace_events in Ha, Hr.
        rewrite !count_app in Ha, Hr.
        assert (A0 : count (AddRef (ProcessedImage id)) [Release DecodeJob] = 0%nat)
          by (apply count_one_other; discriminate).
        assert (R0 : count (Release (ProcessedImage id)) [Release DecodeJob] = 0%nat)
          by (apply count_one_other; discriminate).
        change [AddRef (ProcessedImage (image_id im)); Release DecodeJob]
          with ([AddRef (ProcessedImage (image_id im))] ++ [Release DecodeJob])
          in Ha, Hr.
        rewrite !count_app in Ha, Hr.
        rewrite count_addref_image in Ha.
        rewrite (count_one_other (Release (ProcessedImage id))
                   (AddRef (ProcessedImage (image_id im)))) in Hr by discriminate.
        rewrite A0 in Ha. rewrite R0 in Hr.
        cbn [holds] in Hr.
        destruct (image_of_sink self) as [old|]; cbn [holds] in *.
        -- rewrite (count_one_other (AddRef (ProcessedImage id))
                      (Release (ProcessedImage (image_id old)))) in Ha by discriminate.
           rewrite count_release_image in Hr.
           destruct (Nat.eq_dec (image_id im) id), (Nat.eq_dec (image_id old) id);
             split; lia.
        -- cbn in Ha, Hr.
           destruct (Nat.eq_dec (image_id im) id); split; lia.
    + destruct (process_failed self result im w E) as (s1 & -> & Hs1).
      destruct (IH s1 {| trace := trace w ++ [Release DecodeJob];
                         pending := pending w |})
        as (s2 & w2 & -> & Hlast & Hcount).
      exists s2, w2. split; [reflexivity|]. split.
      * unfold stored. cbn [filter fst snd]. rewrite E.
        rewrite Hlast, Hs1. reflexivity.
      * intros id. destruct (Hcount id) as [Ha Hr].
        cbn [trace] in Ha, Hr. rewrite Hs1 in Hr.
        unfold stored. cbn [filter fst snd]. rewrite E.
        unfold stored in Ha, Hr.
        rewrite !count_app in Ha, Hr.
        rewrite (count_one_other (AddRef (ProcessedImage id)) (Release DecodeJob))
          in Ha by discriminate.
        rewrite (count_one_other (Release (ProcessedImage id)) (Release DecodeJob))
          in Hr by discriminate.
        split; lia.
Qed.

End Bookkeeping.

Lemma Extract_process_failed self result im w :
  succeeded result = false ->
  exists self', Extract.ProcessComplete self DecodeJob result im w
                = Returns self' {| trace := trace w ++ [Release DecodeJob];
                                   pending := pending w |}
                /\ Extract.processed_image self' = Extract.processed_image self.
Proof.
  intros E. unfold Extract.ProcessComplete. rewrite E. cbn.
  eexists. split; reflexivity.
Qed.

Lemma Extract_process_stored self result im w :
  succeeded result = true ->
  exists self', Extract.ProcessComplete self DecodeJob result im w
                = Returns self'
                    {| trace := trace w ++ replace_events (Extract.processed_image self) im;
                       pending := pending w |}
                /\ Extract.processed_image self' = Some im.
Proof.
  intros E. unfold Extract.ProcessComplete, replace_events. rewrite E.
  destruct self as [[old|] flag]; cbn; rewrite <- ?app_assoc;
    eexists; split; reflexivity.
Qed.

Lemma Addon_process_failed self result im w :
  succeeded result = false ->
  exists self', Addon.ProcessComplete self DecodeJob result im w
                = Returns self' {| trace := trace w ++ [Release DecodeJob];
                                   pending := pending w |}
                /\ Addon.processed_image self' = Addon.processed_image self.
Proof.
  intros E. unfold Addon.ProcessComplete. rewrite E. cbn.
  eexists. split; reflexivity.
Qed.

Lemma Addon_process_stored self result im w :
  succeeded result = true ->
  exists self', Addon.ProcessComplete self DecodeJob result im w
                = Returns self'
                    {| trace := trace w ++ replace_events (Addon.processed_image self) im;
                       pending := pending w |}
                /\ Addon.processed_image self' = Some im.
Proof.
  intros E. unfold Addon.ProcessComplete, replace_events. rewrite E.
  destruct self as [[old|] flag]; cbn; rewrite <- ?app_assoc;
    eexists; split; reflexivity.
Qed.

Lemma holds_release_count image id w :
  count (Release (ProcessedImage id))
        (trace w ++ match image with
                    | Some im => [Release (ProcessedImage (image_id im))]
                    | None => []
                    end)
  = (count (Release (ProcessedImage id)) (trace w) + holds image id)%nat.
Proof.
  rewrite count_app. destruct image as [im|]; cbn [holds].
  - now rewrite count_release_image.
  - reflexivity.
Qed.

Lemma holds_addref_count image id w :
  count (AddRef (ProcessedImage id))
        (trace w ++ match image with
                    | Some im => [Release (ProcessedImage (image_id im))]
                    | None => []
                    end)
  = count (AddRef (ProcessedImage id)) (trace w).
Proof.
  rewrite count_app. destruct image as [im|].
  - rewrite count_one_other by discriminate. lia.
  - cbn. lia.
Qed.

(** ** Opening a clip and querying its metadata *)

Ltac open_vendor v :=
  destruct v as [fac [cst cptr] [ost optr] fc wd ht fr scb [rst rptr] rsub fl rc pc ofo];
  cbn in *.

Ltac split_all := repeat match goal with |- _ /\ _ => split end.

(** C7.  In each of the three files the metadata operation
    - reports "Failed to create factory" when the factory is null, having
      acquired nothing;
    - reports "Failed to create codec" when CreateCodec fails, and has
      released the factory by then;
    - reports "Failed to open clip" when OpenClip fails, and has released
      the codec and the factory by then;
    and in none of these cases a getter of the clip is called. *)
Theorem C7_open_failures (v : Vendor) (path : string) :
  (factory v = false ->
   Forall (fun r => exists o, r = Some o
             /\ failure o = Some FactoryUnavailable
             /\ sdk_calls o = [CreateBlackmagicRawFactoryInstanceFromPath])
          (metadata_runs v path))
  /\ (factory v = true -> succeeded (fst (create_codec v)) = false ->
      Forall (fun r => exists o, r = Some o
                /\ failure o = Some CodecCreateFailed
                /\ count (Release Factory) (sdk_calls o) = 1%nat
                /\ count (OpenClip path) (sdk_calls o) = 0%nat
                /\ count GetFrameCount (sdk_calls o) = 0%nat)
             (metadata_runs v path))
  /\ (factory v = true -> succeeded (fst (create_codec v)) = true ->
      snd (create_codec v) = true -> succeeded (fst (open_clip v)) = false ->
      Forall (fun r => exists o, r = Some o
                /\ failure o = Some ClipOpenFailed
                /\ count (Release Codec) (sdk_calls o) = 1%nat
                /\ count (Release Factory) (sdk_calls o) = 1%nat
                /\ count GetFrameCount (sdk_calls o) = 0%nat)
             (metadata_runs v path)).
Proof.
  open_vendor v. split_all; intros; subst;
    unfold metadata_runs, Extract.extract_metadata, Extractor.extract_metadata,
      Extractor.extract_metadata_body, Addon.ExtractMetadata,
      Addon.ExtractMetadata_body;
    cbn;
    repeat match goal with H : succeeded _ = _ |- _ => rewrite H; cbn end;
    repeat constructor.
  all: try (destruct cptr; cbn).
  all: try (destruct optr; cbn).
  all: eexists; split_all; try reflexivity.
  all: unfold count; cbn;
       repeat match goal with
              | |- context [Event_eq_dec ?a ?b] => destruct (Event_eq_dec a b); try discriminate
              end; try reflexivity.
Qed.

Lemma C7_open_failures_witness :
  Forall (fun r => exists o, r = Some o
            /\ failure o = Some FactoryUnavailable
            /\ sdk_calls o = [CreateBlackmagicRawFactoryInstanceFromPath])
         (metadata_runs no_factory_stub "clip.braw")
  /\ Forall (fun r => exists o, r = Some o
               /\ failure o = Some CodecCreateFailed
               /\ count (Release Factory) (sdk_calls o) = 1%nat
               /\ count (OpenClip "clip.braw") (sdk_calls o) = 0%nat
               /\ count GetFrameCount (sdk_calls o) = 0%nat)
            (metadata_runs no_codec_stub "clip.braw")
  /\ Forall (fun r => exists o, r = Some o
               /\ failure o = Some ClipOpenFailed
               /\ count (Release Codec) (sdk_calls o) = 1%nat
               /\ count (Release Factory) (sdk_calls o) = 1%nat
               /\ count GetFrameCount (sdk_calls o) = 0%nat)
            (metadata_runs no_clip_stub "clip.braw").
Proof.
  split; [|split].
  - apply (proj1 (C7_open_failures no_factory_stub "clip.braw")). reflexivity.
  - apply (proj1 (proj2 (C7_open_failures no_codec_stub "clip.braw")));
      reflexivity.
  - apply (proj2 (proj2 (C7_open_failures no_clip_stub "clip.braw")));
      reflexivity.
Defined.

Lemma float_div_by_zero x y : is_zero y = true -> is_finite (float_div x y) = false.
Proof.
  unfold float_div. destruct y; try discriminate. intros _.
  destruct x; reflexivity.
Qed.

Lemma double_of_float_not_finite x :
  is_finite x = false -> is_finite (double_of_float x) = false.
Proof. destruct x; try discriminate; intros _; reflexivity. Qed.

Ltac run_metadata :=
  unfold Extract.extract_metadata, Extractor.extract_metadata,
    Extractor.extract_metadata_body, Addon.ExtractMetadata,
    Addon.ExtractMetadata_body;
  cbn;
  repeat match goal with H : succeeded _ = _ |- _ => rewrite H; cbn end;
  unfold Extractor.exit_status; cbn;
  repeat match goal with H : succeeded _ = _ |- _ => rewrite H; cbn end.

Ltac open_succeeded H :=
  unfold opens in H; cbn in H;
  repeat match type of H with
         | _ && _ = true =>
             let H1 := fresh "Hopen" in
             apply andb_prop in H; destruct H as [H H1]
         end;
  subst.

Ltac count_events :=
  unfold count; cbn;
  repeat match goal with
         | |- context [Event_eq_dec ?a ?b] =>
             destruct (Event_eq_dec a b); try discriminate; try congruence
         end;
  try reflexivity.

(** C8.  On an open clip the metadata operation of each file reports
    [frame_count / frame_rate], a binary32 division of the frame count
    converted to binary32 by the frame rate (the addon widens the quotient
    to a JavaScript number).  Both operands are read from the clip by this
    very query, one GetFrameCount and one GetFrameRate call each time.  A
    frame rate of zero does not stop the operation: it returns, and the
    duration it reports is an infinity or a NaN. *)
Theorem C8_duration (v : Vendor) (path : string) :
  opens v = true ->
  (exists e w,
     Extract.extract_metadata v path start = Returns e w
     /\ json e = JsonMetadata (frameCount v) (clipWidth v) (clipHeight v)
                   (frameRate v) (duration v)
     /\ count GetFrameCount (trace w) = 1%nat
     /\ count GetFrameRate (trace w) = 1%nat)
  /\ (exists e w,
     Extractor.extract_metadata v path start = Returns e w
     /\ json e = JsonMetadata (frameCount v) (clipWidth v) (clipHeight v)
                   (frameRate v) (duration v)
     /\ count GetFrameCount (trace w) = 1%nat
     /\ count GetFrameRate (trace w) = 1%nat)
  /\ (exists o w,
     Addon.ExtractMetadata v path start = Returns o w
     /\ obj_get "duration" o = Some (VNumber (double_of_float (duration v)))
     /\ count GetFrameCount (trace w) = 1%nat
     /\ count GetFrameRate (trace w) = 1%nat)
  /\ duration v = float_div (float_of_uint64 (frameCount v)) (frameRate v)
  /\ (is_zero (frameRate v) = true ->
      is_finite (duration v) = false
      /\ is_finite (double_of_float (duration v)) = false).
Proof.
  intros Hopen.
  assert (Hzero : is_zero (frameRate v) = true -> is_finite (duration v) = false)
    by apply float_div_by_zero.
  split_all;
    [ | | | reflexivity
    | intros Hz; split;
      [ | apply double_of_float_not_finite ]; apply Hzero; exact Hz ].
  all: clear Hzero; open_vendor v; open_succeeded Hopen; run_metadata.
  all: eexists; eexists; split_all; try reflexivity; count_events.
Qed.

Lemma C8_duration_witness :
  opens no_rate_stub = true
  /\ is_zero (frameRate no_rate_stub) = true
  /\ is_finite (duration no_rate_stub) = false
  /\ is_finite (double_of_float (duration no_rate_stub)) = false.
Proof.
  split; [reflexivity|]. split; [reflexivity|].
  apply (C8_duration no_rate_stub "clip.braw"); reflexivity.
Defined.

Example duration_of_clip_stub :
  duration clip_stub = S754_finite false 13981013 (-25).
Proof. reflexivity. Qed.

(** C10.  Once the clip is open, the metadata operation of each file
    reports success whatever statuses the four getters return: the
    statuses are not looked at.  Each property reported is the value its
    getter wrote, and the zero the variable was initialised with when the
    getter wrote nothing. *)
Theorem C10_getter_statuses_ignored (v : Vendor) (path : string)
    (s1 s2 s3 s4 : HRESULT) :
  opens v = true ->
  (exists w,
     Extract.extract_metadata (with_getter_statuses v s1 s2 s3 s4) path start
     = Returns {| status := 0;
                  json := JsonMetadata (frameCount v) (clipWidth v) (clipHeight v)
                            (frameRate v) (duration v);
                  file := None |} w)
  /\ (exists w,
     Extractor.extract_metadata (with_getter_statuses v s1 s2 s3 s4) path start
     = Returns {| status := 0;
                  json := JsonMetadata (frameCount v) (clipWidth v) (clipHeight v)
                            (frameRate v) (duration v);
                  file := None |} w)
  /\ (exists o w,
     Addon.ExtractMetadata (with_getter_statuses v s1 s2 s3 s4) path start
     = Returns o w
     /\ obj_get "success" o = Some (VBool true)
     /\ obj_get "error" o = None
     /\ obj_get "frame_count" o = Some (VNumber (double_of_Z (frameCount v)))
     /\ obj_get "width" o = Some (VNumber (double_of_Z (clipWidth v)))
     /\ obj_get "height" o = Some (VNumber (double_of_Z (clipHeight v)))
     /\ obj_get "frame_rate" o = Some (VNumber (double_of_float (frameRate v))))
  /\ frameCount v
     = wrap64 match snd (get_frame_count v) with Some n => n | None => 0 end
  /\ clipWidth v
     = wrap32 match snd (get_width v) with Some n => n | None => 0 end
  /\ clipHeight v
     = wrap32 match snd (get_height v) with Some n => n | None => 0 end
  /\ frameRate v
     = match snd (get_frame_rate v) with Some x => x | None => S754_zero false end.
Proof.
  intros Hopen.
  split_all.
  4-7: reflexivity.
  all: open_vendor v; open_succeeded Hopen; run_metadata.
  all: eexists; try eexists; split_all; reflexivity.
Qed.

Lemma C10_getter_statuses_ignored_witness :
  opens no_rate_stub = true
  /\ (exists w,
        Extract.extract_metadata
          (with_getter_statuses no_rate_stub E_FAIL E_FAIL E_FAIL E_FAIL)
          "clip.braw" start
        = Returns {| status := 0;
                     json := JsonMetadata 10 1920 1080 (S754_zero false)
                               (S754_infinity false);
                     file := None |} w).
Proof.
  split; [reflexivity|].
  apply (C10_getter_statuses_ignored no_rate_stub "clip.braw"
           E_FAIL E_FAIL E_FAIL E_FAIL).
  reflexivity.
Defined.

(** ** Extracting a frame *)

Lemma wrap64_range x : 0 <= wrap64 x < 2 ^ 64.
Proof. unfold wrap64. apply Z.mod_pos_bound. reflexivity. Qed.

Lemma to_int_small z : 0 <= z < 2 ^ 31 -> to_int z = z.
Proof.
  intros H. unfold to_int, to_signed.
  change (2 ^ (32 - 1)) with (2 ^ 31).
  assert (2 ^ 31 < 2 ^ 32) by reflexivity.
  rewrite Z.mod_small by lia.
  destruct (Z.ltb_spec z (2 ^ 31)); [reflexivity | lia].
Qed.

Lemma to_long_small z : 0 <= z < 2 ^ 63 -> to_long z = z.
Proof.
  intros H. unfold to_long, to_signed.
  change (2 ^ (64 - 1)) with (2 ^ 63).
  assert (2 ^ 63 < 2 ^ 64) by reflexivity.
  rewrite Z.mod_small by lia.
  destruct (Z.ltb_spec z (2 ^ 63)); [reflexivity | lia].
Qed.

(** The guard of braw-extract.cpp, [frame_index >= (int)frame_count],
    rejects every [int] that is negative or not below the frame count:
    such an index is below 2^31, so the frame count is, and the cast
    leaves it as it is. *)
Lemma int_guard_rejects i x :
  is_int i -> i < 0 \/ wrap64 x <= i ->
  (i <? 0) || (i >=? to_int (wrap64 x)) = true.
Proof.
  intros Hi [Hneg|Hge].
  - destruct (Z.ltb_spec i 0); [reflexivity | lia].
  - destruct (Z.ltb_spec i 0); [reflexivity|]. cbn [orb].
    pose proof (wrap64_range x). unfold is_int in Hi.
    rewrite to_int_small by lia.
    rewrite Z.geb_leb. apply Z.leb_le. exact Hge.
Qed.

Lemma long_guard_rejects i x :
  is_long i -> i < 0 \/ wrap64 x <= i ->
  (i <? 0) || (i >=? to_long (wrap64 x)) = true.
Proof.
  intros Hi [Hneg|Hge].
  - destruct (Z.ltb_spec i 0); [reflexivity | lia].
  - destruct (Z.ltb_spec i 0); [reflexivity|]. cbn [orb].
    pose proof (wrap64_range x). unfold is_long in Hi.
    rewrite to_long_small by lia.
    rewrite Z.geb_leb. apply Z.leb_le. exact Hge.
Qed.

Ltac unfold_frame :=
  unfold Extract.extract_frame, Extract.cleanup,
    Extractor.extract_frame, Extractor.extract_frame_body, Extractor.release_all,
    Addon.ExtractFrame, Addon.ExtractFrame_body, Addon.release_all,
    Extract.delete_BRAWCallback, Addon.delete_BRAWCallback.

(** C2.  On an open clip, a frame index that is negative or not below
    the frame count makes the frame extraction of each file report the
    out-of-range error, and the run contains no call that creates or
    submits a job (read or decode): nothing is queued in the pipeline.
    The index is an [int] in braw-extract.cpp and a [long] in the other
    two files. *)
Theorem C2_index_out_of_range (v : Vendor) (path out : string) (frameIndex : Z) :
  opens v = true ->
  frameIndex < 0 \/ frameCount v <= frameIndex ->
  (is_int frameIndex ->
   forall g_callback, exists e g w,
     Extract.extract_frame v g_callback path frameIndex out start = Returns (e, g) w
     /\ status e = 1
     /\ stage_of_json (json e) = Some FrameIndexOutOfRange
     /\ file e = None
     /\ no_job_event (trace w) = true
     /\ pending w = [])
  /\ (is_long frameIndex ->
      (forall statics, exists e g w,
         Extractor.extract_frame v statics path frameIndex out start = Returns (e, g) w
         /\ status e = 1
         /\ stage_of_json (json e) = Some FrameIndexOutOfRange
         /\ file e = None
         /\ no_job_event (trace w) = true
         /\ pending w = [])
      /\ (exists o w,
         Addon.ExtractFrame v path frameIndex start = Returns o w
         /\ stage_of_object o = Some FrameIndexOutOfRange
         /\ obj_get "buffer" o = None
         /\ no_job_event (trace w) = true
         /\ pending w = [])).
Proof.
  intros Hopen Hout. unfold frameCount, written in Hout.
  open_vendor v. open_succeeded Hopen.
  split; [intros Hint g0 | intros Hlong; split; [intros g0|]].
  - unfold_frame. unfold_calls.
    destruct g0 as [[[im|] flag]|]; cbn; known_status;
      rewrite (int_guard_rejects _ _ Hint Hout); cbn;
      do 3 eexists; split_all; reflexivity.
  - unfold_frame. unfold_calls. cbn. known_status.
    rewrite (long_guard_rejects _ _ Hlong Hout). cbn.
    unfold Extractor.exit_status. cbn.
    do 3 eexists; split_all; reflexivity.
  - unfold_frame. unfold_calls. cbn. known_status.
    rewrite (long_guard_rejects _ _ Hlong Hout). cbn.
    do 2 eexists; split_all; reflexivity.
Qed.

Lemma C2_index_out_of_range_witness :
  opens clip_stub = true
  /\ (10 < 0 \/ frameCount clip_stub <= 10)
  /\ is_int 10
  /\ is_long 10
  /\ (exists e g w,
        Extract.extract_frame clip_stub None "clip.braw" 10 "out.ppm" start
        = Returns (e, g) w
        /\ status e = 1
        /\ stage_of_json (json e) = Some FrameIndexOutOfRange
        /\ file e = None
        /\ no_job_event (trace w) = true
        /\ pending w = [])
  /\ (exists o w,
        Addon.ExtractFrame clip_stub "clip.braw" 10 start = Returns o w
        /\ stage_of_object o = Some FrameIndexOutOfRange
        /\ obj_get "buffer" o = None
        /\ no_job_event (trace w) = true
        /\ pending w = []).
Proof.
  assert (Hout : 10 < 0 \/ frameCount clip_stub <= 10)
    by (right; vm_compute; discriminate).
  assert (Hint : is_int 10) by (unfold is_int; lia).
  assert (Hlong : is_long 10) by (unfold is_long; lia).
  split; [reflexivity|]. split; [exact Hout|].
  split; [exact Hint|]. split; [exact Hlong|].
  split.
  - apply (proj1 (C2_index_out_of_range clip_stub "clip.braw" "out.ppm" 10
                    eq_refl Hout) Hint None).
  - apply (proj2 (C2_index_out_of_range clip_stub "clip.braw" "out.ppm" 10
                    eq_refl Hout) Hlong).
Defined.

(** The scenarios of the design document on a 2x1 clip: the three files
    decode frame 0, the command-line tools write the PPM file, the addon
    returns the RGBA bytes. *)
Example extract_frame_writes_ppm :
  option_map fst
    (value_of (Extract.extract_frame tiny_stub None "clip.braw" 0 "out.ppm" start))
  = Some {| status := 0;
            json := JsonFrame "out.ppm" 2 1;
            file := Some (ppm_header 2 1
                            ++ [Byte.x00; Byte.x01; Byte.x02;
                                Byte.x04; Byte.x05; Byte.x06]) |}.
Proof. vm_compute. reflexivity. Qed.

Example extractor_frame_writes_ppm :
  option_map fst
    (value_of (Extractor.extract_frame tiny_stub no_statics "clip.braw" 0 "out.ppm"
                 start))
  = Some {| status := 0;
            json := JsonFrame "out.ppm" 2 1;
            file := Some (ppm_header 2 1
                            ++ [Byte.x00; Byte.x01; Byte.x02;
                                Byte.x04; Byte.x05; Byte.x06]) |}.
Proof. vm_compute. reflexivity. Qed.

Example addon_frame_returns_rgba :
  option_map (obj_get "buffer")
    (value_of (Addon.ExtractFrame tiny_stub "clip.braw" 0 start))
  = Some (Some (VBuffer [Byte.x00; Byte.x01; Byte.x02; Byte.x03;
                         Byte.x04; Byte.x05; Byte.x06; Byte.x07])).
Proof. vm_compute. reflexivity. Qed.

Ltac unfold_pipeline :=
  unfold flush, run_pipeline, take_pending, onReadComplete, onProcessComplete,
    Extract.BRAWCallback_callback, Extractor.CameraCodecCallback,
    Addon.BRAWCallback_callback,
    Extract.ReadComplete, Extractor.ReadComplete, Addon.ReadComplete in *.

Ltac accepted H :=
  unfold read_job_accepted in H; cbn in H;
  repeat match type of H with
         | _ && _ = true =>
             let H1 := fresh "Hacc" in
             apply andb_prop in H; destruct H as [H H1]
         end;
  subst.

Ltac passes H :=
  unfold passes_int_check, passes_long_check, frameCount, written in H;
  cbn in H; apply negb_true_iff in H.

(** C6 (as amended).  When the pipeline hands a failure status to
    ReadComplete, the frame extraction of each file ends in a failure and
    never creates or submits a decode job.  The failure it reports is not
    one of its own: braw-extract.cpp and the addon set the sink's error
    flag and report "Processing error occurred", the text they also use
    for a failed decode ("FlushJobs failed" in braw-extract.cpp when
    FlushJobs itself fails); braw-extractor.cpp reports "Failed to write
    output file". *)
Theorem C6_read_failure (v : Vendor) (path out : string) (frameIndex : Z)
    (result : HRESULT) (frame : Frame) :
  opens v = true ->
  read_job_accepted v = true ->
  read_complete v = Some (result, frame) ->
  succeeded result = false ->
  (passes_int_check v frameIndex = true ->
   exists g w,
     Extract.extract_frame v None path frameIndex out start
     = Returns (exit_error (if succeeded (flush_jobs v)
                            then Processing_error_occurred
                            else FlushJobs_failed), g) w
     /\ Extract.error_occurred g = true
     /\ count CreateJobDecodeAndProcessFrame (trace w) = 0%nat
     /\ count (Submit DecodeJob) (trace w) = 0%nat)
  /\ (passes_long_check v frameIndex = true ->
      (forall statics, exists e g w,
         Extractor.extract_frame v statics path frameIndex out start
         = Returns (e, g) w
         /\ status e = 1
         /\ json e = JsonError Failed_to_write_output_file
         /\ count CreateJobDecodeAndProcessFrame (trace w) = 0%nat
         /\ count (Submit DecodeJob) (trace w) = 0%nat)
      /\ (exists o w,
         Addon.ExtractFrame v path frameIndex start = Returns o w
         /\ error_of_object o = Some Processing_error_occurred
         /\ count CreateJobDecodeAndProcessFrame (trace w) = 0%nat
         /\ count (Submit DecodeJob) (trace w) = 0%nat)).
Proof.
  intros Hopen Hacc Hread Hfail.
  open_vendor v. open_succeeded Hopen. accepted Hacc.
  split; [intros Hidx | intros Hidx; split; [intros g0|]]; passes Hidx.
  - unfold_frame. unfold_calls. cbn. known_status. rewrite Hidx. cbn.
    known_status. unfold_pipeline. unfold_calls. cbn. known_status.
    unfold_calls. cbn. unfold Extract.extract_frame_resolve, Extract.cleanup.
    unfold_calls.
    destruct (succeeded fl); cbn;
      do 2 eexists; split_all; try reflexivity; count_events.
  - unfold_frame. unfold_calls. cbn. known_status. rewrite Hidx. cbn.
    known_status. unfold_pipeline. unfold_calls. cbn. known_status.
    unfold_calls. cbn. unfold Extractor.exit_status. cbn.
    do 3 eexists; split_all; try reflexivity; count_events.
  - unfold_frame. unfold_calls. cbn. known_status. rewrite Hidx. cbn.
    known_status. unfold_pipeline. unfold_calls. cbn. known_status.
    unfold_calls. cbn. unfold Addon.ExtractFrame_resolve. cbn.
    do 2 eexists; split_all; try reflexivity; count_events.
Qed.

Lemma C6_read_failure_witness :
  opens read_fails_stub = true
  /\ read_job_accepted read_fails_stub = true
  /\ read_complete read_fails_stub = Some (E_FAIL, good_frame)
  /\ succeeded E_FAIL = false
  /\ passes_int_check read_fails_stub 5 = true
  /\ passes_long_check read_fails_stub 5 = true
  /\ (exists g w,
        Extract.extract_frame read_fails_stub None "clip.braw" 5 "out.ppm" start
        = Returns (exit_error (if succeeded (flush_jobs read_fails_stub)
                               then Processing_error_occurred
                               else FlushJobs_failed), g) w
        /\ Extract.error_occurred g = true
        /\ count CreateJobDecodeAndProcessFrame (trace w) = 0%nat
        /\ count (Submit DecodeJob) (trace w) = 0%nat)
  /\ (exists o w,
        Addon.ExtractFrame read_fails_stub "clip.braw" 5 start = Returns o w
        /\ error_of_object o = Some Processing_error_occurred
        /\ count CreateJobDecodeAndProcessFrame (trace w) = 0%nat
        /\ count (Submit DecodeJob) (trace w) = 0%nat).
Proof.
  split; [reflexivity|]. split; [reflexivity|]. split; [reflexivity|].
  split; [reflexivity|]. split; [reflexivity|]. split; [reflexivity|].
  split.
  - apply (proj1 (C6_read_failure read_fails_stub "clip.braw" "out.ppm" 5
                    E_FAIL good_frame eq_refl eq_refl eq_refl eq_refl)).
    reflexivity.
  - apply (proj2 (C6_read_failure read_fails_stub "clip.braw" "out.ppm" 5
                    E_FAIL good_frame eq_refl eq_refl eq_refl eq_refl)).
    reflexivity.
Defined.

(** C6 as stated does not hold: on a clip whose read fails, the session
    of braw-extract.cpp ends with "Processing error occurred", the
    outcome of a failed decode (stage ProcessFailed) and the very outcome
    it has when the read succeeds and the decode fails; the session of
    braw-extractor.cpp ends with "Failed to write output file", which is
    no stage at all.  Neither is ReadFailed. *)
Lemma C6_read_failure_is_not_ReadFailed :
  (exists e g w,
     Extract.extract_frame read_fails_stub None "clip.braw" 5 "out.ppm" start
     = Returns (e, g) w
     /\ json e = JsonError Processing_error_occurred
     /\ stage_of_json (json e) = Some ProcessFailed
     /\ stage_of_json (json e) <> Some ReadFailed
     /\ exists g' w',
          Extract.extract_frame process_fails_stub None "clip.braw" 5 "out.ppm" start
          = Returns (e, g') w')
  /\ (exists e g w,
     Extractor.extract_frame read_fails_stub no_statics "clip.braw" 5 "out.ppm" start
     = Returns (e, g) w
     /\ json e = JsonError Failed_to_write_output_file
     /\ stage_of_json (json e) <> Some ReadFailed).
Proof.
  split.
  - do 3 eexists. split; [vm_compute; reflexivity|].
    split; [reflexivity|]. split; [reflexivity|]. split; [discriminate|].
    do 2 eexists. vm_compute. reflexivity.
  - do 3 eexists. split; [vm_compute; reflexivity|].
    split; [reflexivity|]. discriminate.
Qed.

(** ** Resolving after the drain *)


(** The resolution is defined for every sink except one: the flag is
    clear and the image held has a GetResourceType that writes nothing.
    The code then reads the location variable uninitialised. *)
Lemma resolve_spec_undefined (errorFlag : bool) (image : option Image) :
  resolve_spec errorFlag image = None <->
  errorFlag = false
  /\ exists im, image = Some im /\ snd (image_resource_type im) = None.
Proof.
  unfold resolve_spec, resolve_with, raw_pointer.
  destruct errorFlag; [split; [discriminate | intros [H _]; discriminate H]|].
  destruct image as [im|].
  - destruct (snd (image_resource_type im)) as [location|] eqn:Hloc.
    + split.
      * destruct (is_BufferCPU location); cbn; [|discriminate].
        destruct (succeeded (fst (image_resource im)));
          [destruct (written (image_resource im) None)|]; discriminate.
      * intros (_ & im' & Him & Hnone). injection Him as <-. congruence.
    + split; [intros _; split; [reflexivity | exists im; auto] | reflexivity].
  - split; [discriminate | intros (_ & im & Him & _); discriminate Him].
Qed.

Lemma unwritten_location_is_undefined (im : Image) (v : Vendor) (out : string)
    (here : HRESULT -> Addon.Locals) :
  snd (image_resource_type im) = None ->
  Addon.ExtractFrame_resolve here (Addon_sink false (Some im)) [] start = Undefined
  /\ Extract.extract_frame_resolve v S_OK (Extract_sink false (Some im)) out start
     = Undefined.
Proof.
  intros H.
  unfold Addon.ExtractFrame_resolve, Extract.extract_frame_resolve.
  change (succeeded S_OK) with true. cbn. rewrite H.
  unfold_calls. split; reflexivity.
Qed.




(** ** Sessions: the references on processed images, from call to return *)

Lemma balanced_other h t e :
  is_image_event e = false -> balanced h t -> balanced h (t ++ [e]).
Proof.
  intros He Hb id. specialize (Hb id). rewrite !count_app.
  rewrite (count_one_other (Release (ProcessedImage id)) e),
          (count_one_other (AddRef (ProcessedImage id)) e).
  - lia.
  - intros ->. discriminate He.
  - intros ->. discriminate He.
Qed.

Lemma balanced_replace h im t :
  balanced h t -> balanced (Some im) (t ++ replace_events h im).
Proof.
  intros Hb id. specialize (Hb id). unfold replace_events.
  change [AddRef (ProcessedImage (image_id im)); Release DecodeJob]
    with ([AddRef (ProcessedImage (image_id im))] ++ [Release DecodeJob]).
  rewrite !count_app.
  rewrite (count_one_other (Release (ProcessedImage id)) (Release DecodeJob))
    by discriminate.
  rewrite (count_one_other (AddRef (ProcessedImage id)) (Release DecodeJob))
    by discriminate.
  rewrite (count_one_other (Release (ProcessedImage id))
             (AddRef (ProcessedImage (image_id im)))) by discriminate.
  rewrite count_addref_image. cbn [holds].
  destruct h as [old|]; cbn [holds] in *.
  - rewrite count_release_image.
    rewrite (count_one_other (AddRef (ProcessedImage id))
               (Release (ProcessedImage (image_id old)))) by discriminate.
    destruct (Nat.eq_dec (image_id im) id), (Nat.eq_dec (image_id old) id); lia.
  - cbn. destruct (Nat.eq_dec (image_id im) id); lia.
Qed.

Lemma balanced_destroy h t :
  balanced h t ->
  balanced None (t ++ match h with
                      | Some im => [Release (ProcessedImage (image_id im))]
                      | None => []
                      end).
Proof.
  intros Hb id. specialize (Hb id). rewrite !count_app.
  destruct h as [im|]; cbn [holds] in *.
  - rewrite count_release_image.
    rewrite (count_one_other (AddRef (ProcessedImage id))
               (Release (ProcessedImage (image_id im)))) by discriminate.
    lia.
  - cbn. lia.
Qed.

Lemma hoare_ret {A} (P : World -> Prop) (a : A) (Q : A -> World -> Prop) :
  (forall w, P w -> Q a w) -> hoare P (ret a) Q.
Proof. intros H w Hw. apply H, Hw. Qed.

Lemma hoare_bind {A B} (P : World -> Prop) (c : M A) (R : A -> World -> Prop)
    (k : A -> M B) (Q : B -> World -> Prop) :
  hoare P c R -> (forall a, hoare (R a) (k a) Q) -> hoare P (bind c k) Q.
Proof.
  intros Hc Hk w Hw. unfold bind. specialize (Hc w Hw).
  destruct (c w) as [a w'|]; [|exact I]. apply (Hk a w' Hc).
Qed.

Lemma hoare_undefined {A} (P : World -> Prop) (Q : A -> World -> Prop) :
  hoare P undefined Q.
Proof. intros w _. exact I. Qed.

Lemma hoare_call h e :
  is_image_event e = false -> hoare (holding h) (call e) (fun _ => holding h).
Proof. intros He w Hw. cbn. apply balanced_other; assumption. Qed.

Lemma hoare_enqueue h j : hoare (holding h) (enqueue j) (fun _ => holding h).
Proof. intros w Hw. exact Hw. Qed.

Lemma hoare_take_pending h j : hoare (holding h) (take_pending j) (fun _ => holding h).
Proof.
  intros w Hw. unfold take_pending.
  destruct (in_dec Resource_eq_dec j (pending w)); exact Hw.
Qed.

(** Steps that do not touch a processed image keep the invariant. *)
Ltac keeps :=
  repeat first
    [ apply hoare_undefined
    | apply hoare_ret; intros ? ?; assumption
    | apply hoare_call; reflexivity
    | apply hoare_enqueue
    | apply hoare_take_pending
    | eapply hoare_bind; [|intros ?]
    | match goal with
      | |- hoare _ (if ?b then _ else _) _ => destruct b
      | |- hoare _ (match ?x with _ => _ end) _ => destruct x
      | |- hoare _ (let '(_, _) := ?p in _) _ => destruct p
      end ].

Lemma hoare_release h r :
  is_image_event (Release r) = false ->
  hoare (holding h) (release r) (fun _ => holding h).
Proof. intros H. apply hoare_call. exact H. Qed.

Lemma hoare_release_if h p r :
  is_image_event (Release r) = false ->
  hoare (holding h) (release_if p r) (fun _ => holding h).
Proof.
  intros H. destruct p; cbn.
  - apply hoare_call. exact H.
  - apply hoare_ret. auto.
Qed.

Lemma hoare_submit h j status :
  hoare (holding h) (submit j status) (fun _ => holding h).
Proof. unfold submit. keeps. Qed.

Lemma hoare_getter {A} h e (a : Answer A) (x : A) :
  is_image_event e = false ->
  hoare (holding h) (getter e a x) (fun _ => holding h).
Proof.
  intros H. unfold getter. eapply hoare_bind; [apply hoare_call, H|].
  intros u. apply hoare_ret. auto.
Qed.

Lemma hoare_deref h p : hoare (holding h) (deref p) (fun _ => holding h).
Proof. unfold deref. keeps. Qed.

Lemma hoare_keep {A B} h (c : M A) (k : A -> M B) (Q : B -> World -> Prop) :
  hoare (holding h) c (fun _ => holding h) ->
  (forall a, hoare (holding h) (k a) Q) ->
  hoare (holding h) (bind c k) Q.
Proof. intros Hc Hk. eapply hoare_bind; [exact Hc | exact Hk]. Qed.

Lemma hoare_foldM {Sink B} (image_of_sink : Sink -> option Image)
    (f : Sink -> B -> M Sink) :
  (forall s b, hoare (holding (image_of_sink s)) (f s b)
                     (fun s' => holding (image_of_sink s'))) ->
  forall l s, hoare (holding (image_of_sink s)) (foldM f l s)
                    (fun s' => holding (image_of_sink s')).
Proof.
  intros Hf. induction l as [|b l IH]; intros s; cbn [foldM].
  - apply hoare_ret. auto.
  - eapply hoare_bind; [apply Hf | exact IH].
Qed.

(** The code around the callbacks, none of which touches an image. *)
Ltac session :=
  repeat first
    [ apply hoare_undefined
    | apply hoare_ret; intros ? ?; assumption
    | apply hoare_call; reflexivity
    | apply hoare_release; reflexivity
    | apply hoare_release_if; reflexivity
    | apply hoare_getter; reflexivity
    | apply hoare_submit
    | apply hoare_deref
    | apply hoare_enqueue
    | apply hoare_take_pending
    | match goal with
      | |- hoare _ (if ?b then _ else _) _ => destruct b
      | |- hoare _ (match ?x with _ => _ end) _ => destruct x
      | |- hoare _ (let '(_, _) := ?p in _) _ => destruct p
      | |- hoare _ (when ?b _) _ => destruct b; cbn [when]
      | |- hoare _ (bind (when ?b _) _) _ => destruct b; cbn [when]
      | |- hoare _ (ret (if ?b then _ else _)) _ => destruct b
      | |- hoare _ (bind (if ?b then _ else _) _) _ => destruct b
      end
    | apply hoare_keep; [|intros ?] ].

Lemma Extract_ReadComplete_keeps self j result frame :
  is_image_event (Release j) = false ->
  hoare (holding (Extract.processed_image self))
        (Extract.ReadComplete self j result frame)
        (fun s => holding (Extract.processed_image s)).
Proof.
  intros Hj. unfold Extract.ReadComplete.
  destruct j; try discriminate Hj; session.
Qed.

Lemma Addon_ReadComplete_keeps self j result frame :
  is_image_event (Release j) = false ->
  hoare (holding (Addon.processed_image self))
        (Addon.ReadComplete self j result frame)
        (fun s => holding (Addon.processed_image s)).
Proof.
  intros Hj. unfold Addon.ReadComplete.
  apply hoare_keep; [session | intros r1].
  apply hoare_keep; [session | intros [r2 job]].
  apply hoare_keep; [session | intros r3].
  eapply hoare_bind with (R := fun s => holding (Addon.processed_image s)).
  - session.
  - intros s. apply hoare_keep; [apply hoare_release; exact Hj | intros u].
    apply hoare_ret. auto.
Qed.

Lemma Extract_ProcessComplete_keeps self result im :
  hoare (holding (Extract.processed_image self))
        (Extract.ProcessComplete self DecodeJob result im)
        (fun s => holding (Extract.processed_image s)).
Proof.
  intros w Hw. destruct (succeeded result) eqn:E.
  - destruct (Extract_process_stored self result im w E) as (s & -> & Hs).
    rewrite Hs. apply balanced_replace. exact Hw.
  - destruct (Extract_process_failed self result im w E) as (s & -> & Hs).
    rewrite Hs. apply balanced_other; [reflexivity | exact Hw].
Qed.

Lemma Addon_ProcessComplete_keeps self result im :
  hoare (holding (Addon.processed_image self))
        (Addon.ProcessComplete self DecodeJob result im)
        (fun s => holding (Addon.processed_image s)).
Proof.
  intros w Hw. destruct (succeeded result) eqn:E.
  - destruct (Addon_process_stored self result im w E) as (s & -> & Hs).
    rewrite Hs. apply balanced_replace. exact Hw.
  - destruct (Addon_process_failed self result im w E) as (s & -> & Hs).
    rewrite Hs. apply balanced_other; [reflexivity | exact Hw].
Qed.

Lemma Extract_flush_keeps v cb :
  hoare (holding (Extract.processed_image cb))
        (flush (H := Extract.BRAWCallback_callback) v cb)
        (fun rc => holding (Extract.processed_image (snd rc))).
Proof.
  unfold flush, run_pipeline.
  apply hoare_keep; [apply hoare_call; reflexivity | intros u].
  eapply hoare_bind with (R := fun s => holding (Extract.processed_image s));
    [|intros cb'; apply hoare_ret; auto].
  apply hoare_keep; [apply hoare_take_pending | intros r].
  eapply hoare_bind
    with (R := fun s => holding (Extract.processed_image s)).
  - destruct r; [|apply hoare_ret; auto].
    destruct (read_complete v) as [[result frame]|]; [|apply hoare_ret; auto].
    apply Extract_ReadComplete_keeps. reflexivity.
  - intros cb1. apply hoare_keep; [apply hoare_take_pending | intros d].
    destruct d; [|apply hoare_ret; auto].
    apply (hoare_foldM Extract.processed_image).
    intros s [result im]. apply Extract_ProcessComplete_keeps.
Qed.

Lemma Addon_flush_keeps v cb :
  hoare (holding (Addon.processed_image cb))
        (flush (H := Addon.BRAWCallback_callback) v cb)
        (fun rc => holding (Addon.processed_image (snd rc))).
Proof.
  unfold flush, run_pipeline.
  apply hoare_keep; [apply hoare_call; reflexivity | intros u].
  eapply hoare_bind with (R := fun s => holding (Addon.processed_image s));
    [|intros cb'; apply hoare_ret; auto].
  apply hoare_keep; [apply hoare_take_pending | intros r].
  eapply hoare_bind
    with (R := fun s => holding (Addon.processed_image s)).
  - destruct r; [|apply hoare_ret; auto].
    destruct (read_complete v) as [[result frame]|]; [|apply hoare_ret; auto].
    apply Addon_ReadComplete_keeps. reflexivity.
  - intros cb1. apply hoare_keep; [apply hoare_take_pending | intros d].
    destruct d; [|apply hoare_ret; auto].
    apply (hoare_foldM Addon.processed_image).
    intros s [result im]. apply Addon_ProcessComplete_keeps.
Qed.

Lemma hoare_delete_Extract cb :
  hoare (holding (Extract.processed_image cb)) (Extract.delete_BRAWCallback cb)
        (fun _ => holding None).
Proof.
  intros w Hw. unfold Extract.delete_BRAWCallback, holding in *.
  pose proof (balanced_destroy _ _ Hw) as Hd.
  destruct (Extract.processed_image cb); cbn in *; [exact Hd|].
  now rewrite app_nil_r in Hd.
Qed.

Lemma hoare_delete_Addon cb :
  hoare (holding (Addon.processed_image cb)) (Addon.delete_BRAWCallback cb)
        (fun _ => holding None).
Proof.
  intros w Hw. unfold Addon.delete_BRAWCallback, holding in *.
  pose proof (balanced_destroy _ _ Hw) as Hd.
  destruct (Addon.processed_image cb); cbn in *; [exact Hd|].
  now rewrite app_nil_r in Hd.
Qed.

Lemma Extract_resolve_keeps h v result cb out :
  hoare (holding h) (Extract.extract_frame_resolve v result cb out)
        (fun _ => holding h).
Proof. unfold Extract.extract_frame_resolve, Extract.cleanup. session. Qed.

Lemma Addon_resolve_keeps h here cb o :
  hoare (holding h) (Addon.ExtractFrame_resolve here cb o) (fun _ => holding h).
Proof. unfold Addon.ExtractFrame_resolve. session. Qed.

Lemma Extract_session_keeps v g0 path frameIndex out :
  hoare (holding match g0 with
                 | Some old => Extract.processed_image old
                 | None => None
                 end)
        (Extract.extract_frame v g0 path frameIndex out)
        (fun r => holding (Extract.processed_image (snd r))).
Proof.
  unfold Extract.extract_frame, Extract.cleanup.
  eapply hoare_bind with (R := fun _ => holding None).
  { destruct g0 as [old|]; [apply hoare_delete_Extract | apply hoare_ret; auto]. }
  intros u. cbv zeta.
  repeat first
    [ match goal with
      | |- hoare _ (bind (flush ?v ?c) _) _ =>
          eapply hoare_bind;
          [ apply (Extract_flush_keeps v c)
          | intros [flushed cb]; cbn [snd];
            apply hoare_keep; [apply Extract_resolve_keeps | intros e];
            apply hoare_ret; auto ]
      end
    | apply hoare_undefined
    | apply hoare_ret; intros ? ?; assumption
    | apply hoare_call; reflexivity
    | apply hoare_release; reflexivity
    | apply hoare_getter; reflexivity
    | apply hoare_submit
    | match goal with
      | |- hoare _ (if ?b then _ else _) _ => destruct b
      | |- hoare _ (let '(_, _) := ?p in _) _ => destruct p
      end
    | apply hoare_keep; [|intros ?] ].
Qed.

Lemma Addon_body_keeps v cb path frameIndex :
  hoare (holding (Addon.processed_image cb))
        (Addon.ExtractFrame_body v cb path frameIndex)
        (fun r => holding (Addon.processed_image (snd r))).
Proof.
  unfold Addon.ExtractFrame_body. cbv zeta.
  repeat first
    [ match goal with
      | |- hoare _ (bind (flush ?v ?c) _) _ =>
          eapply hoare_bind;
          [ apply (Addon_flush_keeps v c)
          | intros [flushed cb']; cbn [snd];
            apply hoare_keep; [apply Addon_resolve_keeps | intros lo];
            apply hoare_ret; auto ]
      end
    | apply hoare_undefined
    | apply hoare_ret; intros ? ?; assumption
    | apply hoare_call; reflexivity
    | apply hoare_release; reflexivity
    | apply hoare_getter; reflexivity
    | apply hoare_submit
    | apply hoare_deref
    | match goal with
      | |- hoare _ (if ?b then _ else _) _ => destruct b
      | |- hoare _ (let '(_, _) := ?p in _) _ => destruct p
      end
    | apply hoare_keep; [|intros ?] ].
Qed.

Lemma Addon_session_keeps v path frameIndex :
  hoare (holding None) (Addon.ExtractFrame v path frameIndex)
        (fun _ => holding None).
Proof.
  unfold Addon.ExtractFrame, Addon.release_all.
  eapply hoare_bind; [apply (Addon_body_keeps v Addon.new_BRAWCallback)|].
  intros [[l o] cb]. cbn [snd].
  apply hoare_keep.
  - apply hoare_keep; [apply hoare_release_if; reflexivity | intros u1].
    apply hoare_keep; [apply hoare_release_if; reflexivity | intros u2].
    apply hoare_release_if; reflexivity.
  - intros u3.
    eapply hoare_bind with (R := fun _ => holding None);
      [apply hoare_delete_Addon | intros u4; apply hoare_ret; auto].
Qed.

(** ** The processed image, from sink to session *)

(** C4 (as amended).  Over the life of a sink (constructed,
    ProcessComplete invoked any number of times with any results,
    destroyed), in braw-extract.cpp and in the addon alike:
    - a successful invocation releases the image held so far, if there is
      one, before it retains and stores the new one;
    - after the invocations the sink holds the image of the last
      successful one;
    - the destructor releases the image still held;
    - in the whole trace, every image is retained as many times as it was
      stored and released exactly as many times: each image taken by the
      sink is released exactly once, however often ProcessComplete ran.
    The addon destroys its sink before ExtractFrame returns, so a session
    of the addon returns with every image released as often as retained.
    braw-extract.cpp keeps the sink in the global [g_callback] and
    destroys it at the start of the next extract_frame: a session returns
    with every image released as often as retained except the one the
    sink still holds. *)
Theorem C4_held_image_released_once (calls : list (HRESULT * Image))
    (v : Vendor) (path out : string) (frameIndex : Z) :
  (exists self w w',
     Extract_invocations calls start = Returns self w
     /\ held_id (Extract.processed_image self) = last_stored calls
     /\ Extract.delete_BRAWCallback self w = Returns tt w'
     /\ trace w' = trace w ++ match Extract.processed_image self with
                              | Some im => [Release (ProcessedImage (image_id im))]
                              | None => []
                              end
     /\ forall id,
          count (AddRef (ProcessedImage id)) (trace w')
          = count_occ Nat.eq_dec (stored calls) id
          /\ count (Release (ProcessedImage id)) (trace w')
             = count_occ Nat.eq_dec (stored calls) id)
  /\ (exists self w w',
     Addon_invocations calls start = Returns self w
     /\ held_id (Addon.processed_image self) = last_stored calls
     /\ Addon.delete_BRAWCallback self w = Returns tt w'
     /\ trace w' = trace w ++ match Addon.processed_image self with
                              | Some im => [Release (ProcessedImage (image_id im))]
                              | None => []
                              end
     /\ forall id,
          count (AddRef (ProcessedImage id)) (trace w')
          = count_occ Nat.eq_dec (stored calls) id
          /\ count (Release (ProcessedImage id)) (trace w')
             = count_occ Nat.eq_dec (stored calls) id)
  /\ (forall self im,
        trace_of (Extract.ProcessComplete self DecodeJob S_OK im start)
        = replace_events (Extract.processed_image self) im)
  /\ (forall self im,
        trace_of (Addon.ProcessComplete self DecodeJob S_OK im start)
        = replace_events (Addon.processed_image self) im)
  /\ (forall o w,
        Addon.ExtractFrame v path frameIndex start = Returns o w ->
        forall id,
          count (Release (ProcessedImage id)) (trace w)
          = count (AddRef (ProcessedImage id)) (trace w))
  /\ (forall e g w,
        Extract.extract_frame v None path frameIndex out start = Returns (e, g) w ->
        forall id,
          (count (Release (ProcessedImage id)) (trace w)
           + holds (Extract.processed_image g) id
           = count (AddRef (ProcessedImage id)) (trace w))%nat).
Proof.
  split; [|split; [|split; [|split; [|split]]]].
  - destruct (invocations_balance Extract.processed_image Extract.ProcessComplete
                Extract_process_failed Extract_process_stored
                calls Extract.new_BRAWCallback start)
      as (self & w & Hrun & Hlast & Hcount).
    exists self, w.
    exists {| trace := trace w ++ match Extract.processed_image self with
                                  | Some im => [Release (ProcessedImage (image_id im))]
                                  | None => []
                                  end;
              pending := pending w |}.
    split; [exact Hrun|]. split; [exact Hlast|]. split.
    { unfold Extract.delete_BRAWCallback.
      destruct (Extract.processed_image self); cbn; [reflexivity|].
      rewrite app_nil_r. now destruct w. }
    split; [reflexivity|].
    intros id. destruct (Hcount id) as [Ha Hr]. cbn [trace].
    rewrite holds_release_count, holds_addref_count.
    cbn in Ha, Hr. split; lia.
  - destruct (invocations_balance Addon.processed_image Addon.ProcessComplete
                Addon_process_failed Addon_process_stored
                calls Addon.new_BRAWCallback start)
      as (self & w & Hrun & Hlast & Hcount).
    exists self, w.
    exists {| trace := trace w ++ match Addon.processed_image self with
                                  | Some im => [Release (ProcessedImage (image_id im))]
                                  | None => []
                                  end;
              pending := pending w |}.
    split; [exact Hrun|]. split; [exact Hlast|]. split.
    { unfold Addon.delete_BRAWCallback.
      destruct (Addon.processed_image self); cbn; [reflexivity|].
      rewrite app_nil_r. now destruct w. }
    split; [reflexivity|].
    intros id. destruct (Hcount id) as [Ha Hr]. cbn [trace].
    rewrite holds_release_count, holds_addref_count.
    cbn in Ha, Hr. split; lia.
  - intros self im.
    destruct (Extract_process_stored self S_OK im start eq_refl) as (s & -> & _).
    reflexivity.
  - intros self im.
    destruct (Addon_process_stored self S_OK im start eq_refl) as (s & -> & _).
    reflexivity.
  - intros o w Hrun id.
    assert (H0 : holding None start) by (intros i; reflexivity).
    pose proof (Addon_session_keeps v path frameIndex start H0) as H.
    rewrite Hrun in H. specialize (H id). cbn [holds] in H. lia.
  - intros e g w Hrun id.
    assert (H0 : holding None start) by (intros i; reflexivity).
    pose proof (Extract_session_keeps v None path frameIndex out start H0) as H.
    rewrite Hrun in H. exact (H id).
Qed.

Lemma C4_held_image_released_once_witness :
  (exists o w,
     Addon.ExtractFrame tiny_stub "clip.braw" 0 start = Returns o w
     /\ forall id,
          count (Release (ProcessedImage id)) (trace w)
          = count (AddRef (ProcessedImage id)) (trace w))
  /\ (exists e g w,
     Extract.extract_frame tiny_stub None "clip.braw" 0 "out.ppm" start
     = Returns (e, g) w
     /\ forall id,
          (count (Release (ProcessedImage id)) (trace w)
           + holds (Extract.processed_image g) id
           = count (AddRef (ProcessedImage id)) (trace w))%nat).
Proof.
  pose proof (C4_held_image_released_once [] tiny_stub "clip.braw" "out.ppm" 0)
    as (_ & _ & _ & _ & Haddon & Hextract).
  split.
  - do 2 eexists. split; [vm_compute; reflexivity|].
    eapply Haddon. vm_compute. reflexivity.
  - do 3 eexists. split; [vm_compute; reflexivity|].
    eapply Hextract. vm_compute. reflexivity.
Defined.

(** C4 as stated does not hold for the sessions of braw-extract.cpp: a
    successful extraction returns with the decoded image retained once,
    never released, and still held by the sink left in [g_callback]. *)
Lemma C4_session_returns_holding_image :
  exists e g w,
    Extract.extract_frame tiny_stub None "clip.braw" 0 "out.ppm" start
    = Returns (e, g) w
    /\ status e = 0
    /\ held_id (Extract.processed_image g) = Some 1%nat
    /\ count (AddRef (ProcessedImage 1)) (trace w) = 1%nat
    /\ count (Release (ProcessedImage 1)) (trace w) = 0%nat.
Proof.
  do 3 eexists. split; [vm_compute; reflexivity|].
  repeat split.
Qed.


Example sink_two_invocations :
  trace_of ((self <- Addon_invocations
                       [(S_OK, image_of 1 2 1 ramp); (S_OK, image_of 2 2 1 ramp)] ;;
             Addon.delete_BRAWCallback self) start)
  = [AddRef (ProcessedImage 1); Release DecodeJob;
     Release (ProcessedImage 1); AddRef (ProcessedImage 2); Release DecodeJob;
     Release (ProcessedImage 2)].
Proof. reflexivity. Qed.


(** * Further properties of the three files *)

(** ** Running a whole operation symbolically *)

Lemma wp_bind {A B} (c : M A) (k : A -> M B) w (Q : B -> World -> Prop) :
  wp c w (fun a w' => wp (k a) w' Q) -> wp (bind c k) w Q.
Proof. unfold wp, bind. destruct (c w); auto. Qed.

Lemma wp_elim {A} (c : M A) w (Q : A -> World -> Prop) a w' :
  wp c w Q -> c w = Returns a w' -> Q a w'.
Proof. unfold wp. intros H E. now rewrite E in H. Qed.

Lemma wp_weaken {A} (c : M A) w (Q Q' : A -> World -> Prop) :
  (forall a w', Q a w' -> Q' a w') -> wp c w Q -> wp c w Q'.
Proof. unfold wp. intros H. destruct (c w); auto. Qed.

Lemma only_count allowed e t :
  allowed e = false -> only allowed t -> count e t = 0%nat.
Proof.
  intros He. unfold only, count. induction t as [|x t IH]; cbn; [reflexivity|].
  intros H. apply andb_prop in H. destruct H as [Hx Ht].
  destruct (Event_eq_dec x e) as [->|_]; [congruence | auto].
Qed.

Lemma only_app allowed t1 t2 :
  only allowed t1 -> only allowed t2 -> only allowed (t1 ++ t2).
Proof. unfold only. intros H1 H2. rewrite forallb_app, H1, H2. reflexivity. Qed.

Lemma count_cons_same e t : count e (e :: t) = S (count e t).
Proof. unfold count. cbn. destruct (Event_eq_dec e e); congruence. Qed.

Lemma count_cons_other e e' t : e' <> e -> count e (e' :: t) = count e t.
Proof. intros H. unfold count. cbn. destruct (Event_eq_dec e' e); congruence. Qed.

Lemma Extract_process_result self result im w :
  Extract.ProcessComplete self DecodeJob result im w
  = Returns (if succeeded result
             then {| Extract.processed_image := Some im;
                     Extract.error_occurred := Extract.error_occurred self |}
             else Extract.set_error self)
            {| trace := trace w ++ (if succeeded result
                                    then replace_events (Extract.processed_image self) im
                                    else [Release DecodeJob]);
               pending := pending w |}.
Proof.
  unfold Extract.ProcessComplete, replace_events.
  destruct (succeeded result); cbn; [|reflexivity].
  destruct (Extract.processed_image self); cbn; rewrite <- ?app_assoc; reflexivity.
Qed.

Lemma Addon_process_result self result im w :
  Addon.ProcessComplete self DecodeJob result im w
  = Returns (if succeeded result
             then {| Addon.processed_image := Some im;
                     Addon.error_occurred := Addon.error_occurred self |}
             else Addon.set_error self)
            {| trace := trace w ++ (if succeeded result
                                    then replace_events (Addon.processed_image self) im
                                    else [Release DecodeJob]);
               pending := pending w |}.
Proof.
  unfold Addon.ProcessComplete, replace_events.
  destruct (succeeded result); cbn; [|reflexivity].
  destruct (Addon.processed_image self); cbn; rewrite <- ?app_assoc; reflexivity.
Qed.

Lemma replace_events_sink held im :
  only is_sink_event (replace_events held im)
  /\ count (Release DecodeJob) (replace_events held im) = 1%nat.
Proof.
  unfold replace_events. destruct held; split; reflexivity.
Qed.

(** What any number of invocations of ProcessComplete do to a sink and to
    the trace: only references on images and on the job are touched, the
    job is released once per invocation, the error flag is raised by a
    failed invocation and never lowered, and the image held changes only
    when an invocation succeeds. *)
Lemma Extract_invocations_from : forall calls cb w,
  exists cb' t,
    foldM (fun s ri => Extract.ProcessComplete s DecodeJob (fst ri) (snd ri))
          calls cb w
    = Returns cb' {| trace := trace w ++ t; pending := pending w |}
    /\ only is_sink_event t
    /\ count (Release DecodeJob) t = List.length calls
    /\ Extract.error_occurred cb' = Extract.error_occurred cb || some_failed calls
    /\ (stored calls = [] ->
        Extract.processed_image cb' = Extract.processed_image cb)
    /\ (stored calls <> [] -> Extract.processed_image cb' <> None).
Proof.
  induction calls as [|[result im] calls IH]; intros cb w.
  - exists cb, []. cbn. rewrite app_nil_r, orb_false_r.
    destruct w. repeat split; try reflexivity. intros H. now contradiction H.
  - cbn [foldM fst snd]. unfold bind at 1. rewrite Extract_process_result.
    unfold stored, some_failed. cbn [filter existsb fst snd].
    destruct (succeeded result) eqn:E; cbn [negb orb map].
    + match goal with
      | |- context [foldM _ calls ?s ?w1] =>
          destruct (IH s w1) as (cb' & t & -> & Honly & Hjob & Herr & Himg & Hsome)
      end.
      exists cb', (replace_events (Extract.processed_image cb) im ++ t).
      cbn [trace pending]. rewrite app_assoc. split; [reflexivity|].
      destruct (replace_events_sink (Extract.processed_image cb) im) as [Ho Hc].
      split; [apply only_app; assumption|].
      split; [rewrite count_app, Hc, Hjob; reflexivity|].
      split; [exact Herr|].
      split; [discriminate|].
      intros _. destruct (stored calls) eqn:Hst.
      * rewrite (Himg eq_refl). discriminate.
      * apply Hsome. discriminate.
    + match goal with
      | |- context [foldM _ calls ?s ?w1] =>
          destruct (IH s w1) as (cb' & t & -> & Honly & Hjob & Herr & Himg & Hsome)
      end.
      exists cb', ([Release DecodeJob] ++ t).
      cbn [trace pending]. rewrite app_assoc. split; [reflexivity|].
      split; [apply only_app; [reflexivity | assumption]|].
      split; [rewrite count_app, count_one_same, Hjob; reflexivity|].
      split; [rewrite Herr; cbn; now rewrite orb_true_r|].
      split; [intros Hst; rewrite (Himg Hst); reflexivity | exact Hsome].
Qed.

Lemma Addon_invocations_from : forall calls cb w,
  exists cb' t,
    foldM (fun s ri => Addon.ProcessComplete s DecodeJob (fst ri) (snd ri))
          calls cb w
    = Returns cb' {| trace := trace w ++ t; pending := pending w |}
    /\ only is_sink_event t
    /\ count (Release DecodeJob) t = List.length calls
    /\ Addon.error_occurred cb' = Addon.error_occurred cb || some_failed calls
    /\ (stored calls = [] ->
        Addon.processed_image cb' = Addon.processed_image cb)
    /\ (stored calls <> [] -> Addon.processed_image cb' <> None).
Proof.
  induction calls as [|[result im] calls IH]; intros cb w.
  - exists cb, []. cbn. rewrite app_nil_r, orb_false_r.
    destruct w. repeat split; try reflexivity. intros H. now contradiction H.
  - cbn [foldM fst snd]. unfold bind at 1. rewrite Addon_process_result.
    unfold stored, some_failed. cbn [filter existsb fst snd].
    destruct (succeeded result) eqn:E; cbn [negb orb map].
    + match goal with
      | |- context [foldM _ calls ?s ?w1] =>
          destruct (IH s w1) as (cb' & t & -> & Honly & Hjob & Herr & Himg & Hsome)
      end.
      exists cb', (replace_events (Addon.processed_image cb) im ++ t).
      cbn [trace pending]. rewrite app_assoc. split; [reflexivity|].
      destruct (replace_events_sink (Addon.processed_image cb) im) as [Ho Hc].
      split; [apply only_app; assumption|].
      split; [rewrite count_app, Hc, Hjob; reflexivity|].
      split; [exact Herr|].
      split; [discriminate|].
      intros _. destruct (stored calls) eqn:Hst.
      * rewrite (Himg eq_refl). discriminate.
      * apply Hsome. discriminate.
    + match goal with
      | |- context [foldM _ calls ?s ?w1] =>
          destruct (IH s w1) as (cb' & t & -> & Honly & Hjob & Herr & Himg & Hsome)
      end.
      exists cb', ([Release DecodeJob] ++ t).
      cbn [trace pending]. rewrite app_assoc. split; [reflexivity|].
      split; [apply only_app; [reflexivity | assumption]|].
      split; [rewrite count_app, count_one_same, Hjob; reflexivity|].
      split; [rewrite Herr; cbn; now rewrite orb_true_r|].
      split; [intros Hst; rewrite (Himg Hst); reflexivity | exact Hsome].
Qed.

Lemma wp_ret {A} (a : A) w (Q : A -> World -> Prop) : Q a w -> wp (ret a) w Q.
Proof. auto. Qed.

Lemma wp_undefined {A} w (Q : A -> World -> Prop) : wp undefined w Q.
Proof. exact I. Qed.

Lemma wp_call e w (Q : unit -> World -> Prop) :
  Q tt {| trace := trace w ++ [e]; pending := pending w |} -> wp (call e) w Q.
Proof. auto. Qed.

Lemma wp_enqueue j w (Q : unit -> World -> Prop) :
  Q tt {| trace := trace w; pending := pending w ++ [j] |} -> wp (enqueue j) w Q.
Proof. auto. Qed.

Lemma wp_take_pending j w (Q : bool -> World -> Prop) :
  (In j (pending w) ->
   Q true {| trace := trace w; pending := remove Resource_eq_dec j (pending w) |}) ->
  (~ In j (pending w) -> Q false w) ->
  wp (take_pending j) w Q.
Proof.
  intros Hin Hout. unfold wp, take_pending.
  destruct (in_dec Resource_eq_dec j (pending w)); auto.
Qed.

Lemma wp_foldM_Extract calls cb w (Q : Extract.BRAWCallback -> World -> Prop) :
  (forall cb' t,
     only is_sink_event t ->
     count (Release DecodeJob) t = List.length calls ->
     Extract.error_occurred cb' = Extract.error_occurred cb || some_failed calls ->
     (stored calls = [] -> Extract.processed_image cb' = Extract.processed_image cb) ->
     (stored calls <> [] -> Extract.processed_image cb' <> None) ->
     Q cb' {| trace := trace w ++ t; pending := pending w |}) ->
  wp (foldM (fun s ri => Extract.ProcessComplete s DecodeJob (fst ri) (snd ri))
            calls cb) w Q.
Proof.
  intros H. unfold wp.
  destruct (Extract_invocations_from calls cb w)
    as (cb' & t & -> & Ho & Hc & He & Hi & Hs).
  apply H; assumption.
Qed.

Lemma wp_foldM_Addon calls cb w (Q : Addon.BRAWCallback -> World -> Prop) :
  (forall cb' t,
     only is_sink_event t ->
     count (Release DecodeJob) t = List.length calls ->
     Addon.error_occurred cb' = Addon.error_occurred cb || some_failed calls ->
     (stored calls = [] -> Addon.processed_image cb' = Addon.processed_image cb) ->
     (stored calls <> [] -> Addon.processed_image cb' <> None) ->
     Q cb' {| trace := trace w ++ t; pending := pending w |}) ->
  wp (foldM (fun s ri => Addon.ProcessComplete s DecodeJob (fst ri) (snd ri))
            calls cb) w Q.
Proof.
  intros H. unfold wp.
  destruct (Addon_invocations_from calls cb w)
    as (cb' & t & -> & Ho & Hc & He & Hi & Hs).
  apply H; assumption.
Qed.

(** ProcessComplete of braw-extractor.cpp may not return (write_ppm reads
    through a null pointer when GetResource wrote none); when it returns it
    has called the three getters at most and released its job. *)
Lemma Extractor_process_step opens g result im w :
  wp (Extractor.ProcessComplete opens g DecodeJob result im) w
     (fun g' w' =>
        exists t, w' = {| trace := trace w ++ t; pending := pending w |}
                  /\ only is_writer_event t
                  /\ count (Release DecodeJob) t = 1%nat
                  /\ Extractor.g_output_path g' = Extractor.g_output_path g
                  /\ (file_matches g -> file_matches g')).
Proof.
  destruct im as [id [ws wv] [hs hv] [ts tv] [rs rv]]. destruct w as [tr pe].
  unfold Extractor.ProcessComplete, Extractor.write_ppm_at, getter, release, call,
    wp, bind, ret, undefined.
  cbn [image_id image_width image_height image_resource fst snd trace pending].
  repeat match goal with
         | |- context [succeeded ?x] => destruct (succeeded x); cbn [fst snd trace pending]
         end;
    try (destruct rv as [[m|]|]; cbn [fst snd trace pending]);
    try (destruct opens; cbn [negb]; [destruct (wrap32 _ =? 0) eqn:Hzero|]);
    cbv beta iota; cbn [fst snd trace pending]; try exact I;
    rewrite <- ?app_assoc; eexists; (split; [reflexivity|]);
    (split; [reflexivity|]); (split; [reflexivity|]); (split; [reflexivity|]);
    try (intros Hg; exact Hg);
    intros _; unfold file_matches;
    cbn [Extractor.g_output_success Extractor.output_file Extractor.g_output_width
         Extractor.g_output_height];
    try (intros Hs; discriminate Hs); intros Hs;
    first [ destruct opens; [exists m; reflexivity | discriminate Hs]
          | exists ramp; unfold write_ppm; apply Z.eqb_eq in Hzero; rewrite Hzero;
            reflexivity ].
Qed.

Lemma wp_foldM_Extractor opens calls : forall g w (Q : Extractor.Statics -> World -> Prop),
  (forall g' t,
     only is_writer_event t ->
     count (Release DecodeJob) t = List.length calls ->
     Extractor.g_output_path g' = Extractor.g_output_path g ->
     (file_matches g -> file_matches g') ->
     Q g' {| trace := trace w ++ t; pending := pending w |}) ->
  wp (foldM (fun s ri => Extractor.ProcessComplete opens s DecodeJob (fst ri) (snd ri))
            calls g) w Q.
Proof.
  induction calls as [|[result im] calls IH]; intros g w Q H.
  - cbn [foldM]. apply wp_ret.
    specialize (H g [] eq_refl eq_refl eq_refl (fun x => x)). rewrite app_nil_r in H.
    destruct w; exact H.
  - cbn [foldM]. apply wp_bind.
    eapply wp_weaken; [|apply Extractor_process_step].
    cbn beta. intros g1 w1 (t1 & -> & Ho1 & Hc1 & Hp1 & Hf1).
    apply IH. intros g' t Ho Hc Hp Hf. cbn [trace pending].
    rewrite <- app_assoc. apply H.
    + apply only_app; assumption.
    + rewrite count_app, Hc1, Hc. reflexivity.
    + congruence.
    + auto.
Qed.

(** One step of a symbolic run: the head of the computation decides. *)
Ltac wp_tidy :=
  cbv beta iota zeta;
  cbn [trace pending app negb orb andb fst snd
       factory create_codec open_clip get_frame_count get_width get_height
       get_frame_rate set_callback create_job_read_frame read_submit flush_jobs
       read_complete process_complete output_file_opens
       set_resource_format create_job_decode_and_process_frame decode_submit
       image_id image_width image_height image_resource_type image_resource
       status json file
       Extract.processed_image Extract.error_occurred Extract.set_error
       Extract.new_BRAWCallback
       Addon.processed_image Addon.error_occurred Addon.set_error
       Addon.new_BRAWCallback
       Addon.result Addon.factory_ptr Addon.codec_ptr Addon.clip_ptr
       Extractor.result Extractor.factory_ptr Extractor.codec_ptr Extractor.clip_ptr
       Extractor.g_output_path Extractor.g_output_width Extractor.g_output_height
       Extractor.g_output_success Extractor.output_file].

Ltac wp_condition b :=
  match b with
  | _ => match goal with H : b = _ |- _ => rewrite H end
  | context [succeeded ?x] =>
      first [ match goal with H : succeeded x = _ |- _ => rewrite H end
            | destruct (succeeded x) eqn:? ]
  | _ => is_var b; destruct b
  | negb ?c => is_var c; destruct c
  | negb ?c || negb ?d => first [is_var c; destruct c | is_var d; destruct d]
  | _ => destruct b eqn:?
  end.

Ltac wp_pending :=
  apply wp_take_pending; cbn [pending];
  [ intros ?;
    try (exfalso;
         match goal with
         | H : In _ _ |- _ => cbn in H; solve [intuition discriminate]
         end)
  | intros ?;
    try (exfalso;
         match goal with
         | H : ~ In _ _ |- _ => apply H; cbn; solve [auto]
         end) ];
  cbn [remove app]; repeat (destruct (Resource_eq_dec _ _); try congruence).

Ltac head_of t :=
  lazymatch t with
  | ?f _ => head_of f
  | _ => t
  end.

Ltac wp_callbacks :=
  cbv [onReadComplete onProcessComplete Addon.BRAWCallback_callback
       Extract.BRAWCallback_callback Extractor.CameraCodecCallback].

Ltac wp_fold :=
  first [ apply wp_foldM_Addon; intros [? ?] ? ? ? ? ? ?
        | apply wp_foldM_Extract; intros [? ?] ? ? ? ? ? ?
        | apply wp_foldM_Extractor; intros ? ? ? ? ? ? ].

Ltac wp_step :=
  lazymatch goal with
  | |- wp (bind _ _) _ _ => apply wp_bind
  | |- wp (ret _) _ _ => apply wp_ret
  | |- wp undefined _ _ => apply wp_undefined
  | |- wp (call _) _ _ => apply wp_call
  | |- wp (enqueue _) _ _ => apply wp_enqueue
  | |- wp (take_pending _) _ _ => wp_pending
  | |- wp (flush _ _) _ _ => unfold flush at 1; wp_callbacks
  | |- wp (run_pipeline _ _) _ _ => unfold run_pipeline at 1; wp_callbacks
  | |- wp (foldM _ _ _) _ _ => wp_fold
  | |- wp (if ?b then _ else _) _ _ => wp_condition b
  | |- wp (match ?x with _ => _ end) _ _ => destruct x
  | |- wp ?c _ _ => let h := head_of c in unfold h at 1
  end; wp_tidy.

Ltac wp_run := repeat wp_step.

Lemma count_nil e : count e [] = 0%nat.
Proof. reflexivity. Qed.

(** Counting the occurrences of an event in the trace of a finished run. *)
Ltac tally :=
  cbn [b2n andb orb negb List.length];
  repeat first
    [ rewrite count_nil
    | rewrite count_cons_same
    | rewrite count_cons_other by (discriminate || congruence)
    | rewrite count_app
    | match goal with
      | Ho : only ?a ?t |- context [count ?e ?t] =>
          rewrite (only_count a e t eq_refl Ho)
      | Hc : count ?e ?t = _ |- context [count ?e ?t] => rewrite Hc
      end ];
  try reflexivity; try lia.

(** ** write_ppm and the addon's buffer *)

Lemma rgb_bytes_nth data : forall n first k c,
  (k < n)%nat -> (c < 3)%nat ->
  nth (3 * k + c) (rgb_bytes data first n) Byte.x00
  = data (4 * (first + Z.of_nat k) + Z.of_nat c).
Proof.
  induction n as [|n IH]; intros first k c Hk Hc; [lia|].
  rewrite rgb_bytes_step.
  destruct k as [|k].
  - destruct c as [|[|[|c]]]; try lia; cbn [Nat.mul Nat.add app nth]; f_equal; lia.
  - replace (3 * S k + c)%nat with (3 + (3 * k + c))%nat by lia.
    cbn [app nth Nat.add].
    rewrite IH by lia. f_equal. lia.
Qed.

(** X1.  Within 2^30 pixels the file that write_ppm writes is the header
    followed by three bytes per pixel, and byte [c] of pixel [k] is byte
    [c] of the RGBA quadruple [k] of the image: red, green and blue are
    kept in place and order, the alpha byte of every pixel is dropped. *)
Theorem write_ppm_pixels (width height : Z) (data : Memory) :
  0 <= width -> 0 <= height -> width * height <= 2 ^ 30 ->
  exists pixels,
    write_ppm true width height data = Some (ppm_header width height ++ pixels)
    /\ Z.of_nat (List.length pixels) = 3 * (width * height)
    /\ forall k c, (k < Z.to_nat (width * height))%nat -> (c < 3)%nat ->
         nth (3 * k + c) pixels Byte.x00 = data (4 * Z.of_nat k + Z.of_nat c).
Proof.
  intros Hw Hh Hb.
  exists (rgb_bytes data 0 (Z.to_nat (width * height))).
  split; [apply write_ppm_drops_alpha; assumption|]. split.
  - rewrite rgb_bytes_length. rewrite Nat2Z.inj_mul, Z2Nat.id by nia. reflexivity.
  - intros k c Hk Hc. rewrite rgb_bytes_nth by assumption. f_equal.
Qed.

Lemma write_ppm_pixels_witness :
  exists pixels,
    write_ppm true 2 1 ramp = Some (ppm_header 2 1 ++ pixels)
    /\ Z.of_nat (List.length pixels) = 3 * (2 * 1)
    /\ forall k c, (k < Z.to_nat (2 * 1))%nat -> (c < 3)%nat ->
         nth (3 * k + c) pixels Byte.x00 = ramp (4 * Z.of_nat k + Z.of_nat c).
Proof.
  apply (write_ppm_pixels 2 1 ramp); [lia | lia | vm_compute; discriminate].
Defined.

Lemma put_pixels_length data bound : forall fuel i file,
  0 <= i -> i + Z.of_nat fuel = bound -> bound < 2 ^ 32 ->
  List.length (put_pixels fuel i bound data file)
  = (List.length file + 3 * fuel)%nat.
Proof.
  induction fuel as [|fuel IH]; intros i file Hi Hb Hbound.
  - cbn. lia.
  - cbn [put_pixels].
    destruct (Z.ltb_spec i bound) as [_|Hge]; [|lia].
    rewrite (wrap32_small (i + 1)) by lia.
    rewrite IH by lia. rewrite length_app. cbn [List.length]. lia.
Qed.

(** X2.  The file that write_ppm writes always holds the header followed by
    three bytes for each of [(width * height) mod 2^32] pixels: the pixel
    count is the product as [unsigned int] arithmetic gives it.  A file
    that cannot be opened is not written at all. *)
Theorem write_ppm_size (width height : Z) (data : Memory) :
  (exists file,
     write_ppm true width height data = Some file
     /\ Z.of_nat (List.length file)
        = Z.of_nat (List.length (ppm_header width height))
          + 3 * ((width * height) mod 2 ^ 32))
  /\ write_ppm false width height data = None.
Proof.
  split; [|reflexivity].
  unfold write_ppm. eexists. split; [reflexivity|].
  assert (Hb : 0 <= wrap32 (width * height) < 2 ^ 32)
    by (unfold wrap32; apply Z.mod_pos_bound; reflexivity).
  rewrite put_pixels_length; [|lia| |lia].
  - unfold wrap32 in *. rewrite Nat2Z.inj_add, Nat2Z.inj_mul, Z2Nat.id by lia.
    reflexivity.
  - rewrite Z2Nat.id by lia. reflexivity.
Qed.

Lemma buffer_copy_length data size :
  List.length (buffer_copy data size) = Z.to_nat size.
Proof. unfold buffer_copy. now rewrite length_map, length_seq. Qed.

Lemma buffer_copy_nth data size k d :
  (k < Z.to_nat size)%nat -> nth k (buffer_copy data size) d = data (Z.of_nat k).
Proof.
  intros Hk. unfold buffer_copy.
  rewrite (nth_indep _ d (data (Z.of_nat 0%nat))) by (now rewrite length_map, length_seq).
  rewrite (map_nth (fun k => data (Z.of_nat k)) (seq 0 (Z.to_nat size)) 0%nat k).
  now rewrite seq_nth.
Qed.

(** X3.  The buffer that the addon returns for a decoded frame is a copy of
    the first [(width * height * 4) mod 2^32] bytes of the image, alpha
    bytes included: the size is computed in [unsigned int]. *)
Theorem Addon_buffer_is_copy (here : HRESULT -> Addon.Locals) (im : Image)
    (data : Memory) :
  snd (image_resource_type im) = Some blackmagicRawResourceTypeBufferCPU ->
  succeeded (fst (image_resource im)) = true ->
  snd (image_resource im) = Some (Some data) ->
  exists l o w bytes,
    Addon.ExtractFrame_resolve here (Addon_sink false (Some im)) [] start
    = Returns (l, o) w
    /\ obj_get "success" o = Some (VBool true)
    /\ obj_get "buffer" o = Some (VBuffer bytes)
    /\ Z.of_nat (List.length bytes)
       = (declared_width im * declared_height im * 4) mod 2 ^ 32
    /\ forall k, (k < List.length bytes)%nat ->
                 nth k bytes Byte.x00 = data (Z.of_nat k).
Proof.
  destruct im as [id [ws wv] [hs hv] [ts tv] [rs rv]]. cbn.
  intros -> Hrs ->.
  unfold Addon.ExtractFrame_resolve, declared_width, declared_height, written.
  unfold_calls. cbn. rewrite Hrs. cbn.
  do 3 eexists. eexists (buffer_copy data _).
  split; [reflexivity|]. split; [reflexivity|]. split; [reflexivity|].
  rewrite buffer_copy_length. split.
  - unfold wrap32. rewrite Z2Nat.id by (apply Z.mod_pos_bound; reflexivity).
    now rewrite Z.mul_mod_idemp_l by discriminate.
  - intros k Hk. now apply buffer_copy_nth.
Qed.

Lemma Addon_buffer_is_copy_witness :
  exists l o w bytes,
    Addon.ExtractFrame_resolve Addon_here
      (Addon_sink false (Some (image_of 1 2 1 ramp))) [] start
    = Returns (l, o) w
    /\ obj_get "success" o = Some (VBool true)
    /\ obj_get "buffer" o = Some (VBuffer bytes)
    /\ Z.of_nat (List.length bytes)
       = (declared_width (image_of 1 2 1 ramp)
          * declared_height (image_of 1 2 1 ramp) * 4) mod 2 ^ 32
    /\ forall k, (k < List.length bytes)%nat ->
                 nth k bytes Byte.x00 = ramp (Z.of_nat k).
Proof.
  apply (Addon_buffer_is_copy Addon_here (image_of 1 2 1 ramp) ramp);
    reflexivity.
Defined.

(** ** The callbacks and the references on the jobs *)

Ltac run_callback :=
  unfold Extract.ReadComplete, Extractor.ReadComplete, Addon.ReadComplete,
    Extract.ProcessComplete, Extractor.ProcessComplete, Addon.ProcessComplete,
    Extractor.write_ppm_at;
  run.

(** X4.  ProcessComplete releases the job it is handed exactly once, whatever
    the status and whatever the sink holds, in each of the three files;
    the one of braw-extractor.cpp never takes a reference on the image. *)
Theorem ProcessComplete_releases_job_once (result : HRESULT) (im : Image) :
  (forall self, exists s w,
     Extract.ProcessComplete self DecodeJob result im start = Returns s w
     /\ count (Release DecodeJob) (trace w) = 1%nat)
  /\ (forall self, exists s w,
     Addon.ProcessComplete self DecodeJob result im start = Returns s w
     /\ count (Release DecodeJob) (trace w) = 1%nat)
  /\ (forall opens g g' w,
     Extractor.ProcessComplete opens g DecodeJob result im start = Returns g' w ->
     count (Release DecodeJob) (trace w) = 1%nat
     /\ count (AddRef (ProcessedImage (image_id im))) (trace w) = 0%nat).
Proof.
  split; [|split].
  - intros self. rewrite Extract_process_result. do 2 eexists.
    split; [reflexivity|]. cbn [trace start app].
    destruct (succeeded result); [|reflexivity].
    apply replace_events_sink.
  - intros self. rewrite Addon_process_result. do 2 eexists.
    split; [reflexivity|]. cbn [trace start app].
    destruct (succeeded result); [|reflexivity].
    apply replace_events_sink.
  - intros opens g g' w.
    pose proof (wp_elim (Extractor.ProcessComplete opens g DecodeJob result im) start
                  (fun _ w => count (Release DecodeJob) (trace w) = 1%nat
                              /\ count (AddRef (ProcessedImage (image_id im))) (trace w)
                                 = 0%nat) g' w) as H.
    apply H. clear H.
    destruct im as [id [ws wv] [hs hv] [ts tv] [rs rv]]. unfold start.
    wp_run; split; tally.
Qed.

Lemma ProcessComplete_releases_job_once_witness :
  exists g' w,
    Extractor.ProcessComplete true no_statics DecodeJob S_OK (image_of 1 2 1 ramp) start
    = Returns g' w
    /\ count (Release DecodeJob) (trace w) = 1%nat
    /\ count (AddRef (ProcessedImage (image_id (image_of 1 2 1 ramp)))) (trace w)
       = 0%nat.
Proof.
  do 2 eexists. split; [vm_compute; reflexivity|].
  eapply (proj2 (proj2 (ProcessComplete_releases_job_once S_OK (image_of 1 2 1 ramp)))
            true no_statics).
  vm_compute. reflexivity.
Defined.

(** X5.  ReadComplete and the decode job it creates.  braw-extract.cpp
    releases the job as soon as it has called Submit on it, whether Submit
    accepted it or not; the other two files release it only when Submit
    refused it, and leave an accepted job to ProcessComplete.  No file
    releases a job that was not created. *)
Theorem ReadComplete_decode_job_references (result : HRESULT) (frame : Frame) :
  hands_out_exactly (create_job_decode_and_process_frame frame) = true ->
  (forall self, exists s w,
     Extract.ReadComplete self ReadJob result frame start = Returns s w
     /\ count (Release DecodeJob) (trace w) = b2n (decode_job_created result frame))
  /\ (forall g, exists g' w,
     Extractor.ReadComplete g ReadJob result frame start = Returns g' w
     /\ count (Release DecodeJob) (trace w) = b2n (decode_job_refused result frame))
  /\ (forall self, exists s w,
     Addon.ReadComplete self ReadJob result frame start = Returns s w
     /\ count (Release DecodeJob) (trace w) = b2n (decode_job_refused result frame)).
Proof.
  destruct frame as [fmt [created job] sub].
  unfold hands_out_exactly, decode_job_refused, decode_job_created. cbn.
  intros H.
  repeat split; intros s; run_callback;
    try (destruct job; cbn in *; try discriminate); finish.
Qed.

Lemma ReadComplete_decode_job_references_witness :
  hands_out_exactly (create_job_decode_and_process_frame refusing_frame) = true
  /\ (exists s w,
        Extract.ReadComplete Extract.new_BRAWCallback ReadJob S_OK refusing_frame start
        = Returns s w
        /\ count (Release DecodeJob) (trace w)
           = b2n (decode_job_created S_OK refusing_frame))
  /\ (exists s w,
        Addon.ReadComplete Addon.new_BRAWCallback ReadJob S_OK good_frame start
        = Returns s w
        /\ count (Release DecodeJob) (trace w)
           = b2n (decode_job_refused S_OK good_frame)).
Proof.
  split; [reflexivity|]. split.
  - apply (ReadComplete_decode_job_references S_OK refusing_frame); reflexivity.
  - apply (ReadComplete_decode_job_references S_OK good_frame); reflexivity.
Defined.

(** X6.  The error flag of a sink is raised by a failed ProcessComplete and
    never lowered: after any number of invocations it tells whether one of
    them failed.  Once it is raised the session resolves with "Processing
    error occurred", even if an invocation before or after the failed one
    delivered an image. *)
Theorem failed_invocation_wins (calls : list (HRESULT * Image)) (v : Vendor)
    (out : string) (here : HRESULT -> Addon.Locals) :
  (exists cb w,
     Extract_invocations calls start = Returns cb w
     /\ Extract.error_occurred cb = some_failed calls
     /\ (some_failed calls = true ->
         exists w',
           Extract.extract_frame_resolve v S_OK cb out w
           = Returns (exit_error Processing_error_occurred) w'))
  /\ (exists cb w,
     Addon_invocations calls start = Returns cb w
     /\ Addon.error_occurred cb = some_failed calls
     /\ (some_failed calls = true ->
         exists l o w',
           Addon.ExtractFrame_resolve here cb [] w = Returns (l, o) w'
           /\ error_of_object o = Some Processing_error_occurred)).
Proof.
  split.
  - destruct (Extract_invocations_from calls Extract.new_BRAWCallback start)
      as (cb & t & Hrun & _ & _ & Herr & _).
    do 2 eexists. split; [exact Hrun|]. cbn in Herr. split; [exact Herr|].
    intros Hf. rewrite Hf in Herr.
    unfold Extract.extract_frame_resolve, Extract.cleanup.
    change (succeeded S_OK) with true. cbn [negb]. rewrite Herr.
    unfold_calls. cbn. eexists. reflexivity.
  - destruct (Addon_invocations_from calls Addon.new_BRAWCallback start)
      as (cb & t & Hrun & _ & _ & Herr & _).
    do 2 eexists. split; [exact Hrun|]. cbn in Herr. split; [exact Herr|].
    intros Hf. rewrite Hf in Herr.
    unfold Addon.ExtractFrame_resolve. rewrite Herr.
    unfold_calls. cbn. do 3 eexists. split; reflexivity.
Qed.

Lemma failed_invocation_wins_witness :
  some_failed [(E_FAIL, image_of 1 2 1 ramp); (S_OK, image_of 2 2 1 ramp)] = true
  /\ exists cb w,
       Addon_invocations [(E_FAIL, image_of 1 2 1 ramp); (S_OK, image_of 2 2 1 ramp)]
         start = Returns cb w
       /\ Addon.error_occurred cb
          = some_failed [(E_FAIL, image_of 1 2 1 ramp); (S_OK, image_of 2 2 1 ramp)]
       /\ exists l o w',
            Addon.ExtractFrame_resolve Addon_here cb [] w = Returns (l, o) w'
            /\ error_of_object o = Some Processing_error_occurred.
Proof.
  split; [reflexivity|].
  destruct (proj2 (failed_invocation_wins
                     [(E_FAIL, image_of 1 2 1 ramp); (S_OK, image_of 2 2 1 ramp)]
                     clip_stub "out.ppm" Addon_here))
    as (cb & w & Hrun & Herr & Hres).
  exists cb, w. split; [exact Hrun|]. split; [exact Herr|].
  apply Hres. reflexivity.
Defined.

(** X7.  ProcessComplete of braw-extractor.cpp.  It writes the image only when
    the status it is handed and the statuses of GetWidth, GetHeight and
    GetResource are all S_OK; otherwise it leaves the file-scope variables
    as they are and calls nothing but the getters and the Release of its
    job.  When it does write, it records the dimensions, and
    [g_output_success] tells whether the output file could be opened. *)
Theorem Extractor_ProcessComplete_writes (opens : bool) (g : Extractor.Statics)
    (result : HRESULT) (im : Image) :
  (image_readable result im = false ->
   exists w,
     Extractor.ProcessComplete opens g DecodeJob result im start = Returns g w
     /\ only is_writer_event (trace w))
  /\ (image_readable result im = true ->
      forall data, written (image_resource im) None = Some data ->
      exists g' w,
        Extractor.ProcessComplete opens g DecodeJob result im start = Returns g' w
        /\ Extractor.g_output_path g' = Extractor.g_output_path g
        /\ Extractor.g_output_width g' = declared_width im
        /\ Extractor.g_output_height g' = declared_height im
        /\ Extractor.g_output_success g' = opens
        /\ Extractor.output_file g'
           = match write_ppm opens (declared_width im) (declared_height im) data with
             | Some f => Some f
             | None => Extractor.output_file g
             end).
Proof.
  destruct im as [id [ws wv] [hs hv] [ts tv] [rs rv]].
  unfold image_readable, declared_width, declared_height, written. cbn.
  split.
  - intros H. unfold Extractor.ProcessComplete. unfold_calls. cbn.
    destruct (succeeded result) eqn:E1; cbn in *;
      [destruct (succeeded ws) eqn:E2; cbn in *;
       [destruct (succeeded hs) eqn:E3; cbn in *;
        [destruct (succeeded rs) eqn:E4; cbn in *; [discriminate|]|]|]|];
      rewrite ?E1, ?E2, ?E3, ?E4; cbn;
      rewrite ?E1, ?E2, ?E3, ?E4; cbn;
      rewrite ?E1, ?E2, ?E3, ?E4; cbn;
      rewrite ?E1, ?E2, ?E3, ?E4; cbn;
      eexists; split; reflexivity.
  - intros H data Hd.
    destruct rv as [[m|]|]; try discriminate Hd.
    injection Hd as ->.
    apply andb_prop in H. destruct H as [H E4].
    apply andb_prop in H. destruct H as [H E3].
    apply andb_prop in H. destruct H as [E1 E2].
    unfold Extractor.ProcessComplete, Extractor.write_ppm_at. unfold_calls. cbn.
    rewrite E1. cbn. rewrite E2. cbn. rewrite E3. cbn. rewrite E4. cbn.
    unfold write_ppm. destruct opens; cbn;
      do 2 eexists; split_all; reflexivity.
Qed.

Lemma Extractor_ProcessComplete_writes_witness :
  image_readable S_OK unreadable_image = false
  /\ image_readable S_OK (image_of 1 2 1 ramp) = true
  /\ (exists w,
        Extractor.ProcessComplete true no_statics DecodeJob S_OK unreadable_image start
        = Returns no_statics w
        /\ only is_writer_event (trace w))
  /\ (exists g' w,
        Extractor.ProcessComplete true no_statics DecodeJob S_OK
          (image_of 1 2 1 ramp) start = Returns g' w
        /\ Extractor.g_output_path g' = Extractor.g_output_path no_statics
        /\ Extractor.g_output_width g' = declared_width (image_of 1 2 1 ramp)
        /\ Extractor.g_output_height g' = declared_height (image_of 1 2 1 ramp)
        /\ Extractor.g_output_success g' = true
        /\ Extractor.output_file g'
           = match write_ppm true (declared_width (image_of 1 2 1 ramp))
                     (declared_height (image_of 1 2 1 ramp)) ramp with
             | Some f => Some f
             | None => Extractor.output_file no_statics
             end).
Proof.
  split; [reflexivity|]. split; [reflexivity|]. split.
  - apply (proj1 (Extractor_ProcessComplete_writes true no_statics S_OK
                    unreadable_image)).
    reflexivity.
  - apply (proj2 (Extractor_ProcessComplete_writes true no_statics S_OK
                    (image_of 1 2 1 ramp)) eq_refl ramp).
    reflexivity.
Defined.

(** ** Whole sessions: handles, jobs and what is reported *)

Ltac wp_session :=
  lazymatch goal with
  | |- ?c ?w0 = Returns ?r ?w -> ?P =>
      let Q := eval pattern r, w in P in
      lazymatch Q with
      | ?F r w =>
          let Hrun := fresh "Hrun" in
          intros Hrun; apply (wp_elim c w0 F r w); [clear Hrun | exact Hrun]
      end
  end.

(** X8.  In every run of a frame extraction that returns, the factory, the
    codec and the clip are released at most once each, and never before
    they exist.  The addon and braw-extractor.cpp release every object they
    were handed, also one handed out together with a failure status;
    braw-extract.cpp releases the codec and the clip only when the call
    that made them reported S_OK. *)
Theorem extract_frame_releases_handles (v : Vendor) (path out : string) (index : Z) :
  (forall r w,
     Extract.extract_frame v None path index out start = Returns r w ->
     count (Release Factory) (trace w) = b2n (factory v)
     /\ count (Release Codec) (trace w)
        = b2n (factory v && succeeded (fst (create_codec v)) && snd (create_codec v))
     /\ count (Release Clip) (trace w)
        = b2n (factory v && succeeded (fst (create_codec v)) && snd (create_codec v)
               && succeeded (fst (open_clip v)) && snd (open_clip v)))
  /\ (forall g r w,
     Extractor.extract_frame v g path index out start = Returns r w ->
     count (Release Factory) (trace w) = b2n (factory v)
     /\ count (Release Codec) (trace w) = b2n (factory v && snd (create_codec v))
     /\ count (Release Clip) (trace w)
        = b2n (factory v && succeeded (fst (create_codec v)) && snd (open_clip v)))
  /\ (forall r w,
     Addon.ExtractFrame v path index start = Returns r w ->
     count (Release Factory) (trace w) = b2n (factory v)
     /\ count (Release Codec) (trace w) = b2n (factory v && snd (create_codec v))
     /\ count (Release Clip) (trace w)
        = b2n (factory v && succeeded (fst (create_codec v)) && snd (open_clip v))).
Proof.
  split; [|split].
  - intros r w.
    wp_session.
    open_vendor v. unfold start. wp_run. all: split_all; tally.
  - intros g r w.
    wp_session.
    open_vendor v. unfold start. wp_run. all: split_all; tally.
  - intros r w.
    wp_session.
    open_vendor v. unfold start. wp_run. all: split_all; tally.
Qed.

Lemma extract_frame_releases_handles_witness :
  exists r w,
    Extract.extract_frame tiny_stub None "a.braw" 0 "a.ppm" start = Returns r w
    /\ count (Release Factory) (trace w) = 1%nat
    /\ count (Release Codec) (trace w) = 1%nat
    /\ count (Release Clip) (trace w) = 1%nat.
Proof.
  do 2 eexists. split; [vm_compute; reflexivity|].
  eapply (proj1 (extract_frame_releases_handles tiny_stub "a.braw" "a.ppm" 0)).
  vm_compute. reflexivity.
Defined.

(** X9.  In every run of a metadata query that returns, the factory, the
    codec and the clip are released at most once each and never before
    they exist;
    the addon and braw-extractor.cpp release whatever pointer they were
    handed, braw-extract.cpp only what came with S_OK. *)
Theorem extract_metadata_releases_handles (v : Vendor) (path : string) :
  (forall r w,
     Extract.extract_metadata v path start = Returns r w ->
     count (Release Factory) (trace w) = b2n (factory v)
     /\ count (Release Codec) (trace w)
        = b2n (factory v && succeeded (fst (create_codec v)) && snd (create_codec v))
     /\ count (Release Clip) (trace w)
        = b2n (factory v && succeeded (fst (create_codec v)) && snd (create_codec v)
               && succeeded (fst (open_clip v)) && snd (open_clip v)))
  /\ (forall r w,
     Extractor.extract_metadata v path start = Returns r w ->
     count (Release Factory) (trace w) = b2n (factory v)
     /\ count (Release Codec) (trace w) = b2n (factory v && snd (create_codec v))
     /\ count (Release Clip) (trace w)
        = b2n (factory v && succeeded (fst (create_codec v)) && snd (open_clip v)))
  /\ (forall r w,
     Addon.ExtractMetadata v path start = Returns r w ->
     count (Release Factory) (trace w) = b2n (factory v)
     /\ count (Release Codec) (trace w) = b2n (factory v && snd (create_codec v))
     /\ count (Release Clip) (trace w)
        = b2n (factory v && succeeded (fst (create_codec v)) && snd (open_clip v))).
Proof.
  split; [|split].
  - intros r w.
    wp_session.
    open_vendor v. unfold start. wp_run. all: split_all; tally.
  - intros r w.
    wp_session.
    open_vendor v. unfold start. wp_run. all: split_all; tally.
  - intros r w.
    wp_session.
    open_vendor v. unfold start. wp_run. all: split_all; tally.
Qed.

Lemma extract_metadata_releases_handles_witness :
  exists r w,
    Addon.ExtractMetadata no_codec_stub "a.braw" start = Returns r w
    /\ count (Release Factory) (trace w) = 1%nat
    /\ count (Release Codec) (trace w) = 0%nat
    /\ count (Release Clip) (trace w) = 0%nat.
Proof.
  do 2 eexists. split; [vm_compute; reflexivity|].
  eapply (proj2 (proj2 (extract_metadata_releases_handles no_codec_stub "a.braw"))).
  vm_compute. reflexivity.
Defined.

(** X10.  The references on the read job over a whole frame extraction whose
    read job is accepted by Submit.  braw-extract.cpp releases the job
    right after Submit and again in ReadComplete: twice when the callback
    is delivered.  The addon and braw-extractor.cpp leave the release to
    ReadComplete: once when the callback is delivered, never when it is
    not. *)
Theorem read_job_releases_per_session (v : Vendor) (path out : string) (index : Z) :
  opens v = true ->
  read_job_accepted v = true ->
  (forall r w,
     passes_int_check v index = true ->
     Extract.extract_frame v None path index out start = Returns r w ->
     count (Release ReadJob) (trace w) = S (b2n (delivered v)))
  /\ (forall g r w,
     passes_long_check v index = true ->
     Extractor.extract_frame v g path index out start = Returns r w ->
     count (Release ReadJob) (trace w) = b2n (delivered v))
  /\ (forall r w,
     passes_long_check v index = true ->
     Addon.ExtractFrame v path index start = Returns r w ->
     count (Release ReadJob) (trace w) = b2n (delivered v)).
Proof.
  intros Hopen Hacc.
  open_vendor v. open_succeeded Hopen. accepted Hacc. unfold delivered. cbn.
  split; [|split].
  - intros r w Hpass. passes Hpass.
    wp_session.
    unfold start. wp_run. all: tally.
  - intros g r w Hpass. passes Hpass.
    wp_session.
    unfold start. wp_run. all: tally.
  - intros r w Hpass. passes Hpass.
    wp_session.
    unfold start. wp_run. all: tally.
Qed.

Lemma read_job_releases_per_session_witness :
  opens tiny_stub = true
  /\ read_job_accepted tiny_stub = true
  /\ passes_int_check tiny_stub 0 = true
  /\ exists r w,
       Extract.extract_frame tiny_stub None "a.braw" 0 "a.ppm" start = Returns r w
       /\ count (Release ReadJob) (trace w) = 2%nat.
Proof.
  split; [reflexivity|]. split; [reflexivity|]. split; [reflexivity|].
  do 2 eexists. split; [vm_compute; reflexivity|].
  eapply (proj1 (read_job_releases_per_session tiny_stub "a.braw" "a.ppm" 0
                   eq_refl eq_refl)).
  - reflexivity.
  - vm_compute. reflexivity.
Defined.

(** X11.  The references on the decode job over a whole frame extraction in
    which the read succeeds and the decode job is created and accepted.
    braw-extract.cpp releases the job in ReadComplete and again in every
    ProcessComplete; the addon and braw-extractor.cpp release it in
    ProcessComplete only.  With one ProcessComplete per job that is two
    releases in braw-extract.cpp and one in the other two files. *)
Theorem decode_job_releases_per_session (v : Vendor) (path out : string) (index : Z)
    (result : HRESULT) (frame : Frame) :
  opens v = true ->
  read_job_accepted v = true ->
  read_complete v = Some (result, frame) ->
  decode_job_created result frame = true ->
  snd (create_job_decode_and_process_frame frame) = true ->
  succeeded (decode_submit frame) = true ->
  (forall r w,
     passes_int_check v index = true ->
     Extract.extract_frame v None path index out start = Returns r w ->
     count (Release DecodeJob) (trace w) = S (List.length (process_complete v)))
  /\ (forall g r w,
     passes_long_check v index = true ->
     Extractor.extract_frame v g path index out start = Returns r w ->
     count (Release DecodeJob) (trace w) = List.length (process_complete v))
  /\ (forall r w,
     passes_long_check v index = true ->
     Addon.ExtractFrame v path index start = Returns r w ->
     count (Release DecodeJob) (trace w) = List.length (process_complete v)).
Proof.
  intros Hopen Hacc Hrc Hcreated Hjob Hsub.
  destruct frame as [fmt [cs cj] sub].
  unfold decode_job_created in Hcreated. cbn in Hcreated, Hjob, Hsub.
  apply andb_prop in Hcreated. destruct Hcreated as [Hcreated Hcs].
  apply andb_prop in Hcreated. destruct Hcreated as [Hresult Hfmt].
  open_vendor v. open_succeeded Hopen. accepted Hacc. subst.
  split; [|split].
  - intros r w Hpass. passes Hpass. wp_session. unfold start. wp_run. all: tally.
  - intros g r w Hpass. passes Hpass. wp_session. unfold start. wp_run. all: tally.
  - intros r w Hpass. passes Hpass. wp_session. unfold start. wp_run. all: tally.
Qed.

Lemma decode_job_releases_per_session_witness :
  passes_int_check tiny_stub 0 = true
  /\ exists r w,
       Extract.extract_frame tiny_stub None "a.braw" 0 "a.ppm" start = Returns r w
       /\ count (Release DecodeJob) (trace w) = 2%nat.
Proof.
  split; [reflexivity|].
  do 2 eexists. split; [vm_compute; reflexivity|].
  eapply (proj1 (decode_job_releases_per_session tiny_stub "a.braw" "a.ppm" 0
                   S_OK good_frame eq_refl eq_refl eq_refl eq_refl eq_refl eq_refl)).
  - reflexivity.
  - vm_compute. reflexivity.
Defined.

(** X12.  A frame index inside the clip (the frame count fits an [int]) passes
    the range check of each file, and the read job is created for exactly
    that frame: CreateJobReadFrame is called once with the index given and
    with no other. *)
Theorem valid_index_is_read (v : Vendor) (path out : string) (index other : Z) :
  opens v = true ->
  succeeded (set_callback v) = true ->
  0 <= index < frameCount v ->
  frameCount v < 2 ^ 31 ->
  other <> index ->
  (forall r w,
     Extract.extract_frame v None path index out start = Returns r w ->
     count (CreateJobReadFrame index) (trace w) = 1%nat
     /\ count (CreateJobReadFrame other) (trace w) = 0%nat)
  /\ (forall g r w,
     Extractor.extract_frame v g path index out start = Returns r w ->
     count (CreateJobReadFrame index) (trace w) = 1%nat
     /\ count (CreateJobReadFrame other) (trace w) = 0%nat)
  /\ (forall r w,
     Addon.ExtractFrame v path index start = Returns r w ->
     count (CreateJobReadFrame index) (trace w) = 1%nat
     /\ count (CreateJobReadFrame other) (trace w) = 0%nat).
Proof.
  intros Hopen Hcb Hin Hsmall Hother.
  assert (Hint : passes_int_check v index = true).
  { unfold passes_int_check. rewrite to_int_small by lia.
    apply negb_true_iff, orb_false_iff.
    split; [apply Z.ltb_ge | rewrite Z.geb_leb; apply Z.leb_gt]; lia. }
  assert (Hlong : passes_long_check v index = true).
  { unfold passes_long_check. rewrite to_long_small by lia.
    apply negb_true_iff, orb_false_iff.
    split; [apply Z.ltb_ge | rewrite Z.geb_leb; apply Z.leb_gt]; lia. }
  clear Hin Hsmall.
  open_vendor v. open_succeeded Hopen. passes Hint. passes Hlong.
  split; [|split].
  - intros r w. wp_session. unfold start. wp_run. all: split; tally.
  - intros g r w. wp_session. unfold start. wp_run. all: split; tally.
  - intros r w. wp_session. unfold start. wp_run. all: split; tally.
Qed.

Lemma valid_index_is_read_witness :
  opens tiny_stub = true
  /\ succeeded (set_callback tiny_stub) = true
  /\ 0 <= 3 < frameCount tiny_stub
  /\ frameCount tiny_stub < 2 ^ 31
  /\ 4 <> 3
  /\ exists r w,
       Addon.ExtractFrame tiny_stub "a.braw" 3 start = Returns r w
       /\ count (CreateJobReadFrame 3) (trace w) = 1%nat
       /\ count (CreateJobReadFrame 4) (trace w) = 0%nat.
Proof.
  assert (Hcount : frameCount tiny_stub = 10) by reflexivity.
  split; [reflexivity|]. split; [reflexivity|].
  split; [rewrite Hcount; lia|]. split; [rewrite Hcount; lia|]. split; [lia|].
  do 2 eexists. split; [vm_compute; reflexivity|].
  eapply (proj2 (proj2 (valid_index_is_read tiny_stub "a.braw" "a.ppm" 3 4
                          eq_refl eq_refl
                          ltac:(rewrite Hcount; lia) ltac:(rewrite Hcount; lia)
                          ltac:(lia)))).
  vm_compute. reflexivity.
Defined.

Lemma bind_ext {A B} (c : M A) (k1 k2 : A -> M B) w :
  (forall a w', k1 a w' = k2 a w') -> bind c k1 w = bind c k2 w.
Proof. intros H. unfold bind. destruct (c w); auto. Qed.

Lemma bind_cong {A B} (c1 c2 : M A) (k : A -> M B) w :
  c1 w = c2 w -> bind c1 k w = bind c2 k w.
Proof. intros H. unfold bind. now rewrite H. Qed.

Lemma flush_status_ext {Sink} {H : IBlackmagicRawCallback Sink} {B} v s cb
    (k1 k2 : HRESULT * Sink -> M B) w :
  (forall cb' w', k1 (s, cb') w' = k2 (flush_jobs v, cb') w') ->
  bind (flush (with_flush_status v s) cb) k1 w = bind (flush v cb) k2 w.
Proof.
  intros Hk. unfold flush, bind, call, ret.
  change (run_pipeline (with_flush_status v s) cb) with (run_pipeline v cb).
  destruct (run_pipeline v cb _); [apply Hk | reflexivity].
Qed.

Ltac same_run :=
  repeat first
    [ apply flush_status_ext; intros ? ?; cbn [snd]; reflexivity
    | apply bind_ext; intros ? ?
    | match goal with
      | |- (if ?b then _ else _) _ = _ => destruct b
      | |- (match ?x with _ => _ end) _ = _ => destruct x
      | |- ret _ _ = _ => reflexivity
      end
    | reflexivity ].

Ltac other_fields v s :=
  change (factory (with_flush_status v s)) with (factory v);
  change (create_codec (with_flush_status v s)) with (create_codec v);
  change (open_clip (with_flush_status v s)) with (open_clip v);
  change (get_frame_count (with_flush_status v s)) with (get_frame_count v);
  change (set_callback (with_flush_status v s)) with (set_callback v);
  change (create_job_read_frame (with_flush_status v s)) with (create_job_read_frame v);
  change (read_submit (with_flush_status v s)) with (read_submit v);
  change (output_file_opens (with_flush_status v s)) with (output_file_opens v).

(** X13.  The addon and braw-extractor.cpp never look at what FlushJobs returns:
    with any other status in its place they make the same calls and return
    the same result, from any state. *)
Theorem FlushJobs_status_is_ignored (v : Vendor) (s : HRESULT) (path out : string)
    (index : Z) (g : Extractor.Statics) (w : World) :
  Addon.ExtractFrame (with_flush_status v s) path index w
  = Addon.ExtractFrame v path index w
  /\ Extractor.extract_frame (with_flush_status v s) g path index out w
     = Extractor.extract_frame v g path index out w.
Proof.
  split.
  - unfold Addon.ExtractFrame. apply bind_cong.
    unfold Addon.ExtractFrame_body. other_fields v s. same_run.
  - unfold Extractor.extract_frame. cbv zeta. apply bind_cong.
    unfold Extractor.extract_frame_body. other_fields v s. same_run.
Qed.

(** ** What the exported functions of the addon return *)

(** X14.  The object that ExtractFrame and ExtractMetadata return is always
    one of two shapes: [success = true] with the numbers (and, for a frame,
    the buffer), no error text and no key of the other operation, or
    [success = false] with an error text and none of the payload keys
    (buffer, width, height, frame_count, frame_rate, duration).  Arguments
    of the wrong kind are answered with a TypeError and an empty object,
    before any call into the SDK. *)
Theorem Addon_objects_have_a_shape (v : Vendor) (info : list Addon.JsValue) :
  (forall r w,
     Addon.ExtractFrame_info v info start = Returns r w ->
     if frame_arguments info
     then snd r = None /\ frame_shape (fst r) = true
     else r = ([], Some "Expected (string filePath, number frameIndex)"%string)
          /\ trace w = [])
  /\ (forall r w,
     Addon.ExtractMetadata_info v info start = Returns r w ->
     if metadata_arguments info
     then snd r = None /\ metadata_shape (fst r) = true
     else r = ([], Some "String expected for file path"%string)
          /\ trace w = []).
Proof.
  split.
  - intros r w. wp_session.
    unfold Addon.ExtractFrame_info, frame_arguments.
    destruct (nth_error info 0) as [[filePath|n|]|];
      try (apply wp_ret; split; reflexivity);
      destruct (nth_error info 1) as [[s|frameIndex|]|];
      try (apply wp_ret; split; reflexivity).
    open_vendor v. unfold start. wp_run. all: split; reflexivity.
  - intros r w. wp_session.
    unfold Addon.ExtractMetadata_info, metadata_arguments.
    destruct (nth_error info 0) as [[filePath|n|]|];
      try (apply wp_ret; split; reflexivity).
    open_vendor v. unfold start. wp_run. all: split; reflexivity.
Qed.

Lemma Addon_objects_have_a_shape_witness :
  (exists r w,
     Addon.ExtractFrame_info tiny_stub [Addon.JsString "a.braw"; Addon.JsNumber 0] start
     = Returns r w
     /\ snd r = None /\ frame_shape (fst r) = true)
  /\ (exists r w,
     Addon.ExtractFrame_info tiny_stub [Addon.JsString "a.braw"] start = Returns r w
     /\ r = ([], Some "Expected (string filePath, number frameIndex)"%string)
     /\ trace w = []).
Proof.
  split.
  - do 2 eexists. split; [vm_compute; reflexivity|].
    eapply (proj1 (Addon_objects_have_a_shape tiny_stub
                     [Addon.JsString "a.braw"; Addon.JsNumber 0])).
    vm_compute. reflexivity.
  - do 2 eexists. split; [vm_compute; reflexivity|].
    eapply (proj1 (Addon_objects_have_a_shape tiny_stub [Addon.JsString "a.braw"])).
    vm_compute. reflexivity.
Defined.

(** ** The command-line tools *)

Ltac settle_status :=
  unfold exit_error, Extractor.exit_status;
  cbn [fst snd status json Extractor.result json_success negb orb andb];
  repeat match goal with
         | H : succeeded ?x = _ |- context [succeeded ?x] => rewrite H
         end;
  try reflexivity.

(** X15.  The exit status of braw-extract.cpp is 0 when it printed a
    success object (metadata or frame) and 1 with every error object and
    every usage message.  braw-extractor.cpp does the same with one
    exception: when the factory cannot be created it prints the error
    object "Failed to create factory" and exits with status 0. *)
Theorem exit_status_tells_success (v : Vendor) (number : string -> Z)
    (argv : list string) :
  (forall r w,
     Extract.main v number argv start = Returns r w ->
     fst r = match snd r with
             | Some e => if json_success (json e) then 0 else 1
             | None => 1
             end)
  /\ (forall r w,
     Extractor.main v number argv start = Returns r w ->
     fst r = match snd r with
             | Some e => if factory v
                         then if json_success (json e) then 0 else 1
                         else 0
             | None => 1
             end
     /\ (factory v = false ->
         forall e, snd r = Some e -> json e = JsonError Failed_to_create_factory)).
Proof.
  split.
  - intros r w. wp_session. open_vendor v. unfold start. wp_run.
    all: settle_status.
  - intros r w. wp_session. open_vendor v. unfold start. wp_run.
    all: split;
      [ settle_status
      | intros Hfac exit0 Hexit; try discriminate Hfac; try discriminate Hexit;
        injection Hexit as <-; reflexivity ].
Qed.

Lemma exit_status_tells_success_witness :
  (exists r w,
     Extract.main tiny_stub (fun _ => 0)
       ["braw-extract"; "extract"; "a.braw"; "0"; "a.ppm"]%string start = Returns r w
     /\ fst r = match snd r with
                | Some e => if json_success (json e) then 0 else 1
                | None => 1
                end)
  /\ (exists r w,
     Extractor.main no_factory_stub (fun _ => 0)
       ["braw-extractor"; "metadata"; "a.braw"]%string start = Returns r w
     /\ fst r = 0
     /\ fst r = match snd r with
                | Some e => if factory no_factory_stub
                            then if json_success (json e) then 0 else 1
                            else 0
                | None => 1
                end
     /\ (factory no_factory_stub = false ->
         forall e, snd r = Some e -> json e = JsonError Failed_to_create_factory)).
Proof.
  split.
  - do 2 eexists. split; [vm_compute; reflexivity|].
    eapply (proj1 (exit_status_tells_success tiny_stub (fun _ => 0)
                     ["braw-extract"; "extract"; "a.braw"; "0"; "a.ppm"]%string)).
    vm_compute. reflexivity.
  - do 2 eexists. split; [vm_compute; reflexivity|]. split; [reflexivity|].
    eapply (proj2 (exit_status_tells_success no_factory_stub (fun _ => 0)
                     ["braw-extractor"; "metadata"; "a.braw"]%string)).
    vm_compute. reflexivity.
Defined.

Lemma eqb_of_nat n m : (Z.of_nat n =? Z.of_nat m) = (n =? m)%nat.
Proof.
  destruct (Nat.eqb_spec n m) as [->|H]; [apply Z.eqb_refl|].
  apply Z.eqb_neq. lia.
Qed.

(** X16.  [main] acts on two kinds of command line only: "metadata" with one
    more argument and "extract" with three more.  On every other command
    line (too few or too many arguments, another command word) both tools
    return status 1 without a single call into the SDK. *)
Theorem main_rejects_other_commands (v : Vendor) (number : string -> Z)
    (argv : list string) (w : World) :
  well_formed_command argv = false ->
  Extract.main v number argv w = Returns (1, None) w
  /\ Extractor.main v number argv w = Returns (1, None) w.
Proof.
  unfold well_formed_command, Extract.main, Extractor.main. cbv zeta.
  change 3 with (Z.of_nat 3). change 5 with (Z.of_nat 5).
  rewrite !eqb_of_nat.
  intros H. apply orb_false_iff in H. destruct H as [Hm He].
  destruct (Z.of_nat (List.length argv) <? Z.of_nat 3); [split; reflexivity|].
  destruct (String.eqb (nth 1 argv EmptyString) "metadata").
  - rewrite andb_true_r in Hm. rewrite Hm. split; reflexivity.
  - destruct (String.eqb (nth 1 argv EmptyString) "extract"); [|split; reflexivity].
    rewrite andb_true_r in He. rewrite He. split; reflexivity.
Qed.

Lemma main_rejects_other_commands_witness :
  well_formed_command ["braw-extract"; "extract"; "a.braw"; "0"]%string = false
  /\ Extract.main clip_stub (fun _ => 0)
       ["braw-extract"; "extract"; "a.braw"; "0"]%string start
     = Returns (1, None) start.
Proof.
  split; [reflexivity|].
  apply (proj1 (main_rejects_other_commands clip_stub (fun _ => 0)
                  ["braw-extract"; "extract"; "a.braw"; "0"]%string start eq_refl)).
Defined.

(** X17.  Two calls of extract_frame of braw-extract.cpp in a row, the second
    one finding the sink that the first one left in [g_callback]: the
    second call destroys that sink before anything else, so that after it
    every image retained in either call has been released as often as
    retained, except the image that the new sink holds. *)
Theorem Extract_sessions_compose (v1 v2 : Vendor) (path1 path2 out1 out2 : string)
    (index1 index2 : Z) :
  forall r1 w1 r2 w2,
    Extract.extract_frame v1 None path1 index1 out1 start = Returns r1 w1 ->
    Extract.extract_frame v2 (Some (snd r1)) path2 index2 out2 w1 = Returns r2 w2 ->
    balanced (Extract.processed_image (snd r1)) (trace w1)
    /\ balanced (Extract.processed_image (snd r2)) (trace w2).
Proof.
  intros r1 w1 r2 w2 H1 H2.
  assert (Hstart : holding None start) by (intros id; reflexivity).
  pose proof (Extract_session_keeps v1 None path1 index1 out1 start Hstart) as K1.
  rewrite H1 in K1.
  pose proof (Extract_session_keeps v2 (Some (snd r1)) path2 index2 out2 w1 K1) as K2.
  rewrite H2 in K2.
  split; assumption.
Qed.

Lemma Extract_sessions_compose_witness :
  exists r1 w1 r2 w2,
    Extract.extract_frame tiny_stub None "a.braw" 0 "a.ppm" start = Returns r1 w1
    /\ Extract.extract_frame tiny_stub (Some (snd r1)) "a.braw" 1 "b.ppm" w1
       = Returns r2 w2
    /\ balanced (Extract.processed_image (snd r1)) (trace w1)
    /\ balanced (Extract.processed_image (snd r2)) (trace w2).
Proof.
  do 4 eexists. split; [vm_compute; reflexivity|]. split; [vm_compute; reflexivity|].
  eapply (Extract_sessions_compose tiny_stub tiny_stub "a.braw" "a.braw" "a.ppm" "b.ppm"
            0 1).
  - vm_compute. reflexivity.
  - vm_compute. reflexivity.
Defined.

(** X18.  braw-extractor.cpp reports a frame as extracted only on the strength
    of a file written during this very call: whatever the file-scope
    variables held before ([g_output_success] left set by an earlier call
    included), a success object comes with exit status 0 and with a file
    that is the PPM of an image of the reported width and height. *)
Theorem Extractor_success_has_its_file (v : Vendor) (g : Extractor.Statics)
    (path out : string) (index : Z) :
  forall r w,
    Extractor.extract_frame v g path index out start = Returns r w ->
    json_success (json (fst r)) = true ->
    status (fst r) = 0
    /\ exists width height data,
         json (fst r) = JsonFrame out width height
         /\ file (fst r) = write_ppm true width height data.
Proof.
  intros r w. wp_session. open_vendor v. unfold start. wp_run.
  all: intros Hjson; try discriminate Hjson.
  all: split; [settle_status|].
  all: match goal with
       | Hf : file_matches _ -> file_matches ?g0,
         Hs : Extractor.g_output_success ?g0 = true |- _ =>
           destruct (Hf ltac:(intros Hx; discriminate Hx) Hs) as [data Hdata]
       end.
  all: do 3 eexists; split; [reflexivity | exact Hdata].
Qed.

Lemma Extractor_success_has_its_file_witness :
  exists r w,
    Extractor.extract_frame tiny_stub stale_statics "a.braw" 0 "a.ppm" start
    = Returns r w
    /\ json_success (json (fst r)) = true
    /\ status (fst r) = 0
    /\ exists width height data,
         json (fst r) = JsonFrame "a.ppm" width height
         /\ file (fst r) = write_ppm true width height data.
Proof.
  do 2 eexists. split; [vm_compute; reflexivity|]. split; [reflexivity|].
  eapply (Extractor_success_has_its_file tiny_stub stale_statics "a.braw" "a.ppm" 0).
  - vm_compute. reflexivity.
  - reflexivity.
Defined.

(** ** Null pointers handed out with S_OK *)

(** X19.  braw-extract.cpp tests every pointer it is handed before it uses it:
    its metadata query returns whatever the SDK answers.  The addon and
    braw-extractor.cpp test the status only: their metadata query calls a
    method through a null pointer exactly when CreateCodec or OpenClip
    reports S_OK and hands out no object, and returns in every other
    case. *)
Theorem metadata_null_handles (v : Vendor) (path : string) :
  (exists r w, Extract.extract_metadata v path start = Returns r w)
  /\ (Extractor.extract_metadata v path start = Undefined
      <-> hands_out_null v = true)
  /\ (Addon.ExtractMetadata v path start = Undefined
      <-> hands_out_null v = true).
Proof.
  unfold hands_out_null, null_with_S_OK.
  open_vendor v.
  split; [|split].
  - unfold Extract.extract_metadata. unfold_calls. cbn.
    destruct fac; cbn; [|repeat eexists].
    destruct (succeeded cst); cbn; [|repeat eexists].
    destruct cptr; cbn; [|repeat eexists].
    destruct (succeeded ost); cbn; [|repeat eexists].
    destruct optr; cbn; repeat eexists.
  - unfold Extractor.extract_metadata, Extractor.extract_metadata_body,
      Extractor.release_all.
    unfold_calls. cbn.
    destruct fac; cbn; [|split; discriminate].
    destruct (succeeded cst); cbn; [|destruct cptr; split; discriminate].
    destruct cptr; cbn; [|split; reflexivity].
    destruct (succeeded ost); cbn; [|destruct optr; split; discriminate].
    destruct optr; cbn; split; try reflexivity; discriminate.
  - unfold Addon.ExtractMetadata, Addon.ExtractMetadata_body, Addon.release_all.
    unfold_calls. cbn.
    destruct fac; cbn; [|split; discriminate].
    destruct (succeeded cst); cbn; [|destruct cptr; split; discriminate].
    destruct cptr; cbn; [|split; reflexivity].
    destruct (succeeded ost); cbn; [|destruct optr; split; discriminate].
    destruct optr; cbn; split; try reflexivity; discriminate.
Qed.

Lemma metadata_null_handles_witness :
  hands_out_null null_codec_stub = true
  /\ Addon.ExtractMetadata null_codec_stub "a.braw" start = Undefined
  /\ exists r w, Extract.extract_metadata null_codec_stub "a.braw" start = Returns r w.
Proof.
  split; [reflexivity|]. split.
  - apply (proj2 (proj2 (metadata_null_handles null_codec_stub "a.braw"))).
    reflexivity.
  - apply (proj1 (metadata_null_handles null_codec_stub "a.braw")).
Defined.
